(** * fs/f2fs/namei.c: namespace operations of f2fs

    A shallow embedding of the directory operations of [namei.c] and the
    properties the design document states about them.

    Conventions.
    - C integers are [Z]; an [int] return value is [0] on success and a
      negated errno on failure.  [i_nlink] is an [unsigned int] and wraps
      modulo [2^32].
    - A [char] buffer is a [list Z] of byte values; reading index [i] is a
      list lookup.
    - A [struct inode *] is the inode number ([nid]); [0] stands for [NULL].
      The in-memory inodes live in a finite map of the superblock state.
    - Page pinning ([kmap], [f2fs_put_page]), time stamps and trace points
      carry no namespace state and are left out.
    - Functions of the file system that live outside [namei.c] ([dir.c],
      [checkpoint.c], [inode.c], the crypto layer, the VFS) are modelled in
      the section "Collaborators"; where they can fail for reasons the
      namespace state does not determine (memory, I/O, space), the failure
      is an explicit argument of the caller's environment record. *)

From Stdlib Require Import ZArith Lia Ascii String.
From stdpp Require Import base option list gmap.

Local Open Scope Z_scope.

(** ** Error numbers and mode bits (uapi constants; the mode bits are the
    octal 0170000, 0040000, 0020000, 0100000, 0120000 and 0777) *)

Definition EPERM : Z := 1.
Definition ENOENT : Z := 2.
Definition EIO : Z := 5.
Definition ENOMEM : Z := 12.
Definition EINVAL : Z := 22.
Definition ENOSPC : Z := 28.
Definition EMLINK : Z := 31.
Definition ENAMETOOLONG : Z := 36.
Definition ENOTEMPTY : Z := 39.

Definition S_IFMT : Z := 0xF000.
Definition S_IFDIR : Z := 0x4000.
Definition S_IFCHR : Z := 0x2000.
Definition S_IFREG : Z := 0x8000.
Definition S_IFLNK : Z := 0xA000.
Definition S_IRWXUGO : Z := 0x1FF.
Definition WHITEOUT_MODE : Z := 0.

Definition S_ISDIR (m : Z) : bool := Z.land m S_IFMT =? S_IFDIR.
Definition S_ISREG (m : Z) : bool := Z.land m S_IFMT =? S_IFREG.
Definition S_ISLNK (m : Z) : bool := Z.land m S_IFMT =? S_IFLNK.

Definition RENAME_NOREPLACE : Z := 1.
Definition RENAME_EXCHANGE : Z := 2.
Definition RENAME_WHITEOUT : Z := 4.

(** The name length limit of the on-disk format ([f2fs_fs.h]). *)
Definition F2FS_NAME_LEN : Z := 255.

(** ** Byte strings *)

(** The bytes of a string literal. *)
Definition cstr (s : string) : list Z :=
  (fun c => Z.of_N (N_of_ascii c)) <$> list_ascii_of_string s.

(** [name[i]]: a name buffer is NUL-terminated, so the byte behind the last
    one reads as [0]. *)
Definition char_at (name : list Z) (i : nat) : Z := default 0 (name !! i).

Definition DOT : Z := 46.

(** Modelled from the spec: the kernel's [tolower] of [linux/ctype.h], which
    is not part of the sources; "case-insensitive" over Latin-1, where the
    upper-case letters are [A]-[Z] and 0xC0-0xDE without 0xD7. *)
Definition isupper (c : Z) : bool :=
  ((65 <=? c) && (c <=? 90)) || ((192 <=? c) && (c <=? 214))
  || ((216 <=? c) && (c <=? 222)).

Definition tolower (c : Z) : Z := if isupper c then c + 32 else c.

(** Modelled from the spec: [strncasecmp] of [lib/string.c], the
    "case-insensitive byte comparison" over at most [len] bytes.  The loop
    [do { c1 = *s1++; c2 = *s2++; if (!c1 || !c2) break; if (c1 == c2)
    continue; c1 = tolower(c1); c2 = tolower(c2); if (c1 != c2) break; }
    while (--len); return c1 - c2;] leaves with [c1 == c2] when [len] runs
    out. *)
Fixpoint strncasecmp (s1 s2 : list Z) (len : nat) : Z :=
  match len with
  | O => 0
  | S len' =>
      let c1 := char_at s1 0 in
      let c2 := char_at s2 0 in
      if (c1 =? 0) || (c2 =? 0) then c1 - c2
      else if c1 =? c2 then strncasecmp (tail s1) (tail s2) len'
      else if negb (tolower c1 =? tolower c2) then tolower c1 - tolower c2
      else strncasecmp (tail s1) (tail s2) len'
  end.

(** ** dcache operations *)

Record qstr := QSTR_INIT { qstr_name : list Z; qstr_len : nat }.

(** [while (len && name[len - 1] == '.') len--; return len;] *)
Fixpoint __f2fs_striptail_len (len : nat) (name : list Z) : nat :=
  match len with
  | O => O
  | S n => if char_at name n =? DOT then __f2fs_striptail_len n name else len
  end.

Definition f2fs_striptail_len (q : qstr) : nat :=
  __f2fs_striptail_len (qstr_len q) (qstr_name q).

Definition f2fs_d_compare (len : nat) (str : list Z) (name : qstr) : Z :=
  let alen := f2fs_striptail_len name in
  let blen := __f2fs_striptail_len len str in
  if (alen =? blen)%nat then
    if strncasecmp (qstr_name name) str alen =? 0 then 0 else 1
  else 1.

(** A name as the dcache hands it over: the buffer with its length. *)
Definition QSTR (n : list Z) : qstr := QSTR_INIT n (length n).

(** The comparison in the words of the design document: strip every trailing
    dot, then compare the stripped lengths and, case-folded, the bytes over
    that length. *)
Fixpoint strip_trailing_dots (n : list Z) : list Z :=
  match n with
  | [] => []
  | c :: r =>
      match strip_trailing_dots r with
      | [] => if c =? DOT then [] else [c]
      | r' => c :: r'
      end
  end.

Definition names_equal_nocase (a b : list Z) : Prop :=
  length (strip_trailing_dots a) = length (strip_trailing_dots b) ∧
  tolower <$> take (length (strip_trailing_dots a)) a =
  tolower <$> take (length (strip_trailing_dots a)) b.

(** ** Inodes, directory entries and the superblock state *)

(** A directory entry: the name and the inode number it refers to. *)
Record f2fs_dir_entry := DirEntry { de_name : list Z; de_ino : Z }.

#[global] Instance f2fs_dir_entry_eq_dec : EqDecision f2fs_dir_entry.
Proof. solve_decision. Defined.

(** The in-memory inode, with the fields [namei.c] reads or writes.
    [fi_flags] is the flag word of [f2fs_inode_info], [i_advise] its advise
    byte; [i_name] is the name recorded in the inode's node page; [i_data]
    is the content of the first data page (the target of a symlink);
    [i_dirsync] is what [IS_DIRSYNC] answers for the inode. *)
Record inode := Inode {
  i_mode : Z;
  i_nlink : Z;
  i_state : Z;
  i_size : Z;
  i_dirsync : bool;
  fi_flags : Z;
  i_advise : Z;
  i_name : list Z;
  i_data : list Z
}.

Definition zero_inode : inode := Inode 0 0 0 0 false 0 0 [] [].

Definition set_i_nlink (v : Z) (i : inode) : inode :=
  Inode (i_mode i) v (i_state i) (i_size i) (i_dirsync i) (fi_flags i)
        (i_advise i) (i_name i) (i_data i).
Definition set_i_state (v : Z) (i : inode) : inode :=
  Inode (i_mode i) (i_nlink i) v (i_size i) (i_dirsync i) (fi_flags i)
        (i_advise i) (i_name i) (i_data i).
Definition set_fi_flags (v : Z) (i : inode) : inode :=
  Inode (i_mode i) (i_nlink i) (i_state i) (i_size i) (i_dirsync i) v
        (i_advise i) (i_name i) (i_data i).
Definition set_i_advise (v : Z) (i : inode) : inode :=
  Inode (i_mode i) (i_nlink i) (i_state i) (i_size i) (i_dirsync i)
        (fi_flags i) v (i_name i) (i_data i).
Definition set_i_name (v : list Z) (i : inode) : inode :=
  Inode (i_mode i) (i_nlink i) (i_state i) (i_size i) (i_dirsync i)
        (fi_flags i) (i_advise i) v (i_data i).
Definition set_i_data (v : list Z) (i : inode) : inode :=
  Inode (i_mode i) (i_nlink i) (i_state i) (Z.of_nat (length v)) (i_dirsync i)
        (fi_flags i) (i_advise i) (i_name i) v.

(** What the operations do to the shared structures, in program order. *)
Inductive event :=
| EvBalanceFs
| EvLockOp
| EvUnlockOp
| EvFindEntry (dir : Z) (name : list Z)
| EvAddLink (dir : Z) (name : list Z) (ino : Z)
| EvDeleteEntry (dir : Z) (slot : nat)
| EvSetLink (dir : Z) (slot : nat) (ino : Z)
| EvAcquireOrphan
| EvReleaseOrphan
| EvAddOrphan (ino : Z)
| EvAllocNidDone (ino : Z)
| EvInstantiate (name : list Z) (ino : Z)
| EvIput (ino : Z)
| EvSyncFs.

#[global] Instance event_eq_dec : EqDecision event.
Proof. solve_decision. Defined.

(** The state of one mounted file system: the inode cache, the dentry slots
    of every directory (a deleted entry leaves an empty slot), the free node
    ids, the orphan manager, the holders of the ordering lock [cp_rwsem],
    the block size, two mount options and the log of events. *)
Record f2fs_sb_info := SBI {
  inodes : gmap Z inode;
  dentries : gmap Z (list (option f2fs_dir_entry));
  free_nids : list Z;
  n_orphans : Z;
  max_orphans : Z;
  orphan_list : list Z;
  cp_rwsem : Z;
  s_blocksize : Z;
  opt_inline_data : bool;
  opt_inline_dentry : bool;
  log : list event
}.

Definition set_inodes (v : gmap Z inode) (s : f2fs_sb_info) : f2fs_sb_info :=
  SBI v (dentries s) (free_nids s) (n_orphans s) (max_orphans s)
      (orphan_list s) (cp_rwsem s) (s_blocksize s) (opt_inline_data s)
      (opt_inline_dentry s) (log s).
Definition set_dentries (v : gmap Z (list (option f2fs_dir_entry)))
    (s : f2fs_sb_info) : f2fs_sb_info :=
  SBI (inodes s) v (free_nids s) (n_orphans s) (max_orphans s)
      (orphan_list s) (cp_rwsem s) (s_blocksize s) (opt_inline_data s)
      (opt_inline_dentry s) (log s).
Definition set_free_nids (v : list Z) (s : f2fs_sb_info) : f2fs_sb_info :=
  SBI (inodes s) (dentries s) v (n_orphans s) (max_orphans s)
      (orphan_list s) (cp_rwsem s) (s_blocksize s) (opt_inline_data s)
      (opt_inline_dentry s) (log s).
Definition set_n_orphans (v : Z) (s : f2fs_sb_info) : f2fs_sb_info :=
  SBI (inodes s) (dentries s) (free_nids s) v (max_orphans s)
      (orphan_list s) (cp_rwsem s) (s_blocksize s) (opt_inline_data s)
      (opt_inline_dentry s) (log s).
Definition set_orphan_list (v : list Z) (s : f2fs_sb_info) : f2fs_sb_info :=
  SBI (inodes s) (dentries s) (free_nids s) (n_orphans s) (max_orphans s)
      v (cp_rwsem s) (s_blocksize s) (opt_inline_data s)
      (opt_inline_dentry s) (log s).
Definition set_cp_rwsem (v : Z) (s : f2fs_sb_info) : f2fs_sb_info :=
  SBI (inodes s) (dentries s) (free_nids s) (n_orphans s) (max_orphans s)
      (orphan_list s) v (s_blocksize s) (opt_inline_data s)
      (opt_inline_dentry s) (log s).
Definition emit (e : event) (s : f2fs_sb_info) : f2fs_sb_info :=
  SBI (inodes s) (dentries s) (free_nids s) (n_orphans s) (max_orphans s)
      (orphan_list s) (cp_rwsem s) (s_blocksize s) (opt_inline_data s)
      (opt_inline_dentry s) (log s ++ [e]).

(** [*inode]: the inode a pointer refers to. *)
Definition inode_of (s : f2fs_sb_info) (ino : Z) : inode :=
  default zero_inode (inodes s !! ino).

(** A store through an inode pointer. *)
Definition upd_inode (f : inode → inode) (ino : Z) (s : f2fs_sb_info)
  : f2fs_sb_info :=
  set_inodes (alter f ino (inodes s)) s.

(** The dentry slots of a directory. *)
Definition dir_slots (s : f2fs_sb_info) (dir : Z)
  : list (option f2fs_dir_entry) :=
  default [] (dentries s !! dir).

(** The VFS dentry: its name, the inode it is bound to ([0] for a negative
    dentry), the inode of its parent directory, and whether it and its
    parent carry the case-insensitive [f2fs_dops]. *)
Record dentry := Dentry {
  d_name : list Z;
  d_inode : Z;
  d_parent : Z;
  d_op : bool;
  d_parent_op : bool
}.

(** ** Collaborators *)

(** Flag numbers of [f2fs_inode_info.flags] ([f2fs.h]); the properties below
    use only that they differ. *)
Definition FI_INC_LINK : Z := 3.
Definition FI_FREE_NID : Z := 6.
Definition FI_INLINE_DATA : Z := 11.
Definition FI_INLINE_DENTRY : Z := 12.
Definition FI_INLINE_DOTS : Z := 21.

Definition set_inode_flag (flag : Z) (ino : Z) (s : f2fs_sb_info) :=
  upd_inode (λ i, set_fi_flags (Z.setbit (fi_flags i) flag) i) ino s.
Definition clear_inode_flag (flag : Z) (ino : Z) (s : f2fs_sb_info) :=
  upd_inode (λ i, set_fi_flags (Z.clearbit (fi_flags i) flag) i) ino s.
Definition is_inode_flag_set (s : f2fs_sb_info) (ino : Z) (flag : Z) : bool :=
  Z.testbit (fi_flags (inode_of s ino)) flag.
Definition f2fs_has_inline_dots (s : f2fs_sb_info) (ino : Z) : bool :=
  is_inode_flag_set s ino FI_INLINE_DOTS.

(** Advise bits ([f2fs.h]). *)
Definition FADVISE_LOST_PINO_BIT : Z := 0x02.
Definition FADVISE_ENCRYPT_BIT : Z := 0x04.
Definition FADVISE_ENC_NAME_BIT : Z := 0x08.

Definition f2fs_encrypted_inode (s : f2fs_sb_info) (ino : Z) : bool :=
  negb (Z.land (i_advise (inode_of s ino)) FADVISE_ENCRYPT_BIT =? 0).
Definition f2fs_set_encrypted_inode (ino : Z) (s : f2fs_sb_info) :=
  upd_inode (λ i, set_i_advise (Z.lor (i_advise i) FADVISE_ENCRYPT_BIT) i) ino s.
Definition file_enc_name (s : f2fs_sb_info) (ino : Z) : bool :=
  negb (Z.land (i_advise (inode_of s ino)) FADVISE_ENC_NAME_BIT =? 0).
Definition file_set_enc_name (ino : Z) (s : f2fs_sb_info) :=
  upd_inode (λ i, set_i_advise (Z.lor (i_advise i) FADVISE_ENC_NAME_BIT) i) ino s.
Definition file_lost_pino (ino : Z) (s : f2fs_sb_info) :=
  upd_inode (λ i, set_i_advise (Z.lor (i_advise i) FADVISE_LOST_PINO_BIT) i) ino s.

Definition I_LINKABLE : Z := 0x400.

(** Arithmetic on [unsigned int]. *)
Definition u32 (x : Z) : Z := x mod 2 ^ 32.

(** [inc_nlink], [drop_nlink] ([fs/inode.c]): the unsigned counter moves by
    one. *)
Definition inc_nlink (ino : Z) (s : f2fs_sb_info) :=
  upd_inode (λ i, set_i_nlink (u32 (i_nlink i + 1)) i) ino s.
Definition drop_nlink (ino : Z) (s : f2fs_sb_info) :=
  upd_inode (λ i, set_i_nlink (u32 (i_nlink i - 1)) i) ino s.
Definition inode_dec_link_count (ino : Z) (s : f2fs_sb_info) :=
  drop_nlink ino s.

Definition IS_DIRSYNC (s : f2fs_sb_info) (ino : Z) : bool :=
  i_dirsync (inode_of s ino).

Definition f2fs_lock_op (s : f2fs_sb_info) :=
  emit EvLockOp (set_cp_rwsem (cp_rwsem s + 1) s).
Definition f2fs_unlock_op (s : f2fs_sb_info) :=
  emit EvUnlockOp (set_cp_rwsem (cp_rwsem s - 1) s).
Definition f2fs_balance_fs (s : f2fs_sb_info) := emit EvBalanceFs s.
Definition f2fs_sync_fs (s : f2fs_sb_info) := emit EvSyncFs s.

(** Dropping a reference; evicting an inode nobody refers to is the
    business of the VFS. *)
Definition iput (ino : Z) (s : f2fs_sb_info) := emit (EvIput ino) s.

(** Modelled from the spec: the bit this tree's [namei.h] gives
    [LOOKUP_NOCASE] is not in the sources; it is taken to be the first bit
    above the lookup flags of the VFS.  The properties below do not depend
    on the choice. *)
Definition LOOKUP_NOCASE : Z := 0x8000.

(** Modelled from the spec: the Entry Index of [dir.c], "lookup, insert,
    remove and update of a single name to inode-id mapping inside one
    directory".  An entry is addressed by the number of its slot; [find]
    answers the first slot whose name matches, case-folded when the caller
    asks for it. *)
Definition de_match (nocase : bool) (name : list Z)
    (e : option f2fs_dir_entry) : bool :=
  match e with
  | None => false
  | Some d =>
      if nocase then bool_decide (tolower <$> de_name d = tolower <$> name)
      else bool_decide (de_name d = name)
  end.

Definition find_slot (nocase : bool) (name : list Z)
    (slots : list (option f2fs_dir_entry)) : option nat :=
  fst <$> list_find (λ e, de_match nocase name e = true) slots.

Definition f2fs_find_entry (dir : Z) (name : list Z) (flags : Z)
    (s : f2fs_sb_info) : option nat * f2fs_sb_info :=
  (find_slot (negb (Z.land flags LOOKUP_NOCASE =? 0)) name (dir_slots s dir),
   emit (EvFindEntry dir name) s).

(** [f2fs_parent_dir]: the [..] entry of a directory. *)
Definition f2fs_parent_dir (dir : Z) (s : f2fs_sb_info)
  : option nat * f2fs_sb_info :=
  f2fs_find_entry dir (cstr "..") 0 s.

(** Modelled from the spec: [insert(dir, name, inode) -> ok | error].  The
    entry goes into a new slot; [fault] is the error of a failed insertion
    ([0] for none), which leaves the directory as it was. *)
Definition __f2fs_add_link (fault : Z) (dir : Z) (name : list Z) (ino : Z)
    (s : f2fs_sb_info) : Z * f2fs_sb_info :=
  if fault =? 0 then
    (0, emit (EvAddLink dir name ino)
          (set_dentries
             (<[dir := dir_slots s dir ++ [Some (DirEntry name ino)]]>
                (dentries s)) s))
  else (fault, s).

(** [f2fs_add_link(dentry, inode)] is [__f2fs_add_link] on the dentry's
    parent and name. *)
Definition f2fs_add_link (fault : Z) (d : dentry) (ino : Z)
    (s : f2fs_sb_info) : Z * f2fs_sb_info :=
  __f2fs_add_link fault (d_parent d) (d_name d) ino s.

(** Modelled from the spec: [remove(entry) -> ok]; "removes the Namespace
    Entry, and leaves link-count decrement and orphan-list insertion to the
    inode's own finalization". *)
Definition f2fs_delete_entry (slot : nat) (dir : Z) (s : f2fs_sb_info) :=
  emit (EvDeleteEntry dir slot)
    (set_dentries (<[dir := <[slot := None]> (dir_slots s dir)]> (dentries s)) s).

(** Modelled from the spec: repointing an entry at another inode. *)
Definition f2fs_set_link (dir : Z) (slot : nat) (ino : Z) (s : f2fs_sb_info) :=
  emit (EvSetLink dir slot ino)
    (set_dentries
       (<[dir := alter (λ e, (λ d, DirEntry (de_name d) ino) <$> e) slot
                   (dir_slots s dir)]> (dentries s)) s).

(** Modelled from the spec: a directory is empty when it "contains only the
    two dot entries". *)
Definition is_dot_name (n : list Z) : bool :=
  bool_decide (n = cstr ".") || bool_decide (n = cstr "..").

Definition f2fs_empty_dir (s : f2fs_sb_info) (ino : Z) : bool :=
  forallb (λ e, match e with None => true | Some d => is_dot_name (de_name d) end)
          (dir_slots s ino).

(** Modelled from the spec: retargeting the name recorded in an inode,
    [retarget -> ok | error]; nothing is rewritten when the replaced inode
    has an encrypted name, and nothing on error. *)
Definition update_dent_inode (fault : Z) (ino to : Z) (name : list Z)
    (s : f2fs_sb_info) : Z * f2fs_sb_info :=
  if file_enc_name s to then (0, s)
  else if fault =? 0 then (0, upd_inode (set_i_name name) ino s)
  else (fault, s).

(** Modelled from the spec: the Orphan Registry of [checkpoint.c],
    [reserve() -> ok | exhausted], [add(id)], [release()]. *)
Definition acquire_orphan_inode (s : f2fs_sb_info) : Z * f2fs_sb_info :=
  if max_orphans s <=? n_orphans s then (- ENOSPC, s)
  else (0, emit EvAcquireOrphan (set_n_orphans (n_orphans s + 1) s)).

Definition release_orphan_inode (s : f2fs_sb_info) :=
  emit EvReleaseOrphan (set_n_orphans (n_orphans s - 1) s).

Definition add_orphan_inode (ino : Z) (s : f2fs_sb_info) :=
  emit (EvAddOrphan ino)
    (if bool_decide (ino ∈ orphan_list s) then s
     else set_orphan_list (ino :: orphan_list s) s).

(** Modelled from the spec: the identifier allocator of [node.c],
    [allocate_id() -> id | exhausted], [finalize(id)], [release(id)]. *)
Definition alloc_nid (s : f2fs_sb_info) : option Z * f2fs_sb_info :=
  match free_nids s with
  | [] => (None, s)
  | n :: r => (Some n, set_free_nids r s)
  end.
Definition alloc_nid_done (ino : Z) (s : f2fs_sb_info) :=
  emit (EvAllocNidDone ino) s.
Definition alloc_nid_failed (ino : Z) (s : f2fs_sb_info) :=
  set_free_nids (ino :: free_nids s) s.

(** Modelled from the spec: [handle_failed_inode] of [inode.c], "release
    identifier, discard inode"; it also releases the ordering lock its
    caller holds. *)
Definition handle_failed_inode (ino : Z) (s : f2fs_sb_info) :=
  f2fs_unlock_op
    (alloc_nid_failed ino (set_inodes (delete ino (inodes s)) s)).

Definition I_NEW : Z := 0x8.

Definition unlock_new_inode (ino : Z) (s : f2fs_sb_info) :=
  upd_inode (λ i, set_i_state (Z.ldiff (i_state i) I_NEW) i) ino s.

(** [d_instantiate_new] ([fs/dcache.c]): the dentry becomes visible, bound
    to the inode, which is no longer new. *)
Definition d_instantiate_new (d : dentry) (ino : Z) (s : f2fs_sb_info) :=
  unlock_new_inode ino (emit (EvInstantiate (d_name d) ino) s).

(** Inline eligibility ([f2fs.h]). *)
Definition f2fs_may_encrypt (mode : Z) : bool :=
  S_ISREG mode || S_ISDIR mode || S_ISLNK mode.
Definition f2fs_may_inline_data (s : f2fs_sb_info) (ino : Z) : bool :=
  opt_inline_data s
  && (S_ISREG (i_mode (inode_of s ino)) || S_ISLNK (i_mode (inode_of s ino)))
  && negb (f2fs_encrypted_inode s ino && S_ISREG (i_mode (inode_of s ino))).
Definition f2fs_may_inline_dentry (s : f2fs_sb_info) (ino : Z) : bool :=
  opt_inline_dentry s && S_ISDIR (i_mode (inode_of s ino)).
(** ** Inode bootstrap *)

Definition S_ISGID : Z := 0x400.

(** [inode_init_owner] ([fs/inode.c]): a directory created in a set-gid
    directory is set-gid as well. *)
Definition inode_init_owner (dir_mode mode : Z) : Z :=
  if negb (Z.land dir_mode S_ISGID =? 0) && S_ISDIR mode
  then Z.lor mode S_ISGID else mode.

(** [f2fs_new_inode]: [nomem] says that [new_inode] found no memory; the
    node id comes from the allocator; [insert_inode_locked] refuses an id
    the inode cache already holds.  The failed inode never enters the
    cache; with [nid_free] its id goes back to the allocator when it is
    put. *)
Definition f2fs_new_inode (nomem : bool) (dir : Z) (mode : Z)
    (s : f2fs_sb_info) : (Z + Z) * f2fs_sb_info :=
  if nomem then (inl (- ENOMEM), s)
  else
    let s := f2fs_lock_op s in
    let '(nid, s) := alloc_nid s in
    match nid with
    | None => (inl (- ENOSPC), f2fs_unlock_op s)
    | Some ino =>
        let s := f2fs_unlock_op s in
        let mode := inode_init_owner (i_mode (inode_of s dir)) mode in
        match inodes s !! ino with
        | Some _ => (inl (- EINVAL), alloc_nid_failed ino s)
        | None =>
            let s :=
              set_inodes
                (<[ino := Inode mode 1 I_NEW 0 false 0 0 [] []]> (inodes s)) s in
            let s :=
              if f2fs_encrypted_inode s dir && f2fs_may_encrypt mode
              then f2fs_set_encrypted_inode ino s else s in
            let s :=
              if f2fs_may_inline_data s ino
              then set_inode_flag FI_INLINE_DATA ino s else s in
            let s :=
              if f2fs_may_inline_dentry s ino
              then set_inode_flag FI_INLINE_DENTRY ino s else s in
            (inr ino, s)
        end
    end.

(** ** Dot-entry recovery and lookup *)

(** [__recover_dot_dentries(dir, pino)]; [fault_dot] and [fault_dotdot] are
    the errors of the two insertions, should they be attempted. *)
Definition __recover_dot_dentries (fault_dot fault_dotdot : Z) (dir pino : Z)
    (s : f2fs_sb_info) : Z * f2fs_sb_info :=
  let s := f2fs_lock_op s in
  let '(de, s) := f2fs_find_entry dir (cstr ".") 0 s in
  let '(err, s) :=
    match de with
    | Some _ => (0, s)
    | None => __f2fs_add_link fault_dot dir (cstr ".") dir s
    end in
  let '(err, s) :=
    if err =? 0 then
      let '(de, s) := f2fs_find_entry dir (cstr "..") 0 s in
      match de with
      | Some _ => (err, s)
      | None => __f2fs_add_link fault_dotdot dir (cstr "..") pino s
      end
    else (err, s) in
  let s := if err =? 0 then clear_inode_flag FI_INLINE_DOTS dir s else s in
  (err, f2fs_unlock_op s).

Record lookup_env := LookupEnv {
  le_iget : Z;            (* error of f2fs_iget, 0 for none *)
  le_recover_dot : Z;
  le_recover_dotdot : Z;
  le_getxattr : Z         (* result of f2fs_getxattr for the nocase attribute *)
}.

Definition d_set_d_op (d : dentry) : dentry :=
  Dentry (d_name d) (d_inode d) (d_parent d) true (d_parent_op d).

(** [f2fs_lookup]: answers [ERR_PTR(err)] as [inl err] and the inode that
    [d_splice_alias] binds to the dentry ([0] for none) as [inr]. *)
Definition f2fs_lookup (env : lookup_env) (dir : Z) (d : dentry) (flags : Z)
    (s : f2fs_sb_info) : (Z + Z) * dentry * f2fs_sb_info :=
  if Z.of_nat (length (d_name d)) >? F2FS_NAME_LEN
  then (inl (- ENAMETOOLONG), d, s)
  else
    let d := if negb (d_op d) && d_parent_op d then d_set_d_op d else d in
    let flags := if d_op d then Z.lor flags LOOKUP_NOCASE else flags in
    let '(de, s) := f2fs_find_entry dir (d_name d) flags s in
    match de with
    | None => (inr 0, d, s)
    | Some slot =>
        let ino :=
          default 0 (de_ino <$> mjoin (dir_slots s dir !! slot)) in
        if negb (le_iget env =? 0) then (inl (le_iget env), d, s)
        else
          let '(err, s) :=
            if f2fs_has_inline_dots s ino
            then __recover_dot_dentries (le_recover_dot env)
                   (le_recover_dotdot env) ino dir s
            else (0, s) in
          if negb (err =? 0) then (inl err, d, s)
          else
            let d :=
              if S_ISDIR (i_mode (inode_of s ino)) && negb (d_op d)
              then (if le_getxattr env >? 0 then d_set_d_op d else d)
              else d in
            (inr ino, d, s)
    end.

(** ** Removal *)

Definition f2fs_unlink (dir : Z) (d : dentry) (s : f2fs_sb_info)
  : Z * f2fs_sb_info :=
  let s := f2fs_balance_fs s in
  let '(de, s) := f2fs_find_entry dir (d_name d) 0 s in
  match de with
  | None => (- ENOENT, s)
  | Some de =>
      let s := f2fs_lock_op s in
      let '(err, s) := acquire_orphan_inode s in
      if negb (err =? 0) then (err, f2fs_unlock_op s)
      else
        let s := f2fs_delete_entry de dir s in
        let s := f2fs_unlock_op s in
        let s := if IS_DIRSYNC s dir then f2fs_sync_fs s else s in
        (0, s)
  end.

Definition f2fs_rmdir (dir : Z) (d : dentry) (s : f2fs_sb_info)
  : Z * f2fs_sb_info :=
  if f2fs_empty_dir s (d_inode d) then f2fs_unlink dir d s
  else (- ENOTEMPTY, s).

(** ** Symbolic links *)

(** [struct f2fs_encrypted_symlink_data] is packed: a 16-bit length and the
    first byte of the path. *)
Definition sizeof_f2fs_encrypted_symlink_data : Z := 3.

Definition encrypted_symlink_data_len (l : Z) : Z :=
  l + sizeof_f2fs_encrypted_symlink_data - 1.

Definition cpu_to_le16 (v : Z) : list Z := [v mod 256; (v / 256) mod 256].
Definition le16_to_cpu (b0 b1 : Z) : Z := b0 + 256 * b1.

(** [page_symlink(inode, symname, len)] ([fs/namei.c]) writes [len - 1]
    bytes into the first page of the inode. *)
Definition page_symlink (fault : Z) (ino : Z) (p_str : list Z) (p_len : Z)
    (s : f2fs_sb_info) : Z * f2fs_sb_info :=
  if fault =? 0
  then (0, upd_inode (set_i_data (take (Z.to_nat (p_len - 1)) p_str)) ino s)
  else (fault, s).

(** The failures and the cipher [f2fs_symlink] meets: [se_usr_to_disk] is
    [f2fs_fname_usr_to_disk], answering its result and the ciphertext. *)
Record symlink_env := SymlinkEnv {
  se_nomem : bool;
  se_add_link : Z;
  se_get_encryption_info : Z;
  se_alloc_buffer : Z;
  se_usr_to_disk : list Z → Z * list Z;
  se_kzalloc_fail : bool;
  se_page_symlink : Z
}.

(** [f2fs_symlink]; [symname] holds the bytes before the terminating NUL. *)
Definition f2fs_symlink (env : symlink_env) (dir : Z) (d : dentry)
    (symname : list Z) (s : f2fs_sb_info) : Z * f2fs_sb_info :=
  let len := Z.of_nat (length symname) in
  if len >? s_blocksize s then (- ENAMETOOLONG, s)
  else
    let s := f2fs_balance_fs s in
    let '(r, s) := f2fs_new_inode (se_nomem env) dir (Z.lor S_IFLNK S_IRWXUGO) s in
    match r with
    | inl err => (err, s)
    | inr inode =>
        let s := f2fs_lock_op s in
        let '(err, s) := f2fs_add_link (se_add_link env) d inode s in
        if negb (err =? 0) then (err, handle_failed_inode inode s)
        else
          let s := f2fs_unlock_op s in
          let s := alloc_nid_done inode s in
          let '(err, s) :=
            if f2fs_encrypted_inode s dir then
              if negb (se_get_encryption_info env =? 0)
              then (se_get_encryption_info env, s)
              else if negb (se_alloc_buffer env =? 0)
              then (se_alloc_buffer env, s)
              else
                let '(res, disk_link) := se_usr_to_disk env symname in
                if res <? 0 then (res, s)
                else
                  let dlen := Z.of_nat (length disk_link) in
                  let p_len := encrypted_symlink_data_len dlen + 1 in
                  if p_len >? s_blocksize s then (- ENAMETOOLONG, s)
                  else if se_kzalloc_fail env then (- ENOMEM, s)
                  else
                    page_symlink (se_page_symlink env) inode
                      (cpu_to_le16 dlen ++ disk_link ++ [0]) p_len s
            else
              page_symlink (se_page_symlink env) inode (symname ++ [0])
                (len + 1) s in
          let s := d_instantiate_new d inode s in
          let s := if IS_DIRSYNC s dir then f2fs_sync_fs s else s in
          (err, s)
    end.

Definition PAGE_SIZE : Z := 4096.

(** What reading an encrypted symlink does with memory, in program order:
    the allocation of the ciphertext buffer, the copy out of the page, the
    check of the length against the block size, the call of the cipher. *)
Inductive mem_event :=
| MemKmalloc (n : Z)
| MemCopy (off n : Z)
| MemCheckLen
| MemDecrypt (n : Z).

#[global] Instance mem_event_eq_dec : EqDecision mem_event.
Proof. solve_decision. Defined.

(** The answer of [follow_link]: the path handed to [nd_set_link], an
    [ERR_PTR], or an access outside the object it reads, for which C
    defines no result. *)
Inductive follow_result :=
| FollowLink (path : list Z)
| FollowErr (e : Z)
| FollowBadAccess.

Record follow_env := FollowEnv {
  fe_get_encryption_info : Z;
  fe_read_mapping_page : Z;
  fe_kmalloc_fail : bool;
  fe_alloc_buffer : Z;
  fe_disk_to_usr : list Z → Z * list Z
}.

(** The first page of the mapping: the inode's data, zero-filled to the
    page size. *)
Definition read_mapping_page (s : f2fs_sb_info) (ino : Z) : list Z :=
  take (Z.to_nat PAGE_SIZE)
       (i_data (inode_of s ino) ++ replicate (Z.to_nat PAGE_SIZE) 0).

(** [f2fs_encrypted_follow_link]: the answer and the memory events up to
    it. *)
Definition f2fs_encrypted_follow_link (env : follow_env) (ino : Z)
    (s : f2fs_sb_info) : follow_result * list mem_event :=
  let size := Z.min (i_size (inode_of s ino)) (PAGE_SIZE - 1) in
  let max_size := s_blocksize s in
  if negb (fe_get_encryption_info env =? 0)
  then (FollowErr (fe_get_encryption_info env), [])
  else if negb (fe_read_mapping_page env =? 0)
  then (FollowErr (fe_read_mapping_page env), [])
  else
    let caddr := <[Z.to_nat size := 0]> (read_mapping_page s ino) in
    let len := le16_to_cpu (char_at caddr 0) (char_at caddr 1) in
    if fe_kmalloc_fail env then (FollowErr (- ENOMEM), [MemKmalloc len])
    else if 2 + len >? PAGE_SIZE
    then (FollowBadAccess, [MemKmalloc len; MemCopy 2 len])
    else
      let name := take (Z.to_nat len) (drop 2 caddr) in
      let tr := [MemKmalloc len; MemCopy 2 len] in
      match name !! 0%nat with
      | None => (FollowBadAccess, tr)
      | Some c0 =>
          if (c0 =? 0) && (len =? 0) then (FollowErr (- ENOENT), tr)
          else if len + sizeof_f2fs_encrypted_symlink_data - 1 >? max_size
          then (FollowErr (- EIO), tr ++ [MemCheckLen])
          else if negb (fe_alloc_buffer env =? 0)
          then (FollowErr (fe_alloc_buffer env), tr ++ [MemCheckLen])
          else
            let '(res, pstr) := fe_disk_to_usr env name in
            let tr := tr ++ [MemCheckLen; MemDecrypt len] in
            if res <? 0 then (FollowErr res, tr)
            else (FollowLink (take (Z.to_nat res) pstr), tr)
      end.

(** ** Temporary files and whiteouts *)

Record tmpfile_env := TmpfileEnv {
  te_nomem : bool;
  te_do_tmpfile : Z
}.

(** [d_tmpfile] ([fs/dcache.c]): the link count of the unnamed file drops
    and the dentry is bound to it. *)
Definition d_tmpfile (d : dentry) (ino : Z) (s : f2fs_sb_info) :=
  emit (EvInstantiate (d_name d) ino) (inode_dec_link_count ino s).

(** [__f2fs_tmpfile]; [d] is [None] and [want_whiteout] holds when the
    caller passes a place for the whiteout, whose inode is the second
    component of the answer. *)
Definition __f2fs_tmpfile (env : tmpfile_env) (dir : Z) (d : option dentry)
    (mode : Z) (want_whiteout : bool) (s : f2fs_sb_info)
  : Z * Z * f2fs_sb_info :=
  let s := if want_whiteout then s else f2fs_balance_fs s in
  let '(r, s) := f2fs_new_inode (te_nomem env) dir mode s in
  match r with
  | inl err => (err, 0, s)
  | inr inode =>
      let s := f2fs_lock_op s in
      let '(err, s) := acquire_orphan_inode s in
      if negb (err =? 0) then (err, 0, handle_failed_inode inode s)
      else if negb (te_do_tmpfile env =? 0)
      then (te_do_tmpfile env, 0,
            handle_failed_inode inode (release_orphan_inode s))
      else
        let s := add_orphan_inode inode s in
        let s := f2fs_unlock_op s in
        let s := alloc_nid_done inode s in
        let s :=
          if want_whiteout then inode_dec_link_count inode s
          else match d with Some d => d_tmpfile d inode s | None => s end in
        let s := unlock_new_inode inode s in
        (0, if want_whiteout then inode else 0, s)
  end.

Definition f2fs_create_whiteout (env : tmpfile_env) (dir : Z)
    (s : f2fs_sb_info) : Z * Z * f2fs_sb_info :=
  __f2fs_tmpfile env dir None (Z.lor S_IFCHR WHITEOUT_MODE) true s.

(** ** Rename *)

(** What [f2fs_rename] meets outside the namespace state: the answer of
    [f2fs_is_child_context_consistent_with_parent], the failures inside the
    whiteout creation, and the errors of [update_dent_inode] and of the two
    [f2fs_add_link] calls ([0] for none). *)
Record rename_env := RenameEnv {
  re_context_ok : bool;
  re_whiteout : tmpfile_env;
  re_update_dent : Z;
  re_add_link : Z;
  re_add_whiteout : Z
}.

(** The exits [out_whiteout] and [put_out_dir]. *)
Definition rename_out_whiteout (whiteout : Z) (err : Z) (s : f2fs_sb_info)
  : Z * f2fs_sb_info :=
  (err, if whiteout =? 0 then s else iput whiteout s).

Definition rename_put_out_dir (whiteout : Z) (err : Z) (s : f2fs_sb_info)
  : Z * f2fs_sb_info :=
  rename_out_whiteout whiteout err (f2fs_unlock_op s).

(** [f2fs_rename] is written in three parts.  A [goto] to an exit label is
    [inl] with the answer, the fall-through is [inr] with the state.

    The first part is the block [if (new_inode) { ... } else { ... }]: with
    a target, the emptiness test, the search of the target entry, the
    reservation of the orphan slot, [update_dent_inode], [f2fs_set_link] and
    the link count of the replaced inode; without one, the insertion of the
    new entry.  [old_dir_entry] is the [..] entry of a moved directory. *)
Definition f2fs_rename_target (env : rename_env) (old_inode new_inode : Z)
    (old_dir_entry : option nat) (whiteout : Z) (new_dir : Z)
    (new_dentry : dentry) (s : f2fs_sb_info)
  : Z * f2fs_sb_info + f2fs_sb_info :=
  if negb (new_inode =? 0) then
    if bool_decide (is_Some old_dir_entry)
       && negb (f2fs_empty_dir s new_inode)
    then inl (rename_out_whiteout whiteout (- ENOTEMPTY) s)
    else
      let '(new_entry, s) := f2fs_find_entry new_dir (d_name new_dentry) 0 s in
      match new_entry with
      | None => inl (rename_out_whiteout whiteout (- ENOENT) s)
      | Some new_entry =>
          let s := f2fs_lock_op s in
          let '(err, s) := acquire_orphan_inode s in
          if negb (err =? 0)
          then inl (rename_put_out_dir whiteout err s)
          else
            let '(uerr, s) :=
              update_dent_inode (re_update_dent env) old_inode new_inode
                (d_name new_dentry) s in
            if negb (uerr =? 0)
            then inl (rename_put_out_dir whiteout err (release_orphan_inode s))
            else
              let s := f2fs_set_link new_dir new_entry old_inode s in
              let s :=
                if bool_decide (is_Some old_dir_entry)
                then drop_nlink new_inode s else s in
              let s := drop_nlink new_inode s in
              let s :=
                if i_nlink (inode_of s new_inode) =? 0
                then add_orphan_inode new_inode s
                else release_orphan_inode s in
              inr s
      end
  else
    let s := f2fs_lock_op s in
    let '(err, s) := f2fs_add_link (re_add_link env) new_dentry old_inode s in
    if negb (err =? 0)
    then inl (rename_out_whiteout whiteout err (f2fs_unlock_op s))
    else
      inr (if bool_decide (is_Some old_dir_entry)
           then inc_nlink new_dir s else s).

(** The second part runs from [down_write(&F2FS_I(old_inode)->i_sem)] to
    [return 0]: the moved inode loses its parent hint, the source entry is
    deleted, the whiteout is linked under the source name, and the [..]
    entry and the link count of the old parent follow a moved directory. *)
Definition f2fs_rename_finish (env : rename_env) (old_dir : Z)
    (old_dentry : dentry) (new_dir : Z) (new_inode : Z) (old_entry : nat)
    (old_dir_entry : option nat) (whiteout : Z) (s : f2fs_sb_info)
  : Z * f2fs_sb_info :=
  let old_inode := d_inode old_dentry in
  let s := file_lost_pino old_inode s in
  let s :=
    if negb (new_inode =? 0) && file_enc_name s new_inode
    then file_set_enc_name old_inode s else s in
  let s := f2fs_delete_entry old_entry old_dir s in
  let linked : Z * f2fs_sb_info + f2fs_sb_info :=
    if whiteout =? 0 then inr s
    else
      let s :=
        upd_inode (λ i, set_i_state (Z.lor (i_state i) I_LINKABLE) i)
          whiteout s in
      let s := set_inode_flag FI_INC_LINK whiteout s in
      let '(err, s) :=
        f2fs_add_link (re_add_whiteout env) old_dentry whiteout s in
      if negb (err =? 0)
      then inl (rename_put_out_dir whiteout err s)
      else
        inr (iput whiteout
               (upd_inode
                  (λ i, set_i_state (Z.ldiff (i_state i) I_LINKABLE) i)
                  whiteout s)) in
  match linked with
  | inl r => r
  | inr s =>
      let s :=
        match old_dir_entry with
        | Some dotdot =>
            let s :=
              if negb (old_dir =? new_dir) && (whiteout =? 0)
              then f2fs_set_link old_inode dotdot new_dir s
              else s in
            drop_nlink old_dir s
        | None => s
        end in
      let s := f2fs_unlock_op s in
      let s :=
        if IS_DIRSYNC s old_dir || IS_DIRSYNC s new_dir
        then f2fs_sync_fs s else s in
      (0, s)
  end.

(** [f2fs_rename]: the checks and searches up to the creation of the
    whiteout, then the two parts above. *)
Definition f2fs_rename (env : rename_env) (old_dir : Z) (old_dentry : dentry)
    (new_dir : Z) (new_dentry : dentry) (flags : Z) (s : f2fs_sb_info)
  : Z * f2fs_sb_info :=
  let old_inode := d_inode old_dentry in
  let new_inode := d_inode new_dentry in
  if negb (old_dir =? new_dir) && f2fs_encrypted_inode s new_dir
     && negb (re_context_ok env)
  then (- EPERM, s)
  else
    let s := f2fs_balance_fs s in
    let '(old_entry, s) := f2fs_find_entry old_dir (d_name old_dentry) 0 s in
    match old_entry with
    | None => (- ENOENT, s)
    | Some old_entry =>
        let is_dir := S_ISDIR (i_mode (inode_of s old_inode)) in
        let '(old_dir_entry, s) :=
          if is_dir then f2fs_parent_dir old_inode s else (None, s) in
        if is_dir && negb (bool_decide (is_Some old_dir_entry))
        then (- EIO, s)
        else
          let '(err, whiteout, s) :=
            if Z.land flags RENAME_WHITEOUT =? 0 then (0, 0, s)
            else f2fs_create_whiteout (re_whiteout env) old_dir s in
          if negb (err =? 0) then (err, s)
          else
            match
              f2fs_rename_target env old_inode new_inode old_dir_entry
                whiteout new_dir new_dentry s
            with
            | inl r => r
            | inr s =>
                f2fs_rename_finish env old_dir old_dentry new_dir new_inode
                  old_entry old_dir_entry whiteout s
            end
    end.

(** ** Cross rename *)

Record cross_env := CrossEnv {
  ce_context_ok_old : bool;   (* new_dir against old_inode *)
  ce_context_ok_new : bool;   (* old_dir against new_inode *)
  ce_update_dent_old : Z;
  ce_update_dent_new : Z;
  ce_update_dent_undo : Z
}.

Section CrossRename.

(** The ceiling of the link count ([f2fs.h]). *)
Variable F2FS_LINK_MAX : Z.

Definition f2fs_cross_rename (env : cross_env) (old_dir : Z)
    (old_dentry : dentry) (new_dir : Z) (new_dentry : dentry)
    (s : f2fs_sb_info) : Z * f2fs_sb_info :=
  let old_inode := d_inode old_dentry in
  let new_inode := d_inode new_dentry in
  if (f2fs_encrypted_inode s old_dir || f2fs_encrypted_inode s new_dir)
     && negb (old_dir =? new_dir)
     && (negb (ce_context_ok_old env) || negb (ce_context_ok_new env))
  then (- EPERM, s)
  else
    let s := f2fs_balance_fs s in
    let '(old_entry, s) := f2fs_find_entry old_dir (d_name old_dentry) 0 s in
    match old_entry with
    | None => (- ENOENT, s)
    | Some old_entry =>
    let '(new_entry, s) := f2fs_find_entry new_dir (d_name new_dentry) 0 s in
    match new_entry with
    | None => (- ENOENT, s)
    | Some new_entry =>
    (* prepare for updating ".." directory entry info later *)
    let old_is_dir :=
      negb (old_dir =? new_dir) && S_ISDIR (i_mode (inode_of s old_inode)) in
    let '(old_dir_entry, s) :=
      if old_is_dir then f2fs_parent_dir old_inode s else (None, s) in
    if old_is_dir && negb (bool_decide (is_Some old_dir_entry))
    then (- EIO, s)
    else
    let new_is_dir :=
      negb (old_dir =? new_dir) && S_ISDIR (i_mode (inode_of s new_inode)) in
    let '(new_dir_entry, s) :=
      if new_is_dir then f2fs_parent_dir new_inode s else (None, s) in
    if new_is_dir && negb (bool_decide (is_Some new_dir_entry))
    then (- EIO, s)
    else
    (* (!old_dir_entry || !new_dir_entry) && old_dir_entry != new_dir_entry:
       two pointers of which one is NULL differ when the other is not *)
    let one_sided :=
      (negb (bool_decide (is_Some old_dir_entry))
       || negb (bool_decide (is_Some new_dir_entry)))
      && negb (eqb (bool_decide (is_Some old_dir_entry))
                   (bool_decide (is_Some new_dir_entry))) in
    let old_nlink :=
      if one_sided
      then (if bool_decide (is_Some old_dir_entry) then -1 else 1) else 0 in
    let new_nlink := if one_sided then - old_nlink else 0 in
    if one_sided
       && (((old_nlink >? 0)
            && (F2FS_LINK_MAX <=? i_nlink (inode_of s old_inode)))
           || ((new_nlink >? 0)
               && (F2FS_LINK_MAX <=? i_nlink (inode_of s new_inode))))
    then (- EMLINK, s)
    else
    let s := f2fs_lock_op s in
    let '(err, s) :=
      update_dent_inode (ce_update_dent_old env) old_inode new_inode
        (d_name new_dentry) s in
    if negb (err =? 0) then (err, f2fs_unlock_op s)
    else
    let s :=
      if file_enc_name s new_inode then file_set_enc_name old_inode s
      else s in
    let '(err, s) :=
      update_dent_inode (ce_update_dent_new env) new_inode old_inode
        (d_name old_dentry) s in
    if negb (err =? 0)
    then
      let '(_, s) :=
        update_dent_inode (ce_update_dent_undo env) old_inode old_inode
          (d_name old_dentry) s in
      (err, f2fs_unlock_op s)
    else
    let s :=
      if file_enc_name s old_inode then file_set_enc_name new_inode s
      else s in
    (* update ".." directory entry info of old dentry *)
    let s :=
      match old_dir_entry with
      | Some dotdot => f2fs_set_link old_inode dotdot new_dir s
      | None => s
      end in
    (* update ".." directory entry info of new dentry *)
    let s :=
      match new_dir_entry with
      | Some dotdot => f2fs_set_link new_inode dotdot old_dir s
      | None => s
      end in
    (* update directory entry info of old dir inode *)
    let s := f2fs_set_link old_dir old_entry new_inode s in
    let s := file_lost_pino old_inode s in
    let s :=
      if old_nlink =? 0 then s
      else if old_nlink <? 0 then drop_nlink old_dir s
      else inc_nlink old_dir s in
    (* update directory entry info of new dir inode *)
    let s := f2fs_set_link new_dir new_entry old_inode s in
    let s := file_lost_pino new_inode s in
    let s :=
      if new_nlink =? 0 then s
      else if new_nlink <? 0 then drop_nlink new_dir s
      else inc_nlink new_dir s in
    let s := f2fs_unlock_op s in
    let s :=
      if IS_DIRSYNC s old_dir || IS_DIRSYNC s new_dir
      then f2fs_sync_fs s else s in
    (0, s)
    end
    end.

Definition f2fs_rename2 (renv : rename_env) (cenv : cross_env)
    (old_dir : Z) (old_dentry : dentry) (new_dir : Z) (new_dentry : dentry)
    (flags : Z) (s : f2fs_sb_info) : Z * f2fs_sb_info :=
  if negb (Z.land flags
             (Z.lnot (Z.lor RENAME_NOREPLACE
                        (Z.lor RENAME_EXCHANGE RENAME_WHITEOUT))) =? 0)
  then (- EINVAL, s)
  else if negb (Z.land flags RENAME_EXCHANGE =? 0)
  then f2fs_cross_rename cenv old_dir old_dentry new_dir new_dentry s
  else f2fs_rename renv old_dir old_dentry new_dir new_dentry flags s.

End CrossRename.

(** ** Predicates on states *)

(** A directory holds an entry of the given name. *)
Definition has_entry (s : f2fs_sb_info) (dir : Z) (name : list Z) : Prop :=
  ∃ de, Some de ∈ dir_slots s dir ∧ de_name de = name.

(** The number of entries of a directory that carry the given name. *)
Definition count_name (name : list Z) (slots : list (option f2fs_dir_entry))
  : nat :=
  length (filter (λ e, de_match false name e = true) slots).

(** Two states that differ at most in their log of events. *)
Definition same_but_log (s s' : f2fs_sb_info) : Prop :=
  inodes s' = inodes s ∧ dentries s' = dentries s ∧
  free_nids s' = free_nids s ∧ n_orphans s' = n_orphans s ∧
  orphan_list s' = orphan_list s ∧ cp_rwsem s' = cp_rwsem s.

(** What [f2fs_new_inode] leaves alone: the directories, the orphan
    registry, the block size and every inode of the cache; the inode it
    answers is new to the cache, has link count one and holds no data. *)
Definition new_inode_frame (s : f2fs_sb_info) (r : Z + Z) (s' : f2fs_sb_info)
  : Prop :=
  dentries s' = dentries s ∧ s_blocksize s' = s_blocksize s ∧
  n_orphans s' = n_orphans s ∧ max_orphans s' = max_orphans s ∧
  orphan_list s' = orphan_list s ∧ cp_rwsem s' = cp_rwsem s ∧
  match r with
  | inl e => e ≠ 0 ∧ inodes s' = inodes s
  | inr ino =>
      inodes s !! ino = None ∧
      (∀ k, k ≠ ino → inodes s' !! k = inodes s !! k) ∧
      ∃ i, inodes s' !! ino = Some i ∧ i_data i = [] ∧ i_nlink i = 1
  end.


(** ** A small file system for the examples

    The directory [3] holds itself as [.] and [..], the regular files [4]
    and [5] under the names [a] and [b], and the directory [6], which holds
    the regular file [7], under the name [sub].  Node ids [10] and [11] are
    free and eight orphan slots are available. *)

Definition ex_dir (nlink : Z) : inode :=
  Inode (Z.lor S_IFDIR 0x1ED) nlink 0 0 false 0 0 [] [].
Definition ex_reg (nlink : Z) : inode :=
  Inode (Z.lor S_IFREG 0x1A4) nlink 0 0 false 0 0 [] [].

Definition ex_sbi : f2fs_sb_info :=
  SBI (<[3 := ex_dir 3]> (<[4 := ex_reg 1]> (<[5 := ex_reg 1]>
        (<[6 := ex_dir 2]> (<[7 := ex_reg 1]> ∅)))))
      (<[3 := [Some (DirEntry (cstr ".") 3); Some (DirEntry (cstr "..") 3);
               Some (DirEntry (cstr "a") 4); Some (DirEntry (cstr "b") 5);
               Some (DirEntry (cstr "sub") 6)]]>
         (<[6 := [Some (DirEntry (cstr ".") 6); Some (DirEntry (cstr "..") 3);
                  Some (DirEntry (cstr "f") 7)]]> ∅))
      [10; 11] 0 8 [] 0 4096 true true [].

Definition ex_dentry (name : string) (ino parent : Z) : dentry :=
  Dentry (cstr name) ino parent false false.

(** What dot-entry recovery does to the slots of its directory, as a
    function of these slots: the error it answers and, when it inserted
    something, the slots afterwards.  Lemma [recover_effect] relates it to
    [__recover_dot_dentries]. *)
Definition recover_slots (f1 f2 : Z) (dir pino : Z)
    (slots : list (option f2fs_dir_entry))
  : Z * option (list (option f2fs_dir_entry)) :=
  match find_slot false (cstr ".") slots with
  | Some _ =>
      match find_slot false (cstr "..") slots with
      | Some _ => (0, None)
      | None =>
          if f2 =? 0
          then (0, Some (slots ++ [Some (DirEntry (cstr "..") pino)]))
          else (f2, None)
      end
  | None =>
      if f1 =? 0 then
        let slots1 := slots ++ [Some (DirEntry (cstr ".") dir)] in
        match find_slot false (cstr "..") slots1 with
        | Some _ => (0, Some slots1)
        | None =>
            if f2 =? 0
            then (0, Some (slots1 ++ [Some (DirEntry (cstr "..") pino)]))
            else (f2, Some slots1)
        end
      else (f1, None)
  end.

Definition apply_slots (dir : Z) (o : option (list (option f2fs_dir_entry)))
    (m : gmap Z (list (option f2fs_dir_entry)))
  : gmap Z (list (option f2fs_dir_entry)) :=
  match o with
  | None => m
  | Some l => <[dir := l]> m
  end.

Definition clear_inline_dots (i : inode) : inode :=
  set_fi_flags (Z.clearbit (fi_flags i) FI_INLINE_DOTS) i.

(** The directory [8] of this file system is stored inline without dot
    entries (inline-dots flag set) and holds the file [9] as [x]; its parent
    is the directory [3]. *)
Definition ex_sbi_dots : f2fs_sb_info :=
  SBI (<[3 := ex_dir 3]>
         (<[8 := Inode (Z.lor S_IFDIR 0x1ED) 2 0 0 false
                       (Z.setbit 0 FI_INLINE_DOTS) 0 [] []]>
            (<[9 := ex_reg 1]> ∅)))
      (<[3 := [Some (DirEntry (cstr ".") 3); Some (DirEntry (cstr "..") 3);
               Some (DirEntry (cstr "d") 8)]]>
         (<[8 := [Some (DirEntry (cstr "x") 9)]]> ∅))
      [10; 11] 0 8 [] 0 4096 true true [].

(** In this file system the directory [3] is encrypted. *)
Definition ex_sbi_enc : f2fs_sb_info :=
  SBI (<[3 := Inode (Z.lor S_IFDIR 0x1ED) 2 0 0 false 0 FADVISE_ENCRYPT_BIT
                    [] []]> ∅)
      (<[3 := [Some (DirEntry (cstr ".") 3); Some (DirEntry (cstr "..") 3)]]> ∅)
      [10; 11] 0 8 [] 0 4096 true true [].

(** No failure on the way, and a cipher that answers 4095 bytes. *)
Definition ex_symlink_env : symlink_env :=
  SymlinkEnv false 0 0 0 (λ _, (0, replicate 4095 1)) false 0.

(** Two encrypted symlinks whose first page is not what [f2fs_symlink]
    writes: the length field of [12] reads 0xFFFF, and [13] has no data at
    all (its page is zero, so is its length field). *)
Definition ex_sbi_links : f2fs_sb_info :=
  SBI (<[12 := Inode (Z.lor S_IFLNK S_IRWXUGO) 1 0 5 false 0
                     FADVISE_ENCRYPT_BIT [] [255; 255; 1; 2; 3]]>
         (<[13 := Inode (Z.lor S_IFLNK S_IRWXUGO) 1 0 0 false 0
                        FADVISE_ENCRYPT_BIT [] []]> ∅))
      ∅ [] 0 8 [] 0 4096 true true [].

(** No failure on the way, and a cipher that answers its input. *)
Definition ex_follow_env : follow_env :=
  FollowEnv 0 0 false 0 (λ c, (Z.of_nat (length c), c)).

(** The regular file [21] lives as [f] in the directory [20] and the
    directory [31] lives as [d] in the directory [30]; the link counts of
    the directory [20] and of the file [21] are left open. *)
Definition ex_sbi_cross (dir_nlink file_nlink : Z) : f2fs_sb_info :=
  SBI (<[20 := ex_dir dir_nlink]> (<[21 := ex_reg file_nlink]>
        (<[30 := ex_dir 3]> (<[31 := ex_dir 2]> ∅))))
      (<[20 := [Some (DirEntry (cstr ".") 20); Some (DirEntry (cstr "..") 3);
                Some (DirEntry (cstr "f") 21)]]>
         (<[30 := [Some (DirEntry (cstr ".") 30); Some (DirEntry (cstr "..") 3);
                   Some (DirEntry (cstr "d") 31)]]>
            (<[31 := [Some (DirEntry (cstr ".") 31);
                      Some (DirEntry (cstr "..") 30)]]> ∅)))
      [10; 11] 0 8 [] 0 4096 true true [].

Definition ex_cross_env : cross_env := CrossEnv true true 0 0 0.

(** No failure on the way of a rename. *)
Definition ex_rename_env : rename_env :=
  RenameEnv true (TmpfileEnv false 0) 0 0 0.

(** The environments of the three failures examined below: the insertion of
    the new name fails, the retargeting of the name record fails, the
    linking of the whiteout fails. *)
Definition ex_env_add_link_fails : rename_env :=
  RenameEnv true (TmpfileEnv false 0) 0 (- ENOSPC) 0.
Definition ex_env_update_dent_fails : rename_env :=
  RenameEnv true (TmpfileEnv false 0) (- ENOMEM) 0 0.

(** ** Name hashing *)

Section NameHash.

(** The string hash of the dcache ([linux/dcache.h]): its seed, its step
    over one byte and its final folding. *)
Variable init_name_hash : Z.
Variable partial_name_hash : Z → Z → Z.
Variable end_name_hash : Z → Z.

(** [while (len--) hash = partial_name_hash(tolower( *name++ ), hash);] *)
Fixpoint d_hash_loop (len : nat) (name : list Z) (hash : Z) : Z :=
  match len with
  | O => hash
  | S n =>
      d_hash_loop n (tail name)
        (partial_name_hash (tolower (char_at name 0)) hash)
  end.

(** [f2fs_d_hash]: the answer, which is always [0], and the value stored in
    [qstr->hash]. *)
Definition f2fs_d_hash (q : qstr) : Z * Z :=
  (0, end_name_hash
        (d_hash_loop (f2fs_striptail_len q) (qstr_name q) init_name_hash)).

End NameHash.

(** The hash functions of a 64-bit kernel, for the examples:
    [(prevhash + (c << 4) + (c >> 4)) * 11] on [unsigned long] and the cast
    to [unsigned int]. *)
Definition ex_partial_name_hash (c prev : Z) : Z :=
  ((prev + Z.shiftl c 4 + Z.shiftr c 4) * 11) mod 2 ^ 64.
Definition ex_end_name_hash (h : Z) : Z := h mod 2 ^ 32.

(** ** Cold files *)

(** [strlen]: the number of bytes in front of the first NUL. *)
Fixpoint strlen (s : list Z) : nat :=
  match s with
  | [] => O
  | c :: r => if c =? 0 then O else S (strlen r)
  end.

(** The C string a buffer holds: the bytes in front of its first NUL. *)
Definition c_string (buf : list Z) : list Z := take (strlen buf) buf.

Definition is_multimedia_file (s sub : list Z) : Z :=
  let slen := strlen s in
  let sublen := strlen sub in
  if (slen <? sublen + 2)%nat then 0
  else if negb (char_at s (slen - sublen - 1) =? DOT) then 0
  else if strncasecmp (drop (slen - sublen) s) sub sublen =? 0 then 1 else 0.

(** The fields of the raw superblock that [set_cold_files] reads: the
    number of extensions and the extension table, which is an array of
    slots of eight bytes each, given here as the bytes of the whole
    array. *)
Record f2fs_super_block := RawSuper {
  extension_count : Z;
  extension_list : list Z
}.

(** [extlist[i]] is a pointer to slot [i] of the table; a slot without a
    NUL byte makes the string that starts there run on into the next
    slot. *)
Definition extlist (raw : f2fs_super_block) (i : nat) : list Z :=
  drop (8 * i) (extension_list raw).

(** The advise bit of a cold file ([f2fs.h]). *)
Definition FADVISE_COLD_BIT : Z := 0x01.

Definition file_set_cold (ino : Z) (s : f2fs_sb_info) :=
  upd_inode (λ i, set_i_advise (Z.lor (i_advise i) FADVISE_COLD_BIT) i) ino s.

(** The loop of [set_cold_files] with [n] slots to go, the next one being
    slot [i]. *)
Fixpoint set_cold_files_from (n i : nat) (raw : f2fs_super_block) (ino : Z)
    (name : list Z) (s : f2fs_sb_info) : f2fs_sb_info :=
  match n with
  | O => s
  | S n' =>
      if negb (is_multimedia_file name (extlist raw i) =? 0)
      then file_set_cold ino s
      else set_cold_files_from n' (S i) raw ino name s
  end.

(** A 32-bit value stored into an [int]. *)
Definition to_int (c : Z) : Z := if c <? 2 ^ 31 then c else c - 2 ^ 32.

(** [set_cold_files], with [int count = le32_to_cpu(extension_count)]. *)
Definition set_cold_files (raw : f2fs_super_block) (ino : Z) (name : list Z)
    (s : f2fs_sb_info) : f2fs_sb_info :=
  let count := to_int (extension_count raw) in
  set_cold_files_from (Z.to_nat count) 0 raw ino name s.

(** ** Simple link operations *)

(** What [f2fs_create] meets outside the namespace state: the failures of
    [new_inode] and of the insertion, the mount option
    [DISABLE_EXT_IDENTIFY] and the raw superblock. *)
Record create_env := CreateEnv {
  cr_nomem : bool;
  cr_add_link : Z;
  cr_disable_ext_identify : bool;
  cr_raw_super : f2fs_super_block
}.

Definition f2fs_create (env : create_env) (dir : Z) (d : dentry) (mode : Z)
    (s : f2fs_sb_info) : Z * f2fs_sb_info :=
  let s := f2fs_balance_fs s in
  let '(r, s) := f2fs_new_inode (cr_nomem env) dir mode s in
  match r with
  | inl err => (err, s)
  | inr inode =>
      let s :=
        if negb (cr_disable_ext_identify env)
        then set_cold_files (cr_raw_super env) inode (d_name d) s else s in
      let s := f2fs_lock_op s in
      let '(err, s) := f2fs_add_link (cr_add_link env) d inode s in
      if negb (err =? 0) then (err, handle_failed_inode inode s)
      else
        let s := f2fs_unlock_op s in
        let s := alloc_nid_done inode s in
        let s := d_instantiate_new d inode s in
        let s := if IS_DIRSYNC s dir then f2fs_sync_fs s else s in
        (0, s)
  end.

(** [d_instantiate] ([fs/dcache.c]): the dentry is bound to the inode. *)
Definition d_instantiate (d : dentry) (ino : Z) (s : f2fs_sb_info) :=
  emit (EvInstantiate (d_name d) ino) s.

Record link_env := LinkEnv {
  li_context_ok : bool;   (* f2fs_is_child_context_consistent_with_parent *)
  li_add_link : Z
}.

(** [f2fs_link]; the reference [ihold] takes is the one [iput] drops on
    failure. *)
Definition f2fs_link (env : link_env) (old_dentry : dentry) (dir : Z)
    (d : dentry) (s : f2fs_sb_info) : Z * f2fs_sb_info :=
  let inode := d_inode old_dentry in
  if f2fs_encrypted_inode s dir && negb (li_context_ok env)
  then (- EPERM, s)
  else
    let s := f2fs_balance_fs s in
    let s := set_inode_flag FI_INC_LINK inode s in
    let s := f2fs_lock_op s in
    let '(err, s) := f2fs_add_link (li_add_link env) d inode s in
    if negb (err =? 0)
    then
      let s := clear_inode_flag FI_INC_LINK inode s in
      let s := iput inode s in
      (err, f2fs_unlock_op s)
    else
      let s := f2fs_unlock_op s in
      let s := d_instantiate d inode s in
      let s := if IS_DIRSYNC s dir then f2fs_sync_fs s else s in
      (0, s).

(** The failures of [new_inode] and of the insertion, for [f2fs_mkdir] and
    [f2fs_mknod]. *)
Record node_env := NodeEnv {
  ne_nomem : bool;
  ne_add_link : Z
}.

Definition f2fs_mkdir (env : node_env) (dir : Z) (d : dentry) (mode : Z)
    (s : f2fs_sb_info) : Z * f2fs_sb_info :=
  let s := f2fs_balance_fs s in
  let '(r, s) := f2fs_new_inode (ne_nomem env) dir (Z.lor S_IFDIR mode) s in
  match r with
  | inl err => (err, s)
  | inr inode =>
      let s := set_inode_flag FI_INC_LINK inode s in
      let s := f2fs_lock_op s in
      let '(err, s) := f2fs_add_link (ne_add_link env) d inode s in
      if negb (err =? 0)
      then
        let s := clear_inode_flag FI_INC_LINK inode s in
        (err, handle_failed_inode inode s)
      else
        let s := f2fs_unlock_op s in
        let s := alloc_nid_done inode s in
        let s := d_instantiate_new d inode s in
        let s := if IS_DIRSYNC s dir then f2fs_sync_fs s else s in
        (0, s)
  end.

(** [f2fs_mknod]; [new_valid_dev] is the test of the device number
    ([linux/kdev_t.h]).  The device number itself goes into [i_rdev], which
    no operation of this file reads. *)
Definition f2fs_mknod (new_valid_dev : Z → bool) (env : node_env) (dir : Z)
    (d : dentry) (mode : Z) (rdev : Z) (s : f2fs_sb_info)
  : Z * f2fs_sb_info :=
  if negb (new_valid_dev rdev) then (- EINVAL, s)
  else
    let s := f2fs_balance_fs s in
    let '(r, s) := f2fs_new_inode (ne_nomem env) dir mode s in
    match r with
    | inl err => (err, s)
    | inr inode =>
        let s := f2fs_lock_op s in
        let '(err, s) := f2fs_add_link (ne_add_link env) d inode s in
        if negb (err =? 0) then (err, handle_failed_inode inode s)
        else
          let s := f2fs_unlock_op s in
          let s := alloc_nid_done inode s in
          let s := d_instantiate_new d inode s in
          let s := if IS_DIRSYNC s dir then f2fs_sync_fs s else s in
          (0, s)
    end.

(** [f2fs_tmpfile]; [enc_info] is the answer of
    [f2fs_get_encryption_info(dir)]. *)
Definition f2fs_tmpfile (enc_info : Z) (env : tmpfile_env) (dir : Z)
    (d : dentry) (mode : Z) (s : f2fs_sb_info) : Z * f2fs_sb_info :=
  if f2fs_encrypted_inode s dir && negb (enc_info =? 0) then (enc_info, s)
  else
    let '(err, _, s) := __f2fs_tmpfile env dir (Some d) mode false s in
    (err, s).

(** ** The parent of a directory *)

(** [f2fs_inode_by_name] ([dir.c]): the inode number the entry of that name
    holds, [0] when the directory has no such entry. *)
Definition f2fs_inode_by_name (dir : Z) (name : list Z) (s : f2fs_sb_info)
  : Z * f2fs_sb_info :=
  let '(de, s) := f2fs_find_entry dir name 0 s in
  match de with
  | None => (0, s)
  | Some slot => (default 0 (de_ino <$> mjoin (dir_slots s dir !! slot)), s)
  end.

(** [f2fs_get_parent]; [iget] is the error of [f2fs_iget] or of
    [d_obtain_alias] ([0] for none), which the call passes on. *)
Definition f2fs_get_parent (iget : Z) (child : dentry) (s : f2fs_sb_info)
  : (Z + Z) * f2fs_sb_info :=
  let '(ino, s) := f2fs_inode_by_name (d_inode child) (cstr "..") s in
  if ino =? 0 then (inl (- ENOENT), s)
  else if negb (iget =? 0) then (inl iget, s)
  else (inr ino, s).

(** ** Reading a plain symlink *)

(** [page_follow_link_light] ([fs/namei.c]): the first page of the inode,
    terminated by [nd_terminate_link] at [min(i_size, PAGE_SIZE - 1)]. *)
Definition page_getlink (s : f2fs_sb_info) (ino : Z) : list Z :=
  <[Z.to_nat (Z.min (i_size (inode_of s ino)) (PAGE_SIZE - 1)) := 0]>
    (read_mapping_page s ino).

(** [f2fs_follow_link]; [fault] is the error of [page_follow_link_light]
    ([0] for none).  The link handed to the path walk is the C string at
    the start of the page. *)
Definition f2fs_follow_link (fault : Z) (ino : Z) (s : f2fs_sb_info)
  : follow_result :=
  if negb (fault =? 0) then FollowErr fault
  else
    let link := page_getlink s ino in
    if char_at link 0 =? 0 then FollowErr (- ENOENT)
    else FollowLink (take (strlen link) link).

(** ** More predicates on states *)

(** The directory [dir] holds an entry that gives [name] to the inode
    [ino]. *)
Definition entry_of (s : f2fs_sb_info) (dir : Z) (name : list Z) (ino : Z)
  : Prop :=
  Some (DirEntry name ino) ∈ dir_slots s dir.

(** The names in the slots of a directory, slot by slot. *)
Definition dir_names (s : f2fs_sb_info) (dir : Z) : list (option (list Z)) :=
  (λ e : option f2fs_dir_entry, de_name <$> e) <$> dir_slots s dir.

(** The directories, the link counts, the allocator and the orphan registry
    of [s'] are those of [s]. *)
Definition links_kept (s s' : f2fs_sb_info) : Prop :=
  dentries s' = dentries s ∧
  (∀ k, i_nlink (inode_of s' k) = i_nlink (inode_of s k)) ∧
  free_nids s' = free_nids s ∧ n_orphans s' = n_orphans s ∧
  orphan_list s' = orphan_list s.

(** [s'] is [s] with one more inode, [ino]: it was the first free node id,
    it is cached now, and the dentry [d] names it; nothing else differs but
    the log. *)
Definition named_new_inode (s s' : f2fs_sb_info) (d : dentry) (ino : Z)
  : Prop :=
  (∃ rest, free_nids s = ino :: rest ∧ free_nids s' = rest) ∧
  inodes s !! ino = None ∧ is_Some (inodes s' !! ino) ∧
  (∀ k, k ≠ ino → inodes s' !! k = inodes s !! k) ∧
  (∀ p n k, entry_of s' p n k ↔
            entry_of s p n k ∨ (p = d_parent d ∧ n = d_name d ∧ k = ino)) ∧
  n_orphans s' = n_orphans s ∧ orphan_list s' = orphan_list s ∧
  cp_rwsem s' = cp_rwsem s.

(** ** More examples *)

(** A slot of the extension table. *)
Definition ext_slot (e : string) : list Z := take 8 (cstr e ++ replicate 8 0).

(** A superblock with the three extensions [mp3], [jpg] and [mkv]. *)
Definition ex_raw_super : f2fs_super_block :=
  RawSuper 3 (ext_slot "mp3" ++ ext_slot "jpg" ++ ext_slot "mkv").

Definition ex_create_env : create_env := CreateEnv false 0 false ex_raw_super.
Definition ex_lookup_env : lookup_env := LookupEnv 0 0 0 0.

(** * Properties *)

(** Case analysis on the innermost scrutinee of the goal, so that the
    branches of a function reduce one after the other. *)
Ltac destr_inner t :=
  lazymatch t with
  | context [match ?x with _ => _ end] => destr_inner x
  | _ => destruct t eqn:?
  end.

Ltac step :=
  match goal with
  | |- context [match ?x with _ => _ end] => destr_inner x
  end; cbv beta iota zeta.

Ltac steps := cbv beta iota zeta; repeat step.

(** ** The name codec *)

Lemma char_at_app_l (a b : list Z) (i : nat) :
  (i < length a)%nat → char_at (a ++ b) i = char_at a i.
Proof. intros H. unfold char_at. by rewrite lookup_app_l. Qed.

Lemma striptail_app (n : nat) (a b : list Z) :
  (n ≤ length a)%nat →
  __f2fs_striptail_len n (a ++ b) = __f2fs_striptail_len n a.
Proof.
  induction n as [|n IH]; intros H; [done|]. simpl.
  rewrite char_at_app_l by lia. rewrite IH by lia. done.
Qed.

Lemma strip_snoc (a : list Z) (c : Z) :
  strip_trailing_dots (a ++ [c]) =
  if c =? DOT then strip_trailing_dots a else a ++ [c].
Proof.
  induction a as [|x a IH]; simpl.
  - by destruct (c =? DOT).
  - rewrite IH. destruct (c =? DOT) eqn:E; [done|].
    destruct a; simpl; done.
Qed.

Lemma striptail_len_strip (a : list Z) :
  __f2fs_striptail_len (length a) a = length (strip_trailing_dots a).
Proof.
  induction a as [|c a IH] using rev_ind; [done|].
  rewrite length_app, Nat.add_1_r. simpl.
  unfold char_at. rewrite lookup_app_r by lia. rewrite Nat.sub_diag. simpl.
  rewrite strip_snoc. destruct (c =? DOT).
  - rewrite striptail_app by lia. exact IH.
  - by rewrite length_app, Nat.add_1_r.
Qed.

Lemma strip_length_le (a : list Z) :
  (length (strip_trailing_dots a) ≤ length a)%nat.
Proof.
  rewrite <- striptail_len_strip. generalize (length a). intros n.
  induction n as [|n IH]; simpl; [lia|]. destruct (_ =? _); lia.
Qed.

Lemma strncasecmp_fold (n : nat) : ∀ a b : list Z,
  (n ≤ length a)%nat → (n ≤ length b)%nat →
  0 ∉ take n a → 0 ∉ take n b →
  strncasecmp a b n = 0 ↔ tolower <$> take n a = tolower <$> take n b.
Proof.
  induction n as [|n IH]; intros a b Ha Hb Za Zb; [done|].
  destruct a as [|x a]; [simpl in Ha; lia|].
  destruct b as [|y b]; [simpl in Hb; lia|].
  rewrite !firstn_cons in *. rewrite !fmap_cons.
  cbn [strncasecmp tail length] in *.
  change (char_at (x :: a) 0) with x. change (char_at (y :: b) 0) with y.
  assert (x ≠ 0) by (intros ->; apply Za; left).
  assert (y ≠ 0) by (intros ->; apply Zb; left).
  assert (IH' : strncasecmp a b n = 0 ↔
                tolower <$> take n a = tolower <$> take n b).
  { apply IH; [lia|lia| |]; intros Hin; [apply Za|apply Zb]; by right. }
  destruct (x =? 0) eqn:E1; [lia|]. destruct (y =? 0) eqn:E2; [lia|].
  cbn [orb].
  destruct (x =? y) eqn:E3.
  - apply Z.eqb_eq in E3 as ->. rewrite IH'. split; [by intros ->|].
    by intros [=].
  - destruct (tolower x =? tolower y) eqn:E4; cbn [negb].
    + apply Z.eqb_eq in E4. rewrite IH', E4. split; [by intros ->|].
      by intros [=].
    + apply Z.eqb_neq in E4. split; [lia|]. by intros [=].
Qed.
Lemma not_elem_of_take (x : Z) (n : nat) (l : list Z) : x ∉ l → x ∉ take n l.
Proof. intros H Hin. apply H. by eapply subseteq_take. Qed.

(** C6: the comparison of the dcache judges two names equal exactly when
    their lengths after stripping every trailing dot agree and the
    case-insensitive comparison over that length succeeds; for names without
    a NUL byte that comparison is the equality of the case-folded bytes; and
    FOO, foo and foo. are mutually equal. *)
Theorem f2fs_d_compare_nocase :
  (∀ a b : list Z,
     f2fs_d_compare (length b) b (QSTR a) = 0 ↔
     length (strip_trailing_dots a) = length (strip_trailing_dots b) ∧
     strncasecmp a b (length (strip_trailing_dots a)) = 0) ∧
  (∀ a b : list Z, 0 ∉ a → 0 ∉ b →
     f2fs_d_compare (length b) b (QSTR a) = 0 ↔ names_equal_nocase a b) ∧
  (∀ a b : list Z,
     a ∈ [cstr "FOO"; cstr "foo"; cstr "foo."] →
     b ∈ [cstr "FOO"; cstr "foo"; cstr "foo."] →
     f2fs_d_compare (length b) b (QSTR a) = 0).
Proof.
  assert (Hgen : ∀ a b : list Z,
     f2fs_d_compare (length b) b (QSTR a) = 0 ↔
     length (strip_trailing_dots a) = length (strip_trailing_dots b) ∧
     strncasecmp a b (length (strip_trailing_dots a)) = 0).
  { intros a b. unfold f2fs_d_compare, f2fs_striptail_len, QSTR.
    cbn [qstr_name qstr_len]. rewrite !striptail_len_strip.
    destruct (Nat.eqb_spec (length (strip_trailing_dots a))
                           (length (strip_trailing_dots b))) as [E|E].
    - destruct (Z.eqb_spec (strncasecmp a b (length (strip_trailing_dots a))) 0);
        split; try done; intros [_ ?]; done.
    - split; [done|]. intros [? _]; done. }
  split; [exact Hgen|]. split.
  - intros a b Ha Hb. rewrite Hgen. unfold names_equal_nocase.
    split; intros [E H]; (split; [exact E|]).
    + apply strncasecmp_fold in H; auto using not_elem_of_take, strip_length_le.
      rewrite E. apply strip_length_le.
    + apply strncasecmp_fold; auto using not_elem_of_take, strip_length_le.
      rewrite E. apply strip_length_le.
  - intros a b Ha Hb.
    repeat (apply elem_of_cons in Ha as [->|Ha]);
      try (by apply elem_of_nil in Ha);
      repeat (apply elem_of_cons in Hb as [->|Hb]);
      try (by apply elem_of_nil in Hb); vm_compute; reflexivity.
Qed.

Lemma f2fs_d_compare_nocase_witness :
  f2fs_d_compare 4 (cstr "foo.") (QSTR (cstr "FOO")) = 0 ↔
  names_equal_nocase (cstr "FOO") (cstr "foo.").
Proof.
  apply (proj1 (proj2 f2fs_d_compare_nocase) (cstr "FOO") (cstr "foo."));
    apply (bool_decide_unpack _); vm_compute; exact I.
Defined.

(** ** Lookup *)

Lemma recover_log f1 f2 dir pino s :
  ∃ l, log (snd (__recover_dot_dentries f1 f2 dir pino s)) = log s ++ l.
Proof.
  unfold __recover_dot_dentries, f2fs_find_entry, __f2fs_add_link,
    f2fs_lock_op, f2fs_unlock_op, clear_inode_flag, upd_inode.
  steps; cbn; rewrite <- ?app_assoc; eexists; reflexivity.
Qed.

(** C10: a lookup of a name longer than F2FS_NAME_LEN answers
    ENAMETOOLONG and leaves the dentry and the whole state, the log of
    directory searches included, as they were; a lookup of any other name
    does search the directory. *)
Theorem f2fs_lookup_name_too_long :
  (∀ env dir d flags s,
     Z.of_nat (length (d_name d)) > F2FS_NAME_LEN →
     f2fs_lookup env dir d flags s = (inl (- ENAMETOOLONG), d, s)) ∧
  (∀ env dir d flags s,
     Z.of_nat (length (d_name d)) ≤ F2FS_NAME_LEN →
     EvFindEntry dir (d_name d) ∈ log (snd (f2fs_lookup env dir d flags s))).
Proof.
  split; intros env dir d flags s H; unfold f2fs_lookup.
  - destruct (Z.gtb_spec (Z.of_nat (length (d_name d))) F2FS_NAME_LEN); [done|lia].
  - destruct (Z.gtb_spec (Z.of_nat (length (d_name d))) F2FS_NAME_LEN); [lia|].
    set (d1 := if negb (d_op d) && d_parent_op d then d_set_d_op d else d).
    assert (Hd1 : d_name d1 = d_name d) by (unfold d1; by destruct (_ && _)).
    unfold f2fs_find_entry. rewrite Hd1.
    set (s1 := emit (EvFindEntry dir (d_name d)) s).
    assert (H1 : EvFindEntry dir (d_name d) ∈ log s1).
    { unfold s1, emit; cbn. apply elem_of_app; right. by left. }
    destruct (find_slot _ _ _) as [slot|]; [|done].
    destruct (negb (le_iget env =? 0)); [done|].
    destruct (f2fs_has_inline_dots s1 _).
    + match goal with
      | |- context [__recover_dot_dentries ?a ?b ?c ?e ?f] =>
          destruct (recover_log a b c e f) as [l Hl];
          destruct (__recover_dot_dentries a b c e f) as [err s2]
      end.
      cbn [snd] in Hl.
      assert (EvFindEntry dir (d_name d) ∈ log s2)
        by (rewrite Hl; apply elem_of_app; by left).
      by destruct (negb (err =? 0)).
    + exact H1.
Qed.

Lemma f2fs_lookup_name_too_long_witness :
  f2fs_lookup (LookupEnv 0 0 0 0) 3
    (Dentry (replicate 256 97) 0 3 false false) 0
    (SBI ∅ ∅ [] 0 8 [] 0 4096 true true []) =
  (inl (- ENAMETOOLONG), Dentry (replicate 256 97) 0 3 false false,
   SBI ∅ ∅ [] 0 8 [] 0 4096 true true []).
Proof.
  apply (proj1 f2fs_lookup_name_too_long). vm_compute. reflexivity.
Defined.

(** ** The Entry Index *)

Lemma de_match_exact name e :
  de_match false name e = true ↔ ∃ de, e = Some de ∧ de_name de = name.
Proof.
  destruct e as [de|]; cbn.
  - rewrite bool_decide_eq_true. split; [eauto|]. by intros (? & [= <-] & ?).
  - split; [done|]. by intros (? & ? & ?).
Qed.

Lemma find_slot_None nocase name slots :
  find_slot nocase name slots = None ↔
  ∀ e, e ∈ slots → de_match nocase name e = false.
Proof.
  unfold find_slot. rewrite fmap_None, list_find_None, Forall_forall.
  split; intros H e He; specialize (H e He); by destruct (de_match _ _ _).
Qed.

Lemma find_slot_Some nocase name slots i :
  find_slot nocase name slots = Some i →
  ∃ e, slots !! i = Some e ∧ de_match nocase name e = true.
Proof.
  unfold find_slot. intros H. apply fmap_Some in H as ([j e] & H & ->).
  apply list_find_Some in H as (? & ? & _). eauto.
Qed.

Lemma find_slot_is_Some nocase name slots e :
  e ∈ slots → de_match nocase name e = true →
  is_Some (find_slot nocase name slots).
Proof.
  intros He Hm. destruct (find_slot nocase name slots) eqn:E; [eauto|].
  rewrite find_slot_None in E. rewrite (E e He) in Hm. done.
Qed.

Lemma find_entry_absent s dir name :
  ¬ has_entry s dir name → find_slot false name (dir_slots s dir) = None.
Proof.
  intros H. apply find_slot_None. intros e He.
  destruct (de_match false name e) eqn:E; [|done].
  apply de_match_exact in E as (de & -> & ?). destruct H. by exists de.
Qed.

Lemma find_entry_present s dir name :
  has_entry s dir name →
  ∃ slot de, find_slot false name (dir_slots s dir) = Some slot ∧
             dir_slots s dir !! slot = Some (Some de) ∧ de_name de = name.
Proof.
  intros (de & Hin & Hn).
  destruct (find_slot_is_Some false name _ _ Hin) as [slot Hs].
  { apply de_match_exact; eauto. }
  destruct (find_slot_Some _ _ _ _ Hs) as (e & Hl & Hm).
  apply de_match_exact in Hm as (de' & -> & ?). eauto.
Qed.

(** ** Removal *)

(** C4: unlink of a name the directory does not hold answers ENOENT and
    changes nothing; otherwise it takes the ordering lock and reserves an
    orphan slot before it removes the entry, and when the reservation fails
    it answers the error of the reservation with no entry removed, no inode
    changed and the lock released. *)
Theorem f2fs_unlink_reserves_first (dir : Z) (d : dentry) (s : f2fs_sb_info) :
  (¬ has_entry s dir (d_name d) →
     fst (f2fs_unlink dir d s) = - ENOENT ∧
     same_but_log s (snd (f2fs_unlink dir d s))) ∧
  (has_entry s dir (d_name d) → max_orphans s ≤ n_orphans s →
     f2fs_unlink dir d s
       = (fst (acquire_orphan_inode s), snd (f2fs_unlink dir d s)) ∧
     fst (acquire_orphan_inode s) ≠ 0 ∧
     same_but_log s (snd (f2fs_unlink dir d s))) ∧
  (has_entry s dir (d_name d) → n_orphans s < max_orphans s →
     ∃ slot de l,
       dir_slots s dir !! slot = Some (Some de) ∧ de_name de = d_name d ∧
       fst (f2fs_unlink dir d s) = 0 ∧
       log (snd (f2fs_unlink dir d s)) =
         log s ++ [EvBalanceFs; EvFindEntry dir (d_name d); EvLockOp;
                   EvAcquireOrphan; EvDeleteEntry dir slot; EvUnlockOp] ++ l ∧
       dir_slots (snd (f2fs_unlink dir d s)) dir =
         <[slot := None]> (dir_slots s dir) ∧
       inodes (snd (f2fs_unlink dir d s)) = inodes s ∧
       n_orphans (snd (f2fs_unlink dir d s)) = n_orphans s + 1).
Proof.
  unfold f2fs_unlink, f2fs_find_entry, f2fs_balance_fs.
  change (negb (Z.land 0 LOOKUP_NOCASE =? 0)) with false.
  change (dir_slots (emit EvBalanceFs s) dir) with (dir_slots s dir).
  split; [|split].
  - intros H. rewrite (find_entry_absent _ _ _ H). by cbn.
  - intros H Hge. destruct (find_entry_present _ _ _ H) as (slot & de & -> & _).
    unfold acquire_orphan_inode, f2fs_lock_op, f2fs_unlock_op. cbn.
    destruct (Z.leb_spec (max_orphans s) (n_orphans s)); [|lia].
    change (negb (- ENOSPC =? 0)) with true. cbv beta iota.
    unfold same_but_log. cbn. repeat split; try done. lia.
  - intros H Hlt. destruct (find_entry_present _ _ _ H) as (slot & de & -> & Hl & Hn).
    exists slot, de.
    unfold acquire_orphan_inode, f2fs_lock_op, f2fs_unlock_op,
      f2fs_delete_entry, f2fs_sync_fs, IS_DIRSYNC. cbn.
    destruct (Z.leb_spec (max_orphans s) (n_orphans s)); [lia|]. cbn.
    match goal with |- context [if ?b then _ else _] => destruct b end; cbn;
      [exists [EvSyncFs]|exists []];
      (repeat split; try done;
       [by rewrite <- ?app_assoc
       |unfold dir_slots; cbn; by rewrite lookup_insert_eq]).
Qed.

Lemma f2fs_unlink_reserves_first_witness :
  ∃ slot de l,
    dir_slots ex_sbi 3 !! slot = Some (Some de) ∧ de_name de = cstr "a" ∧
    fst (f2fs_unlink 3 (ex_dentry "a" 4 3) ex_sbi) = 0 ∧
    log (snd (f2fs_unlink 3 (ex_dentry "a" 4 3) ex_sbi)) =
      log ex_sbi ++ [EvBalanceFs; EvFindEntry 3 (cstr "a"); EvLockOp;
                     EvAcquireOrphan; EvDeleteEntry 3 slot; EvUnlockOp] ++ l ∧
    dir_slots (snd (f2fs_unlink 3 (ex_dentry "a" 4 3) ex_sbi)) 3 =
      <[slot := None]> (dir_slots ex_sbi 3) ∧
    inodes (snd (f2fs_unlink 3 (ex_dentry "a" 4 3) ex_sbi)) = inodes ex_sbi ∧
    n_orphans (snd (f2fs_unlink 3 (ex_dentry "a" 4 3) ex_sbi)) =
      n_orphans ex_sbi + 1.
Proof.
  apply (proj2 (proj2 (f2fs_unlink_reserves_first 3 (ex_dentry "a" 4 3) ex_sbi))).
  - exists (DirEntry (cstr "a") 4). split; [|reflexivity].
    apply (bool_decide_unpack _). vm_compute. exact I.
  - vm_compute. reflexivity.
Defined.

Lemma f2fs_empty_dir_spec s ino :
  f2fs_empty_dir s ino = true ↔
  ∀ de, Some de ∈ dir_slots s ino →
        de_name de = cstr "." ∨ de_name de = cstr "..".
Proof.
  unfold f2fs_empty_dir. rewrite forallb_forall. split.
  - intros H de Hin. apply list_elem_of_In, H in Hin. unfold is_dot_name in Hin.
    apply orb_prop in Hin as [E|E]; apply bool_decide_eq_true in E; auto.
  - intros H [de|] Hin; [|done]. apply list_elem_of_In, H in Hin.
    unfold is_dot_name. apply orb_true_iff.
    destruct Hin as [->| ->]; [left|right]; by apply bool_decide_eq_true.
Qed.

(** C5: rmdir of a directory that holds an entry other than the two dot
    entries answers ENOTEMPTY and leaves the whole state as it was; rmdir of
    a directory that holds only dot entries is unlink. *)
Theorem f2fs_rmdir_not_empty (dir : Z) (d : dentry) (s : f2fs_sb_info) :
  (∀ de, Some de ∈ dir_slots s (d_inode d) →
         de_name de ≠ cstr "." → de_name de ≠ cstr ".." →
         f2fs_rmdir dir d s = (- ENOTEMPTY, s)) ∧
  ((∀ de, Some de ∈ dir_slots s (d_inode d) →
          de_name de = cstr "." ∨ de_name de = cstr "..") →
   f2fs_rmdir dir d s = f2fs_unlink dir d s).
Proof.
  unfold f2fs_rmdir. split.
  - intros de Hin H1 H2.
    destruct (f2fs_empty_dir s (d_inode d)) eqn:E; [|done].
    rewrite f2fs_empty_dir_spec in E. destruct (E de Hin); done.
  - intros H. apply f2fs_empty_dir_spec in H. by rewrite H.
Qed.

Lemma f2fs_rmdir_not_empty_witness :
  f2fs_rmdir 3 (ex_dentry "sub" 6 3) ex_sbi = (- ENOTEMPTY, ex_sbi).
Proof.
  apply (proj1 (f2fs_rmdir_not_empty 3 (ex_dentry "sub" 6 3) ex_sbi)
               (DirEntry (cstr "f") 7)).
  - apply (bool_decide_unpack _). vm_compute. exact I.
  - vm_compute. discriminate.
  - vm_compute. discriminate.
Defined.

(** ** Dot-entry recovery *)

Lemma find_slot_cons nocase name x l :
  find_slot nocase name (x :: l) =
  if de_match nocase name x then Some 0%nat
  else S <$> find_slot nocase name l.
Proof.
  unfold find_slot. cbn. case_decide as E.
  - by rewrite E.
  - destruct (de_match nocase name x); [done|].
    by destruct (list_find _ l) as [[??]|].
Qed.

Lemma find_slot_snoc nocase name l e :
  find_slot nocase name (l ++ [e]) =
  match find_slot nocase name l with
  | Some i => Some i
  | None => if de_match nocase name e then Some (length l) else None
  end.
Proof.
  induction l as [|x l IH].
  - cbn [app]. rewrite find_slot_cons. by destruct (de_match _ _ e).
  - cbn [app length]. rewrite !find_slot_cons, IH.
    destruct (de_match nocase name x); [done|].
    destruct (find_slot nocase name l); [done|].
    by destruct (de_match _ _ e).
Qed.

Lemma count_name_snoc name l e :
  count_name name (l ++ [e]) =
  (count_name name l + if de_match false name e then 1 else 0)%nat.
Proof.
  unfold count_name. rewrite filter_app, length_app. f_equal.
  cbn. unfold filter; cbn. case_decide as E; [by rewrite E|].
  by destruct (de_match false name e).
Qed.

Lemma count_name_absent name l :
  find_slot false name l = None → count_name name l = 0%nat.
Proof.
  intros H. rewrite find_slot_None in H. unfold count_name.
  induction l as [|x l IH]; [done|]. rewrite filter_cons.
  case_decide as E.
  - rewrite H in E; [done|left].
  - apply IH. intros e He. apply H. by right.
Qed.

Lemma dir_slots_emit e s d : dir_slots (emit e s) d = dir_slots s d.
Proof. done. Qed.
Lemma dir_slots_set_cp_rwsem v s d : dir_slots (set_cp_rwsem v s) d = dir_slots s d.
Proof. done. Qed.
Lemma dir_slots_upd_inode f i s d : dir_slots (upd_inode f i s) d = dir_slots s d.
Proof. done. Qed.
Lemma dir_slots_set_dentries_eq d X m s :
  dir_slots (set_dentries (<[d := X]> m) s) d = X.
Proof. unfold dir_slots. cbn. by rewrite lookup_insert_eq. Qed.

Ltac recover_norm :=
  repeat first
    [ rewrite dir_slots_emit | rewrite dir_slots_set_cp_rwsem
    | rewrite dir_slots_upd_inode | rewrite dir_slots_set_dentries_eq ].

Lemma recover_effect f1 f2 dir pino s :
  fst (__recover_dot_dentries f1 f2 dir pino s)
    = fst (recover_slots f1 f2 dir pino (dir_slots s dir)) ∧
  dentries (snd (__recover_dot_dentries f1 f2 dir pino s))
    = apply_slots dir (snd (recover_slots f1 f2 dir pino (dir_slots s dir)))
        (dentries s) ∧
  inodes (snd (__recover_dot_dentries f1 f2 dir pino s))
    = (if fst (recover_slots f1 f2 dir pino (dir_slots s dir)) =? 0
       then alter clear_inline_dots dir (inodes s) else inodes s).
Proof.
  unfold __recover_dot_dentries, f2fs_find_entry, __f2fs_add_link,
    f2fs_lock_op, f2fs_unlock_op, recover_slots.
  change (negb (Z.land 0 LOOKUP_NOCASE =? 0)) with false.
  cbv beta iota zeta. recover_norm.
  destruct (find_slot false (cstr ".") (dir_slots s dir)) eqn:E1;
    cbv beta iota zeta; recover_norm.
  - change (0 =? 0) with true. cbv beta iota zeta. recover_norm.
    destruct (find_slot false (cstr "..") (dir_slots s dir)) eqn:E2;
      cbv beta iota zeta; recover_norm.
    + done.
    + destruct (f2 =? 0) eqn:F2; cbv beta iota zeta; cbn [fst snd].
      * done.
      * rewrite !F2. done.
  - destruct (f1 =? 0) eqn:F1; cbv beta iota zeta; cbn [fst snd].
    + change (0 =? 0) with true. cbv beta iota zeta. recover_norm.
      destruct (find_slot false (cstr "..") _) eqn:E2;
        cbv beta iota zeta; recover_norm.
      * done.
      * destruct (f2 =? 0) eqn:F2; cbv beta iota zeta; cbn [fst snd].
        -- cbn. rewrite insert_insert_eq. done.
        -- rewrite !F2. done.
    + rewrite !F1. done.
Qed.

Lemma de_match_dot_dot i :
  de_match false (cstr ".") (Some (DirEntry (cstr ".") i)) = true.
Proof. done. Qed.
Lemma de_match_dot_dotdot i :
  de_match false (cstr ".") (Some (DirEntry (cstr "..") i)) = false.
Proof. done. Qed.
Lemma de_match_dotdot_dot i :
  de_match false (cstr "..") (Some (DirEntry (cstr ".") i)) = false.
Proof. done. Qed.
Lemma de_match_dotdot_dotdot i :
  de_match false (cstr "..") (Some (DirEntry (cstr "..") i)) = true.
Proof. done. Qed.

Ltac dots_norm :=
  repeat first
    [ rewrite find_slot_snoc | rewrite count_name_snoc | rewrite Z.eqb_refl
    | rewrite de_match_dot_dot | rewrite de_match_dot_dotdot
    | rewrite de_match_dotdot_dot | rewrite de_match_dotdot_dotdot ].

Ltac dots_simpl :=
  repeat (progress
    (dots_norm;
     repeat match goal with
            | H : find_slot _ _ _ = _ |- _ => rewrite !H
            end;
     cbn [fst snd from_option id])).

Ltac dots_cases f1 f2 l :=
  unfold recover_slots;
  destruct (find_slot false (cstr ".") l) eqn:?;
  destruct (find_slot false (cstr "..") l) eqn:?;
  destruct (Z.eqb_spec f1 0); destruct (Z.eqb_spec f2 0);
  dots_simpl.

Lemma recover_slots_done f1 f2 dir pino l :
  fst (recover_slots f1 f2 dir pino l) = 0 →
  is_Some (find_slot false (cstr ".")
             (default l (snd (recover_slots f1 f2 dir pino l)))) ∧
  is_Some (find_slot false (cstr "..")
             (default l (snd (recover_slots f1 f2 dir pino l)))).
Proof.
  dots_cases f1 f2 l; intros; try done; split; eauto.
Qed.

Lemma recover_slots_present g1 g2 dir pino l :
  is_Some (find_slot false (cstr ".") l) →
  is_Some (find_slot false (cstr "..") l) →
  recover_slots g1 g2 dir pino l = (0, None).
Proof.
  intros [? H1] [? H2]. unfold recover_slots. by rewrite H1, H2.
Qed.

Lemma recover_slots_failed f1 f2 dir pino l :
  is_Some (find_slot false (cstr ".")
             (default l (snd (recover_slots f1 f2 dir pino l)))) →
  is_Some (find_slot false (cstr "..")
             (default l (snd (recover_slots f1 f2 dir pino l)))) →
  fst (recover_slots f1 f2 dir pino l) = 0.
Proof.
  dots_cases f1 f2 l; intros [? ?] [? ?]; done.
Qed.

Lemma recover_slots_retry f1 f2 dir pino l m :
  fst (recover_slots f1 f2 dir pino l) ≠ 0 →
  fst (recover_slots 0 0 dir pino
         (default l (snd (recover_slots f1 f2 dir pino l)))) = 0 ∧
  apply_slots dir
    (snd (recover_slots 0 0 dir pino
            (default l (snd (recover_slots f1 f2 dir pino l)))))
    (apply_slots dir (snd (recover_slots f1 f2 dir pino l)) m) =
  apply_slots dir (snd (recover_slots 0 0 dir pino l)) m.
Proof.
  dots_cases f1 f2 l; intros; try done; cbn [apply_slots];
    by rewrite ?insert_insert_eq.
Qed.

Lemma recover_slots_count f1 f2 dir pino l name :
  name = cstr "." ∨ name = cstr ".." →
  (count_name name (default l (snd (recover_slots f1 f2 dir pino l)))
   ≤ Nat.max 1 (count_name name l))%nat.
Proof.
  intros [-> | ->]; dots_cases f1 f2 l;
    repeat match goal with
    | H : find_slot _ _ _ = None |- _ => apply count_name_absent in H; rewrite ?H
    end; lia.
Qed.

Lemma has_entry_find s dir name :
  has_entry s dir name ↔ is_Some (find_slot false name (dir_slots s dir)).
Proof.
  split.
  - intros H. destruct (find_entry_present _ _ _ H) as (? & ? & ? & _). eauto.
  - intros [i H]. destruct (find_slot_Some _ _ _ _ H) as (e & Hl & Hm).
    apply de_match_exact in Hm as (de & -> & ?). exists de. split; [|done].
    by eapply list_elem_of_lookup_2.
Qed.

Lemma dir_slots_apply dir o s s' :
  dentries s' = apply_slots dir o (dentries s) →
  dir_slots s' dir = default (dir_slots s dir) o.
Proof.
  intros H. unfold dir_slots. rewrite H. destruct o; cbn; [|done].
  by rewrite lookup_insert_eq.
Qed.

Lemma clear_inline_dots_idem i :
  clear_inline_dots (clear_inline_dots i) = clear_inline_dots i.
Proof.
  unfold clear_inline_dots, set_fi_flags. cbn. f_equal.
  apply Z.bits_inj'. intros n Hn. rewrite !Z.clearbit_eqb by done.
  by destruct (Z.testbit _ n), (negb _).
Qed.

Lemma alter_clear_inline_dots_idem dir (m : gmap Z inode) :
  alter clear_inline_dots dir (alter clear_inline_dots dir m) =
  alter clear_inline_dots dir m.
Proof.
  rewrite alter_alter_eq. apply alter_ext. intros x _.
  apply clear_inline_dots_idem.
Qed.

Lemma has_inline_dots_cleared s s' dir :
  inodes s' = alter clear_inline_dots dir (inodes s) →
  f2fs_has_inline_dots s' dir = false.
Proof.
  intros H. unfold f2fs_has_inline_dots, is_inode_flag_set, inode_of.
  rewrite H, lookup_alter_eq. destruct (inodes s !! dir) as [i|]; [|done].
  change (Z.testbit (Z.clearbit (fi_flags i) FI_INLINE_DOTS) FI_INLINE_DOTS
          = false).
  by apply Z.clearbit_eq.
Qed.

(** C9: dot-entry recovery is idempotent.  After a run that succeeded, a
    further run (whatever its insertions would answer) succeeds, inserts
    nothing and leaves directories and inodes as they are; after a run that
    failed the inodes, hence the inline-dots flag, are unchanged, and a
    later run that meets no failure ends in the directories a single such
    run would have produced; no run makes a second [.] or [..] entry; and
    for a directory with the flag set, the flag is clear afterwards exactly
    when both entries are present afterwards. *)
Theorem recover_dot_dentries_idempotent (f1 f2 dir pino : Z)
    (s : f2fs_sb_info) :
  let r := __recover_dot_dentries f1 f2 dir pino s in
  (fst r = 0 → ∀ g1 g2,
     let r2 := __recover_dot_dentries g1 g2 dir pino (snd r) in
     fst r2 = 0 ∧ dentries (snd r2) = dentries (snd r) ∧
     inodes (snd r2) = inodes (snd r)) ∧
  (fst r ≠ 0 →
     inodes (snd r) = inodes s ∧
     fst (__recover_dot_dentries 0 0 dir pino (snd r)) = 0 ∧
     dentries (snd (__recover_dot_dentries 0 0 dir pino (snd r))) =
     dentries (snd (__recover_dot_dentries 0 0 dir pino s))) ∧
  (count_name (cstr ".") (dir_slots (snd r) dir)
     ≤ Nat.max 1 (count_name (cstr ".") (dir_slots s dir)))%nat ∧
  (count_name (cstr "..") (dir_slots (snd r) dir)
     ≤ Nat.max 1 (count_name (cstr "..") (dir_slots s dir)))%nat ∧
  (f2fs_has_inline_dots s dir = true →
     f2fs_has_inline_dots (snd r) dir = false ↔
     has_entry (snd r) dir (cstr ".") ∧ has_entry (snd r) dir (cstr "..")).
Proof.
  intros r.
  destruct (recover_effect f1 f2 dir pino s) as (He & Hd & Hi).
  fold r in He, Hd, Hi.
  pose proof (dir_slots_apply _ _ _ _ Hd) as Hs.
  set (p := recover_slots f1 f2 dir pino (dir_slots s dir)) in *.
  split; [|split; [|split; [|split]]].
  - intros H0 g1 g2 r2.
    destruct (recover_effect g1 g2 dir pino (snd r)) as (He2 & Hd2 & Hi2).
    fold r2 in He2, Hd2, Hi2. rewrite He in H0.
    destruct (recover_slots_done f1 f2 dir pino (dir_slots s dir) H0)
      as [P1 P2].
    fold p in P1, P2. rewrite <- Hs in P1, P2.
    rewrite (recover_slots_present g1 g2 dir pino _ P1 P2) in He2, Hd2, Hi2.
    cbn [fst snd apply_slots] in He2, Hd2, Hi2.
    change (0 =? 0) with true in Hi2. cbv iota in Hi2.
    repeat split; try done.
    rewrite Hi2, Hi, H0. change (0 =? 0) with true. cbv iota.
    apply alter_clear_inline_dots_idem.
  - intros Hne. rewrite He in Hne.
    destruct (recover_effect 0 0 dir pino (snd r)) as (He2 & Hd2 & _).
    destruct (recover_effect 0 0 dir pino s) as (_ & Hd3 & _).
    destruct (recover_slots_retry f1 f2 dir pino (dir_slots s dir)
                (dentries s) Hne) as [R1 R2].
    fold p in R1, R2. rewrite <- Hs in R1, R2.
    repeat split.
    + rewrite Hi. by destruct (Z.eqb_spec (fst p) 0).
    + by rewrite He2.
    + by rewrite Hd2, Hd, Hd3.
  - rewrite Hs. apply recover_slots_count. by left.
  - rewrite Hs. apply recover_slots_count. by right.
  - intros Hflag. rewrite !has_entry_find, Hs. split.
    + intros Hclr. apply recover_slots_done.
      destruct (Z.eqb_spec (fst p) 0) as [|Hne]; [done|].
      unfold f2fs_has_inline_dots, is_inode_flag_set, inode_of in *.
      rewrite Hi in Hclr. congruence.
    + intros [P1 P2].
      pose proof (recover_slots_failed _ _ _ _ _ P1 P2) as H0. fold p in H0.
      apply (has_inline_dots_cleared s). by rewrite Hi, H0.
Qed.

Lemma recover_dot_dentries_idempotent_witness :
  f2fs_has_inline_dots (snd (__recover_dot_dentries 0 0 8 3 ex_sbi_dots)) 8
    = false ↔
  has_entry (snd (__recover_dot_dentries 0 0 8 3 ex_sbi_dots)) 8 (cstr ".") ∧
  has_entry (snd (__recover_dot_dentries 0 0 8 3 ex_sbi_dots)) 8 (cstr "..").
Proof.
  apply (proj2 (proj2 (proj2 (proj2
           (recover_dot_dentries_idempotent 0 0 8 3 ex_sbi_dots))))).
  vm_compute. reflexivity.
Defined.

(** ** Inode bootstrap *)

(** Field access through the state setters. *)
Lemma inodes_upd_inode f ino s :
  inodes (upd_inode f ino s) = alter f ino (inodes s).
Proof. done. Qed.

Lemma f2fs_new_inode_frame nomem dir mode s r s' :
  f2fs_new_inode nomem dir mode s = (r, s') → new_inode_frame s r s'.
Proof.
  unfold f2fs_new_inode, alloc_nid, alloc_nid_failed, f2fs_lock_op,
    f2fs_unlock_op, new_inode_frame.
  steps; intros [= <- <-];
    unfold f2fs_set_encrypted_inode, set_inode_flag;
    rewrite ?inodes_upd_inode; cbn [inodes dentries s_blocksize n_orphans
      max_orphans orphan_list cp_rwsem emit set_cp_rwsem set_free_nids
      set_inodes upd_inode].
  all: repeat split; try done; try lia.
  all: try (intros k Hk; by rewrite ?lookup_alter_ne, ?lookup_insert_ne by done).
  all: rewrite ?lookup_alter_eq, ?lookup_insert_eq; cbn; eauto.
Qed.

Lemma f2fs_new_inode_succeeds dir mode s ino rest :
  free_nids s = ino :: rest → inodes s !! ino = None →
  fst (f2fs_new_inode false dir mode s) = inr ino.
Proof.
  intros Hf Hn. unfold f2fs_new_inode, alloc_nid, f2fs_lock_op, f2fs_unlock_op.
  cbn [free_nids emit set_cp_rwsem]. rewrite Hf. cbv beta iota zeta.
  cbn [inodes emit set_cp_rwsem set_free_nids]. rewrite Hn. done.
Qed.

(** ** Symbolic links *)

Lemma data_upd_inode f ino s k :
  (∀ i, i_data (f i) = i_data i) →
  i_data (inode_of (upd_inode f ino s) k) = i_data (inode_of s k).
Proof.
  intros Hf. unfold inode_of. rewrite inodes_upd_inode, lookup_alter.
  case_decide; [subst|done]. destruct (inodes s !! k); cbn; [apply Hf|done].
Qed.

Lemma data_d_instantiate_new d ino s k :
  i_data (inode_of (d_instantiate_new d ino s) k) = i_data (inode_of s k).
Proof. unfold d_instantiate_new, unlock_new_inode. by rewrite data_upd_inode. Qed.

Lemma encrypted_is_cached s dir :
  f2fs_encrypted_inode s dir = true → is_Some (inodes s !! dir).
Proof.
  unfold f2fs_encrypted_inode, inode_of.
  destruct (inodes s !! dir); [eauto|done].
Qed.

Lemma f2fs_symlink_plain_too_long env dir d symname s :
  Z.of_nat (length symname) > s_blocksize s →
  f2fs_symlink env dir d symname s = (- ENAMETOOLONG, s).
Proof.
  intros H. unfold f2fs_symlink.
  destruct (Z.gtb_spec (Z.of_nat (length symname)) (s_blocksize s)); [done|lia].
Qed.

Lemma f2fs_symlink_container_too_long env dir d symname s ino rest res ct :
  Z.of_nat (length symname) ≤ s_blocksize s →
  se_nomem env = false → free_nids s = ino :: rest →
  inodes s !! ino = None → se_add_link env = 0 →
  f2fs_encrypted_inode s dir = true →
  se_get_encryption_info env = 0 → se_alloc_buffer env = 0 →
  se_usr_to_disk env symname = (res, ct) → 0 ≤ res →
  2 + Z.of_nat (length ct) > s_blocksize s →
  fst (f2fs_symlink env dir d symname s) = - ENAMETOOLONG ∧
  i_data (inode_of (snd (f2fs_symlink env dir d symname s)) ino) = [] ∧
  ∀ k i, inodes s !! k = Some i →
         i_data (inode_of (snd (f2fs_symlink env dir d symname s)) k) = i_data i.
Proof.
  intros Hlen Hnomem Hfree Hnew Hadd Henc Hinfo Hbuf Hcipher Hres Hbig.
  unfold f2fs_symlink.
  destruct (Z.gtb_spec (Z.of_nat (length symname)) (s_blocksize s)); [lia|].
  rewrite Hnomem.
  pose proof (f2fs_new_inode_succeeds dir (Z.lor S_IFLNK S_IRWXUGO)
                (f2fs_balance_fs s) ino rest Hfree Hnew) as Hok.
  destruct (f2fs_new_inode false dir _ (f2fs_balance_fs s)) as [r s1] eqn:E.
  cbn [fst] in Hok. subst r.
  apply f2fs_new_inode_frame in E
    as (Hd & Hb & _ & _ & _ & _ & _ & Hother & i0 & Hi0 & Hdata & _).
  unfold f2fs_add_link, __f2fs_add_link. rewrite Hadd.
  change (0 =? 0) with true. cbv beta iota zeta.
  change (negb true) with false. cbv beta iota zeta.
  destruct (encrypted_is_cached _ _ Henc) as [idir Hdir].
  assert (dir ≠ ino) by congruence.
  match goal with
  | |- context [f2fs_encrypted_inode ?s' dir] =>
      assert (Henc' : f2fs_encrypted_inode s' dir = true)
  end.
  { unfold f2fs_encrypted_inode, inode_of in *. cbn [inodes emit set_dentries
      alloc_nid_done f2fs_unlock_op f2fs_lock_op set_cp_rwsem].
    rewrite Hother by done. exact Henc. }
  rewrite Henc', Hinfo, Hbuf, Hcipher.
  change (negb (0 =? 0)) with false. cbv beta iota zeta.
  destruct (Z.ltb_spec res 0); [lia|].
  unfold encrypted_symlink_data_len, sizeof_f2fs_encrypted_symlink_data.
  cbn [s_blocksize emit set_dentries alloc_nid_done f2fs_unlock_op
       f2fs_lock_op set_cp_rwsem].
  rewrite Hb. cbn [s_blocksize f2fs_balance_fs emit].
  match goal with
  | |- context [?a >? ?b] => destruct (Z.gtb_spec a b); [|lia]
  end.
  cbn [fst snd]. split; [done|].
  assert (Hsync : ∀ st k, i_data (inode_of (if IS_DIRSYNC st dir
                            then f2fs_sync_fs st else st) k)
                          = i_data (inode_of st k))
    by (intros st k; by destruct (IS_DIRSYNC st dir)).
  split.
  - rewrite Hsync, data_d_instantiate_new. unfold inode_of.
    cbn [inodes emit set_dentries alloc_nid_done f2fs_unlock_op f2fs_lock_op
         set_cp_rwsem]. by rewrite Hi0.
  - intros k i Hk. rewrite Hsync, data_d_instantiate_new. unfold inode_of.
    cbn [inodes emit set_dentries alloc_nid_done f2fs_unlock_op f2fs_lock_op
         set_cp_rwsem].
    rewrite Hother by congruence. cbn [inodes f2fs_balance_fs emit].
    by rewrite Hk.
Qed.

Lemma data_page_symlink fault ino p_str p_len s k :
  i_data (inode_of (snd (page_symlink fault ino p_str p_len s)) k)
    = i_data (inode_of s k) ∨
  Z.of_nat (length (i_data (inode_of (snd (page_symlink fault ino p_str p_len s)) k)))
    ≤ Z.max 0 (p_len - 1).
Proof.
  unfold page_symlink. destruct (fault =? 0); [|by left]. cbn [snd].
  unfold inode_of. rewrite inodes_upd_inode, lookup_alter.
  case_decide; [subst|by left]. destruct (inodes s !! k); [|by left].
  right. cbn. rewrite length_take. lia.
Qed.

Lemma f2fs_symlink_stored_fits env dir d symname s k :
  i_data (inode_of (snd (f2fs_symlink env dir d symname s)) k)
    = i_data (inode_of s k) ∨
  Z.of_nat (length (i_data (inode_of (snd (f2fs_symlink env dir d symname s)) k)))
    ≤ s_blocksize s.
Proof.
  unfold f2fs_symlink.
  destruct (Z.gtb_spec (Z.of_nat (length symname)) (s_blocksize s));
    [by left|].
  destruct (f2fs_new_inode _ dir _ (f2fs_balance_fs s)) as [r s1] eqn:E.
  apply f2fs_new_inode_frame in E
    as (Hd & Hb & _ & _ & _ & _ & Hr).
  cbn [s_blocksize f2fs_balance_fs emit inodes] in Hb, Hr.
  destruct r as [err|ino].
  { destruct Hr as [_ Hr]. left. cbn [snd]. unfold inode_of. by rewrite Hr. }
  destruct Hr as (Hnew & Hother & i0 & Hi0 & Hdata & _).
  assert (Hbase : ∀ st, inodes st = inodes s1 →
            i_data (inode_of st k) = i_data (inode_of s k)).
  { intros st Hst. unfold inode_of. rewrite Hst.
    destruct (decide (k = ino)) as [->|Hk].
    - by rewrite Hi0, Hnew.
    - by rewrite Hother. }
  unfold f2fs_add_link, __f2fs_add_link.
  destruct (se_add_link env =? 0) eqn:Hadd; cbv beta iota zeta.
  2:{ cbn [negb]. rewrite Hadd. cbn [negb snd]. left.
      unfold handle_failed_inode, inode_of.
      cbn [inodes f2fs_unlock_op emit set_cp_rwsem alloc_nid_failed
           set_free_nids set_inodes f2fs_lock_op].
      rewrite lookup_delete. case_decide.
      - subst. by rewrite Hnew.
      - by rewrite Hother. }
  change (negb (0 =? 0)) with false. cbv beta iota zeta.
  assert (Hsync : ∀ st, i_data (inode_of (if IS_DIRSYNC st dir
                            then f2fs_sync_fs st else st) k)
                          = i_data (inode_of st k))
    by (intros st; by destruct (IS_DIRSYNC st dir)).
  match goal with
  | |- context [let '(err, s0) := ?body in _] =>
      assert (Hbody : i_data (inode_of (snd body) k) = i_data (inode_of s k) ∨
                      Z.of_nat (length (i_data (inode_of (snd body) k)))
                        ≤ s_blocksize s);
      [|destruct body as [err s2]; cbn [snd] in *;
        by rewrite Hsync, data_d_instantiate_new]
  end.
  match goal with
  | |- context [f2fs_encrypted_inode ?st dir] =>
      set (s3 := st);
      assert (H3 : i_data (inode_of s3 k) = i_data (inode_of s k))
        by (apply Hbase; done);
      assert (Hb3 : s_blocksize s3 = s_blocksize s) by (cbn; done)
  end.
  steps; cbn [snd]; try (by left).
  - match goal with
    | |- context [page_symlink ?f ?i ?p ?l s3] =>
        destruct (data_page_symlink f i p l s3 k) as [Hp|Hp]
    end; [left; congruence|right].
    match goal with
    | H : (_ >? _) = false |- _ => rewrite Z.gtb_ltb in H; apply Z.ltb_ge in H
    end.
    unfold encrypted_symlink_data_len in *. lia.
  - match goal with
    | |- context [page_symlink ?f ?i ?p ?l s3] =>
        destruct (data_page_symlink f i p l s3 k) as [Hp|Hp]
    end; [left; congruence|right]. lia.
Qed.

(** C8: a symlink target longer than a block is refused with ENAMETOOLONG
    before anything is created (the state is untouched); in an encrypted
    directory, once the inode is made and linked and the cipher has answered,
    a ciphertext whose container (two length bytes and the ciphertext) would
    exceed the block size is refused with ENAMETOOLONG and no data is stored
    for the symlink or any other inode; and in every case whatever data the
    call stores for an inode fits in a block. *)
Theorem f2fs_symlink_too_long (env : symlink_env) (dir : Z) (d : dentry)
    (symname : list Z) (s : f2fs_sb_info) :
  (Z.of_nat (length symname) > s_blocksize s →
   f2fs_symlink env dir d symname s = (- ENAMETOOLONG, s)) ∧
  (∀ ino rest res ct,
     Z.of_nat (length symname) ≤ s_blocksize s →
     se_nomem env = false → free_nids s = ino :: rest →
     inodes s !! ino = None → se_add_link env = 0 →
     f2fs_encrypted_inode s dir = true →
     se_get_encryption_info env = 0 → se_alloc_buffer env = 0 →
     se_usr_to_disk env symname = (res, ct) → 0 ≤ res →
     2 + Z.of_nat (length ct) > s_blocksize s →
     fst (f2fs_symlink env dir d symname s) = - ENAMETOOLONG ∧
     i_data (inode_of (snd (f2fs_symlink env dir d symname s)) ino) = [] ∧
     ∀ k i, inodes s !! k = Some i →
            i_data (inode_of (snd (f2fs_symlink env dir d symname s)) k)
              = i_data i) ∧
  (∀ k,
     i_data (inode_of (snd (f2fs_symlink env dir d symname s)) k)
       = i_data (inode_of s k) ∨
     Z.of_nat (length (i_data (inode_of
                 (snd (f2fs_symlink env dir d symname s)) k)))
       ≤ s_blocksize s).
Proof.
  split; [apply f2fs_symlink_plain_too_long|]. split.
  - intros. by eapply f2fs_symlink_container_too_long.
  - apply f2fs_symlink_stored_fits.
Qed.

Lemma f2fs_symlink_too_long_witness :
  fst (f2fs_symlink ex_symlink_env 3 (ex_dentry "l" 0 3) (cstr "/a/b/c")
         ex_sbi_enc) = - ENAMETOOLONG ∧
  i_data (inode_of (snd (f2fs_symlink ex_symlink_env 3 (ex_dentry "l" 0 3)
                           (cstr "/a/b/c") ex_sbi_enc)) 10) = [] ∧
  ∀ k i, inodes ex_sbi_enc !! k = Some i →
         i_data (inode_of (snd (f2fs_symlink ex_symlink_env 3
                                  (ex_dentry "l" 0 3) (cstr "/a/b/c")
                                  ex_sbi_enc)) k) = i_data i.
Proof.
  apply (proj1 (proj2 (f2fs_symlink_too_long ex_symlink_env 3
                         (ex_dentry "l" 0 3) (cstr "/a/b/c") ex_sbi_enc))
               10 [11] 0 (replicate 4095 1)); by vm_compute.
Defined.

(** C7: the decoder allocates and copies as many bytes as the stored length
    field says before it compares that length with the block size: whenever
    a run reaches the check, the allocation and the copy of that length
    precede it in the trace.  For the page whose length field reads 0xFFFF
    (block and page size 4096) the copy leaves the page before any check is
    made; for an empty page the test of the first byte reads outside the
    empty allocation. *)
Theorem f2fs_encrypted_follow_link_copies_first :
  (∀ env ino s,
     MemCheckLen ∈ snd (f2fs_encrypted_follow_link env ino s) →
     ∃ len tl,
       snd (f2fs_encrypted_follow_link env ino s)
         = MemKmalloc len :: MemCopy 2 len :: MemCheckLen :: tl) ∧
  f2fs_encrypted_follow_link ex_follow_env 12 ex_sbi_links
    = (FollowBadAccess, [MemKmalloc 65535; MemCopy 2 65535]) ∧
  f2fs_encrypted_follow_link ex_follow_env 13 ex_sbi_links
    = (FollowBadAccess, [MemKmalloc 0; MemCopy 2 0]).
Proof.
  split; [|split; by vm_compute].
  intros env ino s. unfold f2fs_encrypted_follow_link.
  steps; cbn [snd app]; intros Hin;
    try (by repeat (apply elem_of_cons in Hin as [?|Hin]; [done|]);
            apply elem_of_nil in Hin);
    eauto.
Qed.

Lemma f2fs_encrypted_follow_link_copies_first_witness :
  ∃ len tl,
    snd (f2fs_encrypted_follow_link ex_follow_env 12
           (set_inodes (<[12 := Inode (Z.lor S_IFLNK S_IRWXUGO) 1 0 5 false 0
                                FADVISE_ENCRYPT_BIT [] [3; 0; 1; 2; 3]]> ∅)
              ex_sbi_links))
      = MemKmalloc len :: MemCopy 2 len :: MemCheckLen :: tl.
Proof.
  apply (proj1 f2fs_encrypted_follow_link_copies_first).
  apply (bool_decide_unpack _). by vm_compute.
Defined.

(** ** Cross rename *)

(** C3 (the behaviour of the code where the design document promises
    EMLINK): the file [f] of directory [20] is exchanged with the directory
    [d] of directory [30], so [20] gains a subdirectory.  The check compares
    the link count of the moved file, not that of its parent [20], with the
    ceiling.  With the parent at the ceiling and the file at one link the
    exchange succeeds and takes the parent's link count past the ceiling;
    with the parent at two links and the file at the ceiling the exchange is
    refused with EMLINK and nothing but the log changes. *)
Theorem f2fs_cross_rename_checks_moved_inode (link_max : Z) :
  2 < link_max →
  (fst (f2fs_cross_rename link_max ex_cross_env 20 (ex_dentry "f" 21 20)
          30 (ex_dentry "d" 31 30) (ex_sbi_cross link_max 1)) = 0 ∧
   i_nlink (inode_of (ex_sbi_cross link_max 1) 20) = link_max ∧
   i_nlink (inode_of
              (snd (f2fs_cross_rename link_max ex_cross_env 20
                      (ex_dentry "f" 21 20) 30 (ex_dentry "d" 31 30)
                      (ex_sbi_cross link_max 1))) 20)
     = u32 (link_max + 1)) ∧
  (fst (f2fs_cross_rename link_max ex_cross_env 20 (ex_dentry "f" 21 20)
          30 (ex_dentry "d" 31 30) (ex_sbi_cross 2 link_max)) = - EMLINK ∧
   i_nlink (inode_of (ex_sbi_cross 2 link_max) 20) = 2 ∧
   same_but_log (ex_sbi_cross 2 link_max)
     (snd (f2fs_cross_rename link_max ex_cross_env 20 (ex_dentry "f" 21 20)
             30 (ex_dentry "d" 31 30) (ex_sbi_cross 2 link_max)))).
Proof.
  intros H. split.
  - destruct link_max as [|[p|p|]|p]; try lia;
      unfold f2fs_cross_rename, inc_nlink, drop_nlink; generalize u32;
      intros w; vm_compute; repeat split.
  - assert (Hle : (link_max <=? link_max) = true) by (apply Z.leb_le; lia).
    revert Hle.
    destruct link_max as [|[p|p|]|p]; try lia;
      unfold f2fs_cross_rename, inc_nlink, drop_nlink, same_but_log;
      generalize u32; intros w; vm_compute; intros ->; repeat split.
Qed.

Lemma f2fs_cross_rename_checks_moved_inode_witness :
  fst (f2fs_cross_rename 32000 ex_cross_env 20 (ex_dentry "f" 21 20)
         30 (ex_dentry "d" 31 30) (ex_sbi_cross 32000 1)) = 0 ∧
  i_nlink (inode_of (ex_sbi_cross 32000 1) 20) = 32000 ∧
  i_nlink (inode_of
             (snd (f2fs_cross_rename 32000 ex_cross_env 20
                     (ex_dentry "f" 21 20) 30 (ex_dentry "d" 31 30)
                     (ex_sbi_cross 32000 1))) 20)
    = u32 (32000 + 1).
Proof.
  refine (proj1 (f2fs_cross_rename_checks_moved_inode 32000 _)).
  by vm_compute.
Defined.

(** ** Rename *)





Lemma same_but_log_trans s1 s2 s3 :
  same_but_log s1 s2 → same_but_log s2 s3 → same_but_log s1 s3.
Proof.
  unfold same_but_log. intros (?&?&?&?&?&?) (?&?&?&?&?&?).
  repeat split; congruence.
Qed.

Ltac fields :=
  cbn [dentries inodes cp_rwsem free_nids n_orphans orphan_list max_orphans
       s_blocksize emit set_cp_rwsem set_n_orphans set_orphan_list set_inodes
       set_free_nids set_dentries upd_inode] in *.


(** The second part fails only when the whiteout cannot be linked. *)
Lemma f2fs_rename_finish_error env old_dir old_dentry new_dir new_inode
    old_entry old_dir_entry whiteout s :
  fst (f2fs_rename_finish env old_dir old_dentry new_dir new_inode old_entry
         old_dir_entry whiteout s) ≠ 0 →
  whiteout ≠ 0 ∧ re_add_whiteout env ≠ 0.
Proof.
  unfold f2fs_rename_finish, f2fs_add_link, __f2fs_add_link,
    rename_put_out_dir, rename_out_whiteout.
  destruct (Z.eqb_spec whiteout 0) as [->|Hw]; cbv beta iota zeta.
  - change (0 =? 0) with true. cbv beta iota zeta. cbn [fst]. done.
  - destruct (Z.eqb_spec (re_add_whiteout env) 0) as [->|Hf];
      cbv beta iota zeta.
    + change (negb (0 =? 0)) with false. cbv beta iota zeta. cbn [fst]. done.
    + done.
Qed.


(** C2 (what the code does at a failed retargeting): the file [a] is
    renamed onto the existing file [b] and [update_dent_inode] fails.  The
    rename answers success, yet [b] still names the old inode [5], [a] is
    still there, and no link count or orphan slot has changed. *)
Theorem f2fs_rename_success_without_rename :
  fst (f2fs_rename ex_env_update_dent_fails 3 (ex_dentry "a" 4 3)
         3 (ex_dentry "b" 5 3) 0 ex_sbi) = 0 ∧
  dir_slots (snd (f2fs_rename ex_env_update_dent_fails 3 (ex_dentry "a" 4 3)
                    3 (ex_dentry "b" 5 3) 0 ex_sbi)) 3 =
    [Some (DirEntry (cstr ".") 3); Some (DirEntry (cstr "..") 3);
     Some (DirEntry (cstr "a") 4); Some (DirEntry (cstr "b") 5);
     Some (DirEntry (cstr "sub") 6)] ∧
  same_but_log ex_sbi
    (snd (f2fs_rename ex_env_update_dent_fails 3 (ex_dentry "a" 4 3)
            3 (ex_dentry "b" 5 3) 0 ex_sbi)).
Proof. repeat split; by vm_compute. Qed.

(** *** A rename that replaces its target *)

Lemma inode_of_upd_inode f k s ino :
  inode_of (upd_inode f k s) ino =
  if decide (k = ino)
  then match inodes s !! ino with Some i => f i | None => zero_inode end
  else inode_of s ino.
Proof.
  unfold inode_of. rewrite inodes_upd_inode, lookup_alter.
  case_decide; [subst|done]. by destruct (inodes s !! ino).
Qed.

Lemma nlink_upd_inode f k s ino :
  (∀ i, i_nlink (f i) = i_nlink i) →
  i_nlink (inode_of (upd_inode f k s) ino) = i_nlink (inode_of s ino).
Proof.
  intros Hf. rewrite inode_of_upd_inode. case_decide; [subst|done].
  unfold inode_of. destruct (inodes s !! ino); cbn; [apply Hf|done].
Qed.

Lemma nlink_drop_nlink k s ino :
  is_Some (inodes s !! ino) →
  i_nlink (inode_of (drop_nlink k s) ino) =
  if decide (k = ino) then u32 (i_nlink (inode_of s ino) - 1)
  else i_nlink (inode_of s ino).
Proof.
  intros [i Hi]. unfold drop_nlink. rewrite inode_of_upd_inode.
  case_decide; [subst|done]. unfold inode_of. by rewrite Hi.
Qed.

Lemma cached_upd_inode f k s ino :
  is_Some (inodes (upd_inode f k s) !! ino) ↔ is_Some (inodes s !! ino).
Proof.
  rewrite inodes_upd_inode, lookup_alter. case_decide; [subst|done].
  by rewrite fmap_is_Some.
Qed.

Lemma dir_slots_set_dentries d X m s d' :
  dir_slots (set_dentries (<[d := X]> m) s) d' =
  if decide (d = d') then X else default [] (m !! d').
Proof.
  unfold dir_slots. cbn. rewrite lookup_insert. by case_decide.
Qed.

(** The first part of rename on the path that replaces the target. *)
Lemma f2fs_rename_target_replaces env old_inode new_inode ode new_dir
    new_dentry s st ni :
  new_inode ≠ 0 → re_update_dent env = 0 →
  inodes s !! new_inode = Some ni →
  f2fs_rename_target env old_inode new_inode ode 0 new_dir new_dentry s
    = inr st →
  ∃ j,
    find_slot false (d_name new_dentry) (dir_slots s new_dir) = Some j ∧
    (∀ d, dir_slots st d =
          if decide (new_dir = d)
          then alter (λ e, (λ x, DirEntry (de_name x) old_inode) <$> e) j
                 (dir_slots s new_dir)
          else dir_slots s d) ∧
    is_Some (inodes st !! new_inode) ∧
    i_nlink (inode_of st new_inode) =
      (if bool_decide (is_Some ode) then u32 (u32 (i_nlink ni - 1) - 1)
       else u32 (i_nlink ni - 1)) ∧
    (i_nlink (inode_of st new_inode) = 0 →
       new_inode ∈ orphan_list st ∧ n_orphans st = n_orphans s + 1) ∧
    (i_nlink (inode_of st new_inode) ≠ 0 →
       orphan_list st = orphan_list s ∧ n_orphans st = n_orphans s).
Proof.
  intros Hni Hupd Hcached. unfold f2fs_rename_target.
  destruct (Z.eqb_spec new_inode 0); [done|]. cbn [negb].
  destruct (_ && negb (f2fs_empty_dir s new_inode)); [done|].
  unfold f2fs_find_entry. change (negb (Z.land 0 LOOKUP_NOCASE =? 0)) with false.
  destruct (find_slot false (d_name new_dentry) (dir_slots s new_dir))
    as [j|] eqn:Ej; [|done].
  exists j. split; [done|]. revert H.
  unfold acquire_orphan_inode, rename_put_out_dir, rename_out_whiteout.
  set (s1 := f2fs_lock_op (emit _ s)).
  change (max_orphans s1) with (max_orphans s).
  change (n_orphans s1) with (n_orphans s).
  destruct (max_orphans s <=? n_orphans s); [done|].
  change (negb (0 =? 0)) with false. cbv iota.
  unfold update_dent_inode. rewrite Hupd. change (0 =? 0) with true.
  set (s2 := emit EvAcquireOrphan (set_n_orphans (n_orphans s + 1) s1)).
  assert (Hname : ∀ s3,
            dentries s3 = dentries s → orphan_list s3 = orphan_list s →
            n_orphans s3 = n_orphans s + 1 →
            (∃ ni', inodes s3 !! new_inode = Some ni' ∧
                    i_nlink ni' = i_nlink ni) →
            ∀ st',
            (let s := f2fs_set_link new_dir j old_inode s3 in
             let s := if bool_decide (is_Some ode) then drop_nlink new_inode s
                      else s in
             let s := drop_nlink new_inode s in
             let s := if i_nlink (inode_of s new_inode) =? 0
                      then add_orphan_inode new_inode s
                      else release_orphan_inode s in
             s) = st' →
            (∀ d, dir_slots st' d =
               if decide (new_dir = d)
               then alter (λ e, (λ x, DirEntry (de_name x) old_inode) <$> e) j
                      (dir_slots s new_dir)
               else dir_slots s d) ∧
            is_Some (inodes st' !! new_inode) ∧
            i_nlink (inode_of st' new_inode) =
              (if bool_decide (is_Some ode) then u32 (u32 (i_nlink ni - 1) - 1)
               else u32 (i_nlink ni - 1)) ∧
            (i_nlink (inode_of st' new_inode) = 0 →
               new_inode ∈ orphan_list st' ∧ n_orphans st' = n_orphans s + 1) ∧
            (i_nlink (inode_of st' new_inode) ≠ 0 →
               orphan_list st' = orphan_list s ∧ n_orphans st' = n_orphans s)).
  { intros s3 Hd Ho Hn (ni' & Hc & Hl) st'. cbv zeta.
    set (s4 := f2fs_set_link new_dir j old_inode s3).
    assert (Hc4 : inodes s4 !! new_inode = Some ni') by done.
    assert (Ho4 : orphan_list s4 = orphan_list s) by done.
    assert (Hn4 : n_orphans s4 = n_orphans s + 1) by done.
    set (s5 := if bool_decide (is_Some ode) then drop_nlink new_inode s4
               else s4).
    assert (H5 : is_Some (inodes s5 !! new_inode) ∧
                 i_nlink (inode_of s5 new_inode) =
                   (if bool_decide (is_Some ode) then u32 (i_nlink ni - 1)
                    else i_nlink ni) ∧
                 dentries s5 = dentries s4 ∧ orphan_list s5 = orphan_list s ∧
                 n_orphans s5 = n_orphans s + 1).
    { unfold s5. destruct (bool_decide (is_Some ode)).
      - split; [apply cached_upd_inode; eauto|].
        rewrite nlink_drop_nlink by eauto. rewrite decide_True by done.
        unfold inode_of. rewrite Hc4. cbn. by rewrite Hl.
      - split; [eauto|]. unfold inode_of. rewrite Hc4. cbn. by rewrite Hl. }
    clearbody s5. destruct H5 as (Hc5 & Hl5 & Hd5 & Ho5 & Hn5).
    set (s6 := drop_nlink new_inode s5).
    assert (H6 : is_Some (inodes s6 !! new_inode) ∧
                 i_nlink (inode_of s6 new_inode) =
                   (if bool_decide (is_Some ode)
                    then u32 (u32 (i_nlink ni - 1) - 1)
                    else u32 (i_nlink ni - 1)) ∧
                 dentries s6 = dentries s4 ∧ orphan_list s6 = orphan_list s ∧
                 n_orphans s6 = n_orphans s + 1).
    { split; [by apply cached_upd_inode|].
      unfold s6. rewrite nlink_drop_nlink by done. rewrite decide_True by done.
      rewrite Hl5. by destruct (bool_decide (is_Some ode)). }
    clearbody s6. destruct H6 as (Hc6 & Hl6 & Hd6 & Ho6 & Hn6).
    intros <-.
    assert (Hslots : ∀ s7, dentries s7 = dentries s4 → ∀ d,
              dir_slots s7 d =
              if decide (new_dir = d)
              then alter (λ e, (λ x, DirEntry (de_name x) old_inode) <$> e) j
                     (dir_slots s new_dir)
              else dir_slots s d).
    { intros s7 H7 d. unfold dir_slots at 1. rewrite H7. unfold s4.
      cbn [dentries f2fs_set_link emit set_dentries]. rewrite lookup_insert.
      case_decide; [subst; cbn|]; unfold dir_slots; by rewrite Hd. }
    destruct (Z.eqb_spec (i_nlink (inode_of s6 new_inode)) 0) as [Hz|Hz].
    - unfold add_orphan_inode.
      destruct (bool_decide (new_inode ∈ orphan_list s6)) eqn:Hin.
      + apply bool_decide_eq_true in Hin.
        split; [by apply Hslots|]. split; [done|]. split; [done|].
        split; [done|]. intros Hnz. by destruct Hnz.
      + split; [by apply Hslots|]. split; [done|]. split; [done|].
        split.
        * intros _. cbn [orphan_list n_orphans emit set_orphan_list].
          split; [by left|done].
        * intros Hnz. by destruct Hnz.
    - unfold release_orphan_inode.
      split; [by apply Hslots|]. split; [done|]. split; [done|].
      split.
      + intros Hzz. by destruct Hz.
      + intros _. cbn [orphan_list n_orphans emit set_n_orphans].
        split; [done|lia]. }
  destruct (file_enc_name s2 new_inode); change (negb (0 =? 0)) with false;
    cbv iota; intros [= <-].
  - apply (Hname s2); try done. by exists ni.
  - apply (Hname (upd_inode (set_i_name (d_name new_dentry)) old_inode s2));
      try done.
    destruct (decide (old_inode = new_inode)) as [->|Hne].
    + exists (set_i_name (d_name new_dentry) ni). split; [|done].
      rewrite inodes_upd_inode, lookup_alter_eq.
      change (inodes s2) with (inodes s). by rewrite Hcached.
    + exists ni. split; [|done].
      rewrite inodes_upd_inode, lookup_alter_ne by done. done.
Qed.

Lemma nlink_drop_nlink_ne k s ino :
  k ≠ ino → i_nlink (inode_of (drop_nlink k s) ino) = i_nlink (inode_of s ino).
Proof.
  intros H. unfold drop_nlink. rewrite inode_of_upd_inode.
  by rewrite decide_False.
Qed.

(** The second part of rename when no whiteout is to be linked. *)
Lemma f2fs_rename_finish_plain env old_dir old_dentry new_dir new_inode
    old_entry ode s :
  fst (f2fs_rename_finish env old_dir old_dentry new_dir new_inode old_entry
         ode 0 s) = 0 ∧
  orphan_list (snd (f2fs_rename_finish env old_dir old_dentry new_dir
                      new_inode old_entry ode 0 s)) = orphan_list s ∧
  n_orphans (snd (f2fs_rename_finish env old_dir old_dentry new_dir
                    new_inode old_entry ode 0 s)) = n_orphans s ∧
  (∀ d, d ≠ d_inode old_dentry →
        dir_slots (snd (f2fs_rename_finish env old_dir old_dentry new_dir
                          new_inode old_entry ode 0 s)) d =
        if decide (old_dir = d) then <[old_entry := None]> (dir_slots s old_dir)
        else dir_slots s d) ∧
  (∀ ino, ino ≠ old_dir →
          i_nlink (inode_of (snd (f2fs_rename_finish env old_dir old_dentry
                                    new_dir new_inode old_entry ode 0 s)) ino)
          = i_nlink (inode_of s ino)).
Proof.
  unfold f2fs_rename_finish. cbv zeta. change (0 =? 0) with true. cbv iota.
  set (s1 := file_lost_pino (d_inode old_dentry) s).
  set (s2 := if negb (new_inode =? 0) && file_enc_name s1 new_inode
             then file_set_enc_name (d_inode old_dentry) s1 else s1).
  assert (H2 : dentries s2 = dentries s ∧ orphan_list s2 = orphan_list s ∧
               n_orphans s2 = n_orphans s ∧
               ∀ ino, i_nlink (inode_of s2 ino) = i_nlink (inode_of s ino)).
  { unfold s2. destruct (_ && _); repeat split; try done; intros ino;
      unfold file_set_enc_name, s1, file_lost_pino;
      by rewrite !nlink_upd_inode. }
  clearbody s2. clear s1. destruct H2 as (Hd2 & Ho2 & Hn2 & Hl2).
  set (s3 := f2fs_delete_entry old_entry old_dir s2).
  assert (H3 : (∀ d, dir_slots s3 d =
                  if decide (old_dir = d)
                  then <[old_entry := None]> (dir_slots s old_dir)
                  else dir_slots s d) ∧
               orphan_list s3 = orphan_list s ∧ n_orphans s3 = n_orphans s ∧
               ∀ ino, i_nlink (inode_of s3 ino) = i_nlink (inode_of s ino)).
  { split; [|done]. intros d. unfold s3, f2fs_delete_entry.
    rewrite dir_slots_emit, dir_slots_set_dentries. unfold dir_slots.
    by rewrite Hd2. }
  clearbody s3. clear Hd2 Ho2 Hn2 Hl2 s2. destruct H3 as (Hd3 & Ho3 & Hn3 & Hl3).
  set (s4 := match ode with
             | Some dotdot =>
                 drop_nlink old_dir
                   (if negb (old_dir =? new_dir) && true
                    then f2fs_set_link (d_inode old_dentry) dotdot new_dir s3
                    else s3)
             | None => s3
             end).
  assert (H4 : (∀ d, d ≠ d_inode old_dentry → dir_slots s4 d = dir_slots s3 d) ∧
               orphan_list s4 = orphan_list s ∧ n_orphans s4 = n_orphans s ∧
               ∀ ino, ino ≠ old_dir →
                      i_nlink (inode_of s4 ino) = i_nlink (inode_of s3 ino)).
  { repeat split;
      [|unfold s4; destruct ode; [destruct (_ && true)|]; done
       |unfold s4; destruct ode; [destruct (_ && true)|]; done|].
    - intros d Hd. unfold s4. destruct ode as [dotdot|]; [|done].
      unfold drop_nlink. rewrite dir_slots_upd_inode.
      destruct (_ && true); [|done].
      unfold f2fs_set_link. rewrite dir_slots_emit, dir_slots_set_dentries.
      by rewrite decide_False by done.
    - intros ino Hne. unfold s4. destruct ode as [dotdot|]; [|done].
      rewrite nlink_drop_nlink_ne by done. by destruct (_ && true). }
  clearbody s4. destruct H4 as (Hd4 & Ho4 & Hn4 & Hl4).
  cbn [fst snd]. split; [done|].
  set (s5 := f2fs_unlock_op s4).
  destruct (IS_DIRSYNC s5 old_dir || IS_DIRSYNC s5 new_dir);
    (split; [done|]; split; [done|]; split;
     [intros d Hd; rewrite <- Hd3, <- Hd4 by done; done
     |intros ino Hne; rewrite <- Hl3, <- Hl4 by done; done]).
Qed.

Lemma same_but_log_dir_slots s s' d :
  same_but_log s s' → dir_slots s' d = dir_slots s d.
Proof. intros (_ & Hd & _). unfold dir_slots. by rewrite Hd. Qed.

Lemma lookup_repoint ino j (L : list (option f2fs_dir_entry)) i e :
  alter (λ e, (λ x, DirEntry (de_name x) ino) <$> e) j L !! i
    = Some (Some e) →
  ∃ e0, L !! i = Some (Some e0) ∧ de_name e0 = de_name e.
Proof.
  destruct (decide (i = j)) as [->|Hne].
  - rewrite list_lookup_alter_eq. destruct (L !! j) as [[e0|]|]; try done.
    cbn. intros [= <-]. eauto.
  - rewrite list_lookup_alter_ne by done. eauto.
Qed.

(** Apart from the failed retargeting examined above, a rename that answers
    success with a target in place has done what is expected of it.  The
    hypotheses are what the VFS guarantees to [f2fs_rename]: source and
    target are different names, the name of the target is unique in its
    directory, both are directories or neither is, the target is not the
    old parent and nothing moves into itself. *)
Lemma f2fs_rename_replaces_target env old_dir old_dentry new_dir new_dentry
    flags s ni :
  Z.land flags RENAME_WHITEOUT = 0 →
  re_update_dent env = 0 →
  d_inode new_dentry ≠ 0 →
  inodes s !! d_inode new_dentry = Some ni →
  d_inode new_dentry ≠ old_dir →
  d_inode old_dentry ≠ new_dir →
  (old_dir ≠ new_dir ∨ d_name old_dentry ≠ d_name new_dentry) →
  (∀ i j a b,
     dir_slots s new_dir !! i = Some (Some a) →
     dir_slots s new_dir !! j = Some (Some b) →
     de_name a = d_name new_dentry → de_name b = d_name new_dentry → i = j) →
  S_ISDIR (i_mode (inode_of s (d_inode old_dentry))) = S_ISDIR (i_mode ni) →
  fst (f2fs_rename env old_dir old_dentry new_dir new_dentry flags s) = 0 →
  (∃ j,
     dir_slots (snd (f2fs_rename env old_dir old_dentry new_dir new_dentry
                       flags s)) new_dir !! j
       = Some (Some (DirEntry (d_name new_dentry) (d_inode old_dentry))) ∧
     ∀ i e,
       dir_slots (snd (f2fs_rename env old_dir old_dentry new_dir new_dentry
                         flags s)) new_dir !! i = Some (Some e) →
       de_name e = d_name new_dentry → i = j) ∧
  i_nlink (inode_of (snd (f2fs_rename env old_dir old_dentry new_dir
                            new_dentry flags s)) (d_inode new_dentry)) =
    (if S_ISDIR (i_mode ni) then u32 (u32 (i_nlink ni - 1) - 1)
     else u32 (i_nlink ni - 1)) ∧
  (i_nlink (inode_of (snd (f2fs_rename env old_dir old_dentry new_dir
                             new_dentry flags s)) (d_inode new_dentry)) = 0 →
     d_inode new_dentry
       ∈ orphan_list (snd (f2fs_rename env old_dir old_dentry new_dir
                             new_dentry flags s)) ∧
     n_orphans (snd (f2fs_rename env old_dir old_dentry new_dir new_dentry
                       flags s)) = n_orphans s + 1) ∧
  (i_nlink (inode_of (snd (f2fs_rename env old_dir old_dentry new_dir
                             new_dentry flags s)) (d_inode new_dentry)) ≠ 0 →
     orphan_list (snd (f2fs_rename env old_dir old_dentry new_dir new_dentry
                         flags s)) = orphan_list s ∧
     n_orphans (snd (f2fs_rename env old_dir old_dentry new_dir new_dentry
                       flags s)) = n_orphans s).
Proof.
  intros Hfl Hupd Hni Hcached Hnod Hond Hdiff Huniq Htype.
  destruct (f2fs_rename env old_dir old_dentry new_dir new_dentry flags s)
    as [err s'] eqn:E.
  cbn [fst snd]. intros ->. revert E.
  unfold f2fs_rename. cbv zeta.
  destruct (negb (old_dir =? new_dir) && f2fs_encrypted_inode s new_dir
            && negb (re_context_ok env)); [done|].
  unfold f2fs_find_entry at 1.
  change (negb (Z.land 0 LOOKUP_NOCASE =? 0)) with false.
  change (dir_slots (f2fs_balance_fs s) old_dir) with (dir_slots s old_dir).
  destruct (find_slot false (d_name old_dentry) (dir_slots s old_dir))
    as [old_entry|] eqn:Eold; [|done].
  set (s1 := emit (EvFindEntry old_dir (d_name old_dentry)) (f2fs_balance_fs s)).
  assert (H1 : same_but_log s s1) by done.
  change (inode_of s1 (d_inode old_dentry))
    with (inode_of s (d_inode old_dentry)).
  rewrite Htype. clearbody s1.
  (* from the creation of the whiteout on *)
  assert (Hrest : ∀ (ode : option nat) s2, same_but_log s s2 →
    bool_decide (is_Some ode) = S_ISDIR (i_mode ni) →
    (let '(err0, whiteout, s3) :=
       if Z.land flags RENAME_WHITEOUT =? 0 then (0, 0, s2)
       else f2fs_create_whiteout (re_whiteout env) old_dir s2 in
     if negb (err0 =? 0) then (err0, s3)
     else
       match
         f2fs_rename_target env (d_inode old_dentry) (d_inode new_dentry) ode
           whiteout new_dir new_dentry s3
       with
       | inl r => r
       | inr s4 =>
           f2fs_rename_finish env old_dir old_dentry new_dir
             (d_inode new_dentry) old_entry ode whiteout s4
       end) = (0, s') →
    (∃ j,
       dir_slots s' new_dir !! j
         = Some (Some (DirEntry (d_name new_dentry) (d_inode old_dentry))) ∧
       ∀ i e, dir_slots s' new_dir !! i = Some (Some e) →
              de_name e = d_name new_dentry → i = j) ∧
    i_nlink (inode_of s' (d_inode new_dentry)) =
      (if S_ISDIR (i_mode ni) then u32 (u32 (i_nlink ni - 1) - 1)
       else u32 (i_nlink ni - 1)) ∧
    (i_nlink (inode_of s' (d_inode new_dentry)) = 0 →
       d_inode new_dentry ∈ orphan_list s' ∧ n_orphans s' = n_orphans s + 1) ∧
    (i_nlink (inode_of s' (d_inode new_dentry)) ≠ 0 →
       orphan_list s' = orphan_list s ∧ n_orphans s' = n_orphans s)).
  { intros ode s2 H2 Hode. rewrite Hfl. change (0 =? 0) with true.
    cbv iota. change (negb (0 =? 0)) with false. cbv iota.
    destruct (f2fs_rename_target _ _ _ _ _ _ _ _) as [[e st]|st] eqn:Et.
    { (* an exit of the first part with the answer 0 is the failed
         retargeting, which is excluded *)
      intros [= -> ->]. revert Et. unfold f2fs_rename_target.
      destruct (Z.eqb_spec (d_inode new_dentry) 0); [done|]. cbn [negb].
      unfold rename_out_whiteout, rename_put_out_dir, f2fs_find_entry,
        acquire_orphan_inode, update_dent_inode.
      rewrite Hupd. change (0 =? 0) with true.
      steps; intros [= ?]; done. }
    intros Ef.
    assert (Hc2 : inodes s2 !! d_inode new_dentry = Some ni).
    { destruct H2 as (-> & _). done. }
    destruct (f2fs_rename_target_replaces _ _ _ _ _ _ _ _ _ Hni Hupd Hc2 Et)
      as (j & Ej & Hslots & Hct & Hnl & Hz & Hnz).
    rewrite (same_but_log_dir_slots _ _ _ H2) in Ej, Hslots.
    destruct (f2fs_rename_finish_plain env old_dir old_dentry new_dir
                (d_inode new_dentry) old_entry ode st)
      as (_ & Ho & Hn & Hd & Hl).
    rewrite Ef in Ho, Hn, Hd, Hl. cbn [snd] in Ho, Hn, Hd, Hl.
    assert (Hn2 : n_orphans s2 = n_orphans s) by apply H2.
    assert (Ho2 : orphan_list s2 = orphan_list s) by apply H2.
    rewrite Hl by done. rewrite Hnl, Hode, Ho, Hn.
    rewrite Hnl, Hode in Hz, Hnz.
    split; [|split; [done|split]].
    - (* the entry of the target name *)
      destruct (find_slot_Some _ _ _ _ Ej) as (ej & Hj & Hmj).
      apply de_match_exact in Hmj as (dej & -> & Hnj).
      destruct (find_slot_Some _ _ _ _ Eold) as (eo & Hoe & Hmo).
      apply de_match_exact in Hmo as (deo & -> & Hno).
      rewrite Hd by (by apply not_eq_sym). rewrite !Hslots.
      rewrite (decide_True (P := new_dir = new_dir)) by done.
      exists j. destruct (decide (old_dir = new_dir)) as [Heq|Hneq].
      + subst new_dir. rewrite decide_True by done.
        assert (Hsrc : d_name old_dentry ≠ d_name new_dentry)
          by (by destruct Hdiff).
        assert (Hoj : old_entry ≠ j) by congruence.
        split.
        * rewrite list_lookup_insert_ne by done.
          rewrite list_lookup_alter_eq, Hj. cbn. by rewrite Hnj.
        * intros i e Hi He.
          destruct (decide (i = old_entry)) as [->|Hio].
          { rewrite list_lookup_insert_eq in Hi; [done|].
            rewrite length_alter. by eapply lookup_lt_Some. }
          rewrite list_lookup_insert_ne in Hi by done.
          apply lookup_repoint in Hi as (e0 & Hi & Hn0).
          eapply Huniq; eauto. congruence.
      + split.
        * rewrite list_lookup_alter_eq, Hj. cbn. by rewrite Hnj.
        * intros i e Hi He.
          apply lookup_repoint in Hi as (e0 & Hi & Hn0).
          eapply Huniq; eauto. congruence.
    - intros H0. destruct (Hz H0) as [? ?]. split; [done|lia].
    - intros H0. destruct (Hnz H0) as [? ?]. split; [congruence|lia]. }
  destruct (S_ISDIR (i_mode ni)) eqn:Hdir.
  - unfold f2fs_parent_dir, f2fs_find_entry.
    set (s2 := emit (EvFindEntry (d_inode old_dentry) (cstr "..")) s1).
    assert (H2 : same_but_log s s2) by done.
    clearbody s2.
    destruct (find_slot _ (cstr "..") _) as [dotdot|]; cbn [andb negb].
    + change (bool_decide (is_Some (Some dotdot))) with true. cbn [negb].
      cbv iota. by apply Hrest.
    + change (bool_decide (is_Some (@None nat))) with false. cbn [negb].
      cbv iota. done.
  - cbn [andb]. cbv iota. by apply Hrest.
Qed.

(** * Further properties of the name codec *)

Lemma striptail_len_le (len : nat) (name : list Z) :
  (__f2fs_striptail_len len name ≤ len)%nat.
Proof.
  induction len as [|n IH]; [done|]. cbn [__f2fs_striptail_len].
  destruct (char_at name n =? DOT); lia.
Qed.

(** X1: [__f2fs_striptail_len] answers a length that is at most the one it
    was given; every byte it cut off is a dot, and the last byte it kept,
    if it kept any, is not a dot. *)
Theorem striptail_len_spec (len : nat) (name : list Z) :
  (__f2fs_striptail_len len name ≤ len)%nat ∧
  (∀ i, (__f2fs_striptail_len len name ≤ i < len)%nat →
        char_at name i = DOT) ∧
  (∀ n, __f2fs_striptail_len len name = S n → char_at name n ≠ DOT).
Proof.
  induction len as [|n (IH1 & IH2 & IH3)].
  { split; [done|]. split; [intros i Hi; lia|done]. }
  cbn [__f2fs_striptail_len]. destruct (char_at name n =? DOT) eqn:E.
  - apply Z.eqb_eq in E. split; [lia|]. split; [|exact IH3].
    intros i Hi. destruct (decide (i = n)) as [->|]; [done|].
    apply IH2. lia.
  - apply Z.eqb_neq in E. split; [lia|]. split; [lia|].
    by intros m [= <-].
Qed.

(** One step of [strncasecmp]: the comparison over [S n] bytes succeeds
    when both strings end here, or when their first bytes agree up to case
    and the comparison of the rest succeeds. *)
Lemma strncasecmp_step (a b : list Z) (n : nat) :
  strncasecmp a b (S n) = 0 ↔
  (char_at a 0 = 0 ∧ char_at b 0 = 0) ∨
  (char_at a 0 ≠ 0 ∧ char_at b 0 ≠ 0 ∧
   tolower (char_at a 0) = tolower (char_at b 0) ∧
   strncasecmp (tail a) (tail b) n = 0).
Proof.
  cbn [strncasecmp].
  destruct (char_at a 0 =? 0) eqn:Ea; [apply Z.eqb_eq in Ea|apply Z.eqb_neq in Ea];
  (destruct (char_at b 0 =? 0) eqn:Eb; [apply Z.eqb_eq in Eb|apply Z.eqb_neq in Eb]);
  cbn [orb]; try (split; [intros; lia|intros [[]|(?&?&_)]; lia]).
  destruct (char_at a 0 =? char_at b 0) eqn:E.
  - apply Z.eqb_eq in E. rewrite E. split; [by right|].
    intros [[]|(_&_&_&?)]; [done|done].
  - destruct (tolower (char_at a 0) =? tolower (char_at b 0)) eqn:E';
      cbn [negb]; [apply Z.eqb_eq in E'|apply Z.eqb_neq in E'].
    + split; [by right|]. intros [[]|(_&_&_&?)]; done.
    + split; [lia|]. intros [[]|(_&_&?&_)]; done.
Qed.

Lemma strncasecmp_refl (n : nat) : ∀ a, strncasecmp a a n = 0.
Proof.
  induction n as [|n IH]; intros a; [done|]. apply strncasecmp_step.
  destruct (decide (char_at a 0 = 0)); [by left|right; auto].
Qed.

Lemma strncasecmp_sym (n : nat) : ∀ a b,
  strncasecmp a b n = 0 → strncasecmp b a n = 0.
Proof.
  induction n as [|n IH]; intros a b; [done|]. rewrite !strncasecmp_step.
  intros [[]|(?&?&?&?)]; [by left|right; auto].
Qed.

Lemma strncasecmp_trans (n : nat) : ∀ a b c,
  strncasecmp a b n = 0 → strncasecmp b c n = 0 → strncasecmp a c n = 0.
Proof.
  induction n as [|n IH]; intros a b c; [done|]. rewrite !strncasecmp_step.
  intros [[]|(?&?&?&?)] [[]|(?&?&?&?)]; try done; [by left|].
  right. repeat split; [done|done|congruence|eauto].
Qed.

(** X2: the comparison of the dcache is an equivalence on names: every name
    equals itself, and equality is symmetric and transitive.  A name is
    given as the dcache gives it, a buffer with a length. *)
Theorem f2fs_d_compare_equivalence :
  (∀ p, f2fs_d_compare (qstr_len p) (qstr_name p) p = 0) ∧
  (∀ p q, f2fs_d_compare (qstr_len p) (qstr_name p) q = 0 →
          f2fs_d_compare (qstr_len q) (qstr_name q) p = 0) ∧
  (∀ p q r, f2fs_d_compare (qstr_len p) (qstr_name p) q = 0 →
            f2fs_d_compare (qstr_len q) (qstr_name q) r = 0 →
            f2fs_d_compare (qstr_len p) (qstr_name p) r = 0).
Proof.
  unfold f2fs_d_compare, f2fs_striptail_len. split; [|split].
  - intros p. rewrite Nat.eqb_refl, strncasecmp_refl. done.
  - intros p q. destruct (Nat.eqb_spec
      (__f2fs_striptail_len (qstr_len q) (qstr_name q))
      (__f2fs_striptail_len (qstr_len p) (qstr_name p))) as [E|]; [|done].
    rewrite E, Nat.eqb_refl.
    destruct (Z.eqb_spec (strncasecmp (qstr_name q) (qstr_name p)
      (__f2fs_striptail_len (qstr_len p) (qstr_name p))) 0) as [H|]; [|done].
    by rewrite (strncasecmp_sym _ _ _ H).
  - intros p q r.
    destruct (Nat.eqb_spec
      (__f2fs_striptail_len (qstr_len q) (qstr_name q))
      (__f2fs_striptail_len (qstr_len p) (qstr_name p))) as [E1|]; [|done].
    destruct (Nat.eqb_spec
      (__f2fs_striptail_len (qstr_len r) (qstr_name r))
      (__f2fs_striptail_len (qstr_len q) (qstr_name q))) as [E2|]; [|done].
    rewrite E2, E1, Nat.eqb_refl.
    destruct (Z.eqb_spec (strncasecmp (qstr_name q) (qstr_name p)
      (__f2fs_striptail_len (qstr_len p) (qstr_name p))) 0) as [H1|]; [|done].
    destruct (Z.eqb_spec (strncasecmp (qstr_name r) (qstr_name q)
      (__f2fs_striptail_len (qstr_len p) (qstr_name p))) 0) as [H2|]; [|done].
    by rewrite (strncasecmp_trans _ _ _ _ H2 H1).
Qed.

Lemma striptail_dots (a : list Z) (k : nat) :
  __f2fs_striptail_len (length (a ++ replicate k DOT)) (a ++ replicate k DOT)
  = __f2fs_striptail_len (length a) a.
Proof.
  induction k as [|k IH].
  - by rewrite app_nil_r.
  - replace (a ++ replicate (S k) DOT) with ((a ++ replicate k DOT) ++ [DOT])
      by (rewrite <- app_assoc; f_equal; symmetry; apply replicate_S_end).
    rewrite length_app, Nat.add_1_r. cbn [__f2fs_striptail_len].
    unfold char_at at 1. rewrite lookup_app_r by lia. rewrite Nat.sub_diag.
    cbn [lookup list_lookup default from_option id]. change (DOT =? DOT) with true.
    cbv iota. rewrite striptail_app by lia. exact IH.
Qed.

Lemma strncasecmp_common_prefix (a : list Z) : ∀ (x y : list Z) (n : nat),
  (n ≤ length a)%nat → strncasecmp (a ++ x) (a ++ y) n = 0.
Proof.
  induction a as [|c a IH]; intros x y n Hn.
  - cbn in Hn. by replace n with O by lia.
  - destruct n as [|n]; [done|]. apply strncasecmp_step.
    change (char_at ((c :: a) ++ x) 0) with c.
    change (char_at ((c :: a) ++ y) 0) with c.
    destruct (decide (c = 0)); [by left|right].
    repeat split; try done. apply IH. cbn in Hn. lia.
Qed.

(** X3: trailing dots do not count.  A name followed by any number of dots
    compares equal to the same name followed by any other number of dots;
    in particular the names that consist of dots only, [.] and [..] among
    them, all compare equal to the empty name. *)
Theorem f2fs_d_compare_trailing_dots (a : list Z) (j k : nat) :
  f2fs_d_compare (length (a ++ replicate j DOT)) (a ++ replicate j DOT)
    (QSTR (a ++ replicate k DOT)) = 0.
Proof.
  unfold f2fs_d_compare, f2fs_striptail_len, QSTR.
  cbn [qstr_len qstr_name]. rewrite !striptail_dots, Nat.eqb_refl.
  rewrite strncasecmp_common_prefix; [done|].
  rewrite striptail_len_strip. apply strip_length_le.
Qed.

(** The hash loop folds the hash step over the case-folded bytes. *)
Lemma d_hash_loop_fold (partial : Z → Z → Z) (n : nat) : ∀ (name : list Z) h,
  (n ≤ length name)%nat →
  d_hash_loop partial n name h =
  foldl (λ h c, partial c h) h (tolower <$> take n name).
Proof.
  induction n as [|n IH]; intros name h Hn; [done|].
  destruct name as [|c name]; [cbn in Hn; lia|].
  cbn [d_hash_loop tail take fmap list_fmap foldl].
  change (char_at (c :: name) 0) with c. apply IH. cbn in Hn. lia.
Qed.

(** X4: the hash agrees with the comparison.  Two names without a NUL byte
    that [f2fs_d_compare] judges equal get the same hash from [f2fs_d_hash],
    whatever the hash functions of the dcache are. *)
Theorem f2fs_d_hash_respects_compare (init : Z) (partial : Z → Z → Z)
    (fin : Z → Z) (a b : list Z) :
  0 ∉ a → 0 ∉ b →
  f2fs_d_compare (length a) a (QSTR b) = 0 →
  f2fs_d_hash init partial fin (QSTR a) = f2fs_d_hash init partial fin (QSTR b).
Proof.
  intros Za Zb. unfold f2fs_d_compare, f2fs_d_hash, f2fs_striptail_len, QSTR.
  cbn [qstr_len qstr_name].
  destruct (Nat.eqb_spec (__f2fs_striptail_len (length b) b)
              (__f2fs_striptail_len (length a) a)) as [E|]; [|done].
  rewrite E.
  destruct (Z.eqb_spec (strncasecmp b a (__f2fs_striptail_len (length a) a)) 0)
    as [H|]; [|done].
  intros _.
  assert (Ha : (__f2fs_striptail_len (length a) a ≤ length a)%nat)
    by apply striptail_len_le.
  assert (Hb : (__f2fs_striptail_len (length a) a ≤ length b)%nat)
    by (rewrite <- E; apply striptail_len_le).
  apply strncasecmp_fold in H; [|done|done| |].
  - rewrite !d_hash_loop_fold by done. by rewrite H.
  - by apply not_elem_of_take.
  - by apply not_elem_of_take.
Qed.

Lemma f2fs_d_hash_respects_compare_witness :
  f2fs_d_hash 0 ex_partial_name_hash ex_end_name_hash (QSTR (cstr "FOO")) =
  f2fs_d_hash 0 ex_partial_name_hash ex_end_name_hash (QSTR (cstr "foo.")).
Proof.
  apply (f2fs_d_hash_respects_compare 0 ex_partial_name_hash ex_end_name_hash
           (cstr "FOO") (cstr "foo.")).
  - vm_compute. intros H. by repeat (apply elem_of_cons in H as [H|H]; [done|]);
      apply elem_of_nil in H.
  - vm_compute. intros H. by repeat (apply elem_of_cons in H as [H|H]; [done|]);
      apply elem_of_nil in H.
  - vm_compute. reflexivity.
Defined.

(** * Cold files *)

Lemma strlen_le (s : list Z) : (strlen s ≤ length s)%nat.
Proof.
  induction s as [|c s IH]; cbn [strlen length]; [lia|].
  destruct (c =? 0); lia.
Qed.

Lemma length_c_string (s : list Z) : length (c_string s) = strlen s.
Proof. unfold c_string. rewrite length_take. pose proof (strlen_le s). lia. Qed.

Lemma c_string_nul_free (s : list Z) : 0 ∉ c_string s.
Proof.
  unfold c_string. induction s as [|c s IH]; cbn [strlen take].
  - apply not_elem_of_nil.
  - destruct (Z.eqb_spec c 0); cbn [take]; [apply not_elem_of_nil|].
    apply not_elem_of_cons. by split; [apply not_eq_sym|].
Qed.

Lemma strlen_nul_free (s : list Z) : 0 ∉ s → strlen s = length s.
Proof.
  induction s as [|c s IH]; intros H; cbn [strlen length]; [done|].
  apply not_elem_of_cons in H as [Hc Hs].
  destruct (Z.eqb_spec c 0); [congruence|]. by rewrite IH.
Qed.

Lemma char_at_c_string (s : list Z) (i : nat) :
  (i < strlen s)%nat → char_at (c_string s) i = char_at s i.
Proof. intros H. unfold char_at, c_string. by rewrite lookup_take_lt. Qed.

(** [is_multimedia_file] in terms of the C strings its arguments hold. *)
Lemma is_multimedia_file_match (s sub : list Z) :
  is_multimedia_file s sub = 1 ↔
  ∃ base ext, c_string s = base ++ DOT :: ext ∧ base ≠ [] ∧
              tolower <$> ext = tolower <$> c_string sub.
Proof.
  unfold is_multimedia_file.
  pose proof (strlen_le s) as Hs. pose proof (strlen_le sub) as Hsub.
  pose proof (length_c_string s) as Ls. pose proof (length_c_string sub) as Lsub.
  assert (Hcmp : (strlen sub ≤ strlen s)%nat →
    strncasecmp (drop (strlen s - strlen sub) s) sub (strlen sub) = 0 ↔
    tolower <$> drop (strlen s - strlen sub) (c_string s)
      = tolower <$> c_string sub).
  { intros Hle.
    assert (Ht : take (strlen sub) (drop (strlen s - strlen sub) s)
                 = drop (strlen s - strlen sub) (c_string s)).
    { unfold c_string. rewrite take_drop_commute. do 2 f_equal. lia. }
    rewrite strncasecmp_fold.
    - by rewrite Ht.
    - rewrite length_drop. lia.
    - done.
    - rewrite Ht. intros Hin. apply (c_string_nul_free s).
      by eapply subseteq_drop.
    - apply c_string_nul_free. }
  destruct (Nat.ltb_spec (strlen s) (strlen sub + 2)) as [Hshort|Hlong].
  { split; [done|]. intros (base & ext & Hcs & Hb & He).
    apply (f_equal length) in Hcs, He.
    rewrite length_app in Hcs. cbn [length] in Hcs. rewrite !length_fmap in He.
    destruct base; [done|]. cbn [length] in Hcs. lia. }
  assert (Hk : char_at s (strlen s - strlen sub - 1)
               = char_at (c_string s) (strlen s - strlen sub - 1))
    by (symmetry; apply char_at_c_string; lia).
  destruct (Z.eqb_spec (char_at s (strlen s - strlen sub - 1)) DOT)
    as [Hdot|Hdot]; cbn [negb].
  - rewrite Hk in Hdot.
    destruct (Z.eqb_spec
      (strncasecmp (drop (strlen s - strlen sub) s) sub (strlen sub)) 0)
      as [H0|H0]; rewrite Hcmp in H0 by lia.
    + split; [intros _|done].
      exists (take (strlen s - strlen sub - 1) (c_string s)),
             (drop (strlen s - strlen sub) (c_string s)).
      split; [|split; [|done]].
      * rewrite <- (take_drop (strlen s - strlen sub - 1) (c_string s)) at 1.
        f_equal.
        destruct (c_string s !! (strlen s - strlen sub - 1)%nat) as [x|] eqn:Hx.
        -- rewrite (drop_S _ _ _ Hx). unfold char_at in Hdot.
           rewrite Hx in Hdot. cbn in Hdot. subst x. do 2 f_equal. lia.
        -- apply lookup_ge_None in Hx. lia.
      * intros Hnil. apply (f_equal length) in Hnil.
        rewrite length_take in Hnil. cbn [length] in Hnil. lia.
    + split; [done|]. intros (base & ext & Hcs & Hb & He). exfalso.
      apply H0. rewrite <- He.
      assert (Hl : (strlen s - strlen sub = length base + 1)%nat).
      { apply (f_equal length) in Hcs, He.
        rewrite length_app in Hcs. cbn [length] in Hcs.
        rewrite !length_fmap in He. lia. }
      rewrite Hl, Hcs, drop_app_ge by lia.
      replace (length base + 1 - length base)%nat with 1%nat by lia. done.
  - split; [done|]. intros (base & ext & Hcs & Hb & He). exfalso.
    apply Hdot. rewrite Hk.
    assert (Hl : (strlen s - strlen sub - 1 = length base)%nat).
    { apply (f_equal length) in Hcs, He.
      rewrite length_app in Hcs. cbn [length] in Hcs.
      rewrite !length_fmap in He. lia. }
    rewrite Hl, Hcs. unfold char_at. rewrite lookup_app_r by lia.
    by rewrite Nat.sub_diag.
Qed.

Lemma is_multimedia_file_bool (s sub : list Z) :
  is_multimedia_file s sub = 0 ∨ is_multimedia_file s sub = 1.
Proof.
  unfold is_multimedia_file.
  destruct (_ <? _)%nat; [by left|]. destruct (negb _); [by left|].
  destruct (_ =? 0); [by right|by left].
Qed.

(** X5: [is_multimedia_file] answers [1] or [0]; it answers [1] exactly
    when the name is a non-empty base, a dot and an extension that equals
    the given one up to the case of letters.  Names and extensions are the C
    strings the two buffers hold. *)
Theorem is_multimedia_file_spec (s sub : list Z) :
  (is_multimedia_file s sub = 0 ∨ is_multimedia_file s sub = 1) ∧
  (is_multimedia_file s sub = 1 ↔
   ∃ base ext, c_string s = base ++ DOT :: ext ∧ base ≠ [] ∧
               tolower <$> ext = tolower <$> c_string sub).
Proof. split; [apply is_multimedia_file_bool|apply is_multimedia_file_match]. Qed.

Lemma set_cold_files_from_exists raw ino name s (n : nat) : ∀ i,
  set_cold_files_from n i raw ino name s =
  if existsb (λ j, negb (is_multimedia_file name (extlist raw j) =? 0))
       (seq i n)
  then file_set_cold ino s else s.
Proof.
  induction n as [|n IH]; intros i; [done|].
  cbn [set_cold_files_from seq existsb].
  destruct (negb (is_multimedia_file name (extlist raw i) =? 0)); [done|].
  apply IH.
Qed.

(** X6: [set_cold_files] marks the inode cold when the name is a non-empty
    base, a dot and an extension that equals, up to the case of letters, the
    string at one of the first [extension_count] slots of the table; it
    changes nothing otherwise, and it never changes anything but the advise
    byte of that inode. *)
Theorem set_cold_files_spec (raw : f2fs_super_block) (ino : Z)
    (name : list Z) (s : f2fs_sb_info) :
  ((∃ (i : nat) base ext,
      Z.of_nat i < to_int (extension_count raw) ∧
      c_string name = base ++ DOT :: ext ∧ base ≠ [] ∧
      tolower <$> ext = tolower <$> c_string (extlist raw i)) →
   set_cold_files raw ino name s = file_set_cold ino s) ∧
  (¬ (∃ (i : nat) base ext,
      Z.of_nat i < to_int (extension_count raw) ∧
      c_string name = base ++ DOT :: ext ∧ base ≠ [] ∧
      tolower <$> ext = tolower <$> c_string (extlist raw i)) →
   set_cold_files raw ino name s = s).
Proof.
  unfold set_cold_files. rewrite set_cold_files_from_exists.
  destruct (existsb _ _) eqn:E.
  - split; [done|]. intros Hno. exfalso. apply Hno.
    apply existsb_exists in E as (i & Hin & Hi). apply in_seq in Hin.
    destruct (is_multimedia_file_bool name (extlist raw i)) as [H0|H1];
      [by rewrite H0 in Hi|].
    apply is_multimedia_file_match in H1 as (base & ext & ? & ? & ?).
    exists i, base, ext. repeat split; try done. lia.
  - split; [|done]. intros (i & base & ext & Hi & Hcs & Hb & He). exfalso.
    apply not_true_iff_false in E. apply E, existsb_exists. exists i.
    split; [apply in_seq; lia|].
    assert (H1 : is_multimedia_file name (extlist raw i) = 1)
      by (apply is_multimedia_file_match; eauto).
    by rewrite H1.
Qed.

(** * Simple link operations *)

(** ** Inode bootstrap *)

Lemma f2fs_new_inode_inl nomem dir mode s e s' :
  f2fs_new_inode nomem dir mode s = (inl e, s') → e ≠ 0 ∧ same_but_log s s'.
Proof.
  unfold f2fs_new_inode, alloc_nid, alloc_nid_failed, f2fs_lock_op,
    f2fs_unlock_op, same_but_log.
  steps; intros [= <- <-]; fields; repeat split; try done; try lia.
Qed.

Lemma encrypted_fresh s st n I dir :
  inodes s !! n = None → inodes st = <[n := I]> (inodes s) → i_advise I = 0 →
  f2fs_encrypted_inode st dir = f2fs_encrypted_inode s dir.
Proof.
  intros Hn Hst HI. unfold f2fs_encrypted_inode, inode_of. rewrite Hst.
  destruct (decide (n = dir)) as [<-|].
  - by rewrite lookup_insert_eq, Hn; cbn; rewrite HI.
  - by rewrite lookup_insert_ne.
Qed.

Lemma f2fs_new_inode_inr nomem dir mode s ino s' :
  f2fs_new_inode nomem dir mode s = (inr ino, s') →
  ∃ rest i,
    free_nids s = ino :: rest ∧ inodes s !! ino = None ∧
    inodes s' = <[ino := i]> (inodes s) ∧
    dentries s' = dentries s ∧ free_nids s' = rest ∧
    n_orphans s' = n_orphans s ∧ max_orphans s' = max_orphans s ∧
    orphan_list s' = orphan_list s ∧ cp_rwsem s' = cp_rwsem s ∧
    s_blocksize s' = s_blocksize s ∧
    i_mode i = inode_init_owner (i_mode (inode_of s dir)) mode ∧
    i_nlink i = 1 ∧ i_state i = I_NEW ∧ i_size i = 0 ∧ i_dirsync i = false ∧
    i_name i = [] ∧ i_data i = [] ∧
    i_advise i =
      (if f2fs_encrypted_inode s dir && f2fs_may_encrypt (i_mode i)
       then FADVISE_ENCRYPT_BIT else 0) ∧
    fi_flags i =
      (let f0 :=
         if opt_inline_data s && (S_ISREG (i_mode i) || S_ISLNK (i_mode i))
            && negb (f2fs_encrypted_inode s dir && S_ISREG (i_mode i))
         then Z.setbit 0 FI_INLINE_DATA else 0 in
       if opt_inline_dentry s && S_ISDIR (i_mode i)
       then Z.setbit f0 FI_INLINE_DENTRY else f0).
Proof.
  unfold f2fs_new_inode, alloc_nid, f2fs_lock_op, f2fs_unlock_op.
  destruct nomem; [done|]. cbv beta iota zeta. fields.
  destruct (free_nids s) as [|n rest] eqn:Hfree; [done|]. cbv beta iota zeta. fields.
  destruct (inodes s !! n) eqn:Hn; [done|].
  change (inode_of (emit EvUnlockOp _) dir) with (inode_of s dir).
  set (m := inode_init_owner _ mode).
  match goal with |- context [f2fs_encrypted_inode ?st dir] =>
    rewrite (encrypted_fresh s st n _ dir Hn eq_refl eq_refl) end.
  unfold f2fs_may_inline_data, f2fs_may_inline_dentry, f2fs_may_encrypt.
  set (enc := f2fs_encrypted_inode s dir).
  unfold f2fs_set_encrypted_inode, set_inode_flag, f2fs_encrypted_inode, inode_of.
  destruct (opt_inline_data s) eqn:O1, (opt_inline_dentry s) eqn:O2.
  all: destruct enc, (S_ISREG m) eqn:E1, (S_ISDIR m) eqn:E2, (S_ISLNK m) eqn:E3.
  all: repeat (progress (
    cbn [andb orb negb]; cbv iota; fields; cbn [opt_inline_data opt_inline_dentry upd_inode set_inodes emit set_cp_rwsem set_free_nids];
    rewrite ?alter_insert_eq, ?lookup_insert_eq;
    cbn [default from_option id i_mode i_advise set_i_advise set_fi_flags fi_flags];
    rewrite ?E1, ?E2, ?E3, ?O1, ?O2;
    change (Z.land (Z.lor 0 FADVISE_ENCRYPT_BIT) FADVISE_ENCRYPT_BIT =? 0) with false;
    change (Z.land 0 FADVISE_ENCRYPT_BIT =? 0) with true)).
  all: intros [= <- <-]; fields; rewrite ?alter_insert_eq;
    eexists rest, _; (split; [done|]); (split; [done|]); (split; [reflexivity|]);
    cbn [i_mode i_nlink i_state i_size i_dirsync i_name i_data i_advise fi_flags
         set_i_advise set_fi_flags]; fold m; rewrite ?E1, ?E2, ?E3;
    cbn [andb orb negb]; cbv zeta iota;
    repeat split; try done; try lia.
Qed.

Lemma entry_of_same s s' :
  dentries s' = dentries s → ∀ p n k, entry_of s' p n k ↔ entry_of s p n k.
Proof. intros H p n k. unfold entry_of, dir_slots. by rewrite H. Qed.

Lemma entry_of_snoc s s' p n k :
  dentries s' = <[p := dir_slots s p ++ [Some (DirEntry n k)]]> (dentries s) →
  ∀ p' n' k', entry_of s' p' n' k' ↔
              entry_of s p' n' k' ∨ (p' = p ∧ n' = n ∧ k' = k).
Proof.
  intros H p' n' k'. unfold entry_of, dir_slots at 1. rewrite H.
  destruct (decide (p = p')) as [<-|Hne].
  - rewrite lookup_insert_eq. cbn. rewrite elem_of_app, list_elem_of_singleton.
    split; intros [?|?]; auto.
    + right. by simplify_eq.
    + right. destruct H0 as (_ & -> & ->). done.
  - rewrite lookup_insert_ne by done. fold (dir_slots s p').
    split; [auto|]. intros [?|(? & _)]; [done|congruence].
Qed.

Lemma set_cold_files_cases raw ino name s :
  set_cold_files raw ino name s = s ∨
  set_cold_files raw ino name s = file_set_cold ino s.
Proof.
  unfold set_cold_files. rewrite set_cold_files_from_exists.
  destruct (existsb _ _); auto.
Qed.

Lemma create_cold_cases (b : bool) raw ino name s :
  (if b then set_cold_files raw ino name s else s) = s ∨
  (if b then set_cold_files raw ino name s else s) = file_set_cold ino s.
Proof. destruct b; [apply set_cold_files_cases|by left]. Qed.

(** ** Creation of a regular file *)

(** X7: [f2fs_create] is all or nothing.  When it answers an error, the
    state is as before, the log apart: no entry, no inode, the node id back
    with the allocator, the ordering lock released.  When it answers [0],
    the new inode has the first free node id, which the inode cache did not
    hold; the entries of all directories are those from before and the one
    that gives the name of the dentry to the new inode; the inode is cached
    with the mode asked for (set-group-id inherited) and is no longer
    marked new; the orphan registry and the ordering lock are as before. *)
Theorem f2fs_create_all_or_nothing (env : create_env) (dir : Z) (d : dentry)
    (mode : Z) (s : f2fs_sb_info) :
  (fst (f2fs_create env dir d mode s) ≠ 0 →
   same_but_log s (snd (f2fs_create env dir d mode s))) ∧
  (fst (f2fs_create env dir d mode s) = 0 →
   ∃ ino rest i,
     free_nids s = ino :: rest ∧ inodes s !! ino = None ∧
     free_nids (snd (f2fs_create env dir d mode s)) = rest ∧
     (∀ p n k,
        entry_of (snd (f2fs_create env dir d mode s)) p n k ↔
        entry_of s p n k ∨ (p = d_parent d ∧ n = d_name d ∧ k = ino)) ∧
     inodes (snd (f2fs_create env dir d mode s)) !! ino = Some i ∧
     i_mode i = inode_init_owner (i_mode (inode_of s dir)) mode ∧
     Z.land (i_state i) I_NEW = 0 ∧
     n_orphans (snd (f2fs_create env dir d mode s)) = n_orphans s ∧
     orphan_list (snd (f2fs_create env dir d mode s)) = orphan_list s ∧
     cp_rwsem (snd (f2fs_create env dir d mode s)) = cp_rwsem s).
Proof.
  unfold f2fs_create.
  destruct (f2fs_new_inode (cr_nomem env) dir mode (f2fs_balance_fs s))
    as [[e|ino] s1] eqn:E.
  - apply f2fs_new_inode_inl in E as [He Hs]. cbn [fst snd]. split; [|done].
    intros _. exact Hs.
  - apply f2fs_new_inode_inr in E
      as (rest & i & Hfree & Hnone & Hi & Hd & Hf & Hno & Hmo & Hol & Hcp & Hbs
          & Hmode & Hnl & Hst & _).
    destruct (create_cold_cases (negb (cr_disable_ext_identify env))
                (cr_raw_super env) ino (d_name d) s1) as [-> | ->];
    unfold f2fs_add_link, __f2fs_add_link;
    (destruct (cr_add_link env =? 0) eqn:Ea; cbv beta iota zeta;
     [change (negb (0 =? 0)) with false|
      rewrite Ea; cbn [negb]]; cbv beta iota zeta; cbn [fst snd]).
    all: unfold f2fs_balance_fs in *; fields.
    all: try (* success *)
      (split; [done|]; intros _; exists ino, rest; eexists;
       destruct (IS_DIRSYNC _ dir);
       unfold d_instantiate_new, unlock_new_inode, alloc_nid_done,
         f2fs_unlock_op, f2fs_lock_op, f2fs_sync_fs, file_set_cold; fields;
       rewrite ?Hi, ?alter_insert_eq, ?lookup_insert_eq;
       (split; [done|]); (split; [done|]); (split; [done|]);
       (split; [apply entry_of_snoc; unfold dir_slots; fields; by rewrite Hd|]);
       (split; [reflexivity|]); cbn [i_mode i_state set_i_state set_i_advise];
       rewrite ?Hst; repeat split; try done; lia).
    all: (* failure *)
      split; [intros _|intros H; by apply Z.eqb_eq in H; rewrite H in Ea];
      unfold handle_failed_inode, alloc_nid_failed, f2fs_unlock_op,
        f2fs_lock_op, file_set_cold, same_but_log; fields;
      rewrite ?Hi, ?alter_insert_eq, delete_insert_id by done;
      repeat split; try done; try congruence; lia.
Qed.
(** The mode of a directory made with permission bits only is that of a
    directory, also after [inode_init_owner]. *)
Lemma S_ISDIR_init_owner dm mode :
  Z.land mode S_IFMT = 0 →
  S_ISDIR (inode_init_owner dm (Z.lor S_IFDIR mode)) = true.
Proof.
  intros H. unfold inode_init_owner, S_ISDIR.
  assert (E : Z.land (Z.lor S_IFDIR mode) S_IFMT = S_IFDIR)
    by (rewrite Z.land_lor_distr_l, H; done).
  rewrite E. change (S_IFDIR =? S_IFDIR) with true. rewrite andb_true_r.
  destruct (negb _); [|by rewrite E].
  rewrite Z.land_lor_distr_l, E. done.
Qed.

Lemma S_ISGID_init_owner dm mode :
  Z.land mode S_IFMT = 0 → Z.land dm S_ISGID ≠ 0 →
  Z.land (inode_init_owner dm (Z.lor S_IFDIR mode)) S_ISGID = S_ISGID.
Proof.
  intros H Hg. unfold inode_init_owner, S_ISDIR.
  assert (E : Z.land (Z.lor S_IFDIR mode) S_IFMT = S_IFDIR)
    by (rewrite Z.land_lor_distr_l, H; done).
  rewrite E. change (S_IFDIR =? S_IFDIR) with true. rewrite andb_true_r.
  destruct (Z.eqb_spec (Z.land dm S_ISGID) 0); [done|]. cbn [negb].
  rewrite Z.land_lor_distr_l. change (Z.land S_ISGID S_ISGID) with S_ISGID.
  apply Z.bits_inj'. intros k _. rewrite Z.lor_spec, Z.land_spec.
  destruct (Z.testbit S_ISGID k); by rewrite ?andb_false_r, ?orb_true_r.
Qed.

Ltac link_op_success ino rest dir Hi Hd Hst :=
  exists ino, rest; eexists;
  destruct (IS_DIRSYNC _ dir);
  unfold d_instantiate_new, unlock_new_inode, alloc_nid_done,
    f2fs_unlock_op, f2fs_lock_op, f2fs_sync_fs, file_set_cold,
    set_inode_flag; fields;
  rewrite ?Hi, ?alter_insert_eq, ?lookup_insert_eq;
  (split; [done|]); (split; [done|]); (split; [done|]);
  (split; [apply entry_of_snoc; unfold dir_slots; fields; by rewrite Hd|]);
  (split; [reflexivity|]);
  cbn [i_mode i_state set_i_state set_i_advise set_fi_flags];
  rewrite ?Hst.

Ltac link_op_failure Hi Ea :=
  split; [intros _|intros H; by apply Z.eqb_eq in H; rewrite H in Ea];
  unfold handle_failed_inode, alloc_nid_failed, f2fs_unlock_op,
    f2fs_lock_op, file_set_cold, set_inode_flag, clear_inode_flag,
    same_but_log; fields;
  rewrite ?Hi, ?alter_insert_eq, delete_insert_id by done;
  repeat split; try done; try congruence; lia.

(** ** Creation of a directory *)

(** X8: [f2fs_mkdir] is all or nothing.  When it answers an error, the
    state is as before, the log apart.  When it answers [0], the new inode
    has the first free node id, which the inode cache did not hold; the
    entries of all directories are those from before and the one that gives
    the name of the dentry to the new inode; the orphan registry and the
    ordering lock are as before; and for a mode of permission bits only the
    new inode is a directory, which is set-group-id when the directory it is
    made in is. *)
Theorem f2fs_mkdir_all_or_nothing (env : node_env) (dir : Z) (d : dentry)
    (mode : Z) (s : f2fs_sb_info) :
  (fst (f2fs_mkdir env dir d mode s) ≠ 0 →
   same_but_log s (snd (f2fs_mkdir env dir d mode s))) ∧
  (fst (f2fs_mkdir env dir d mode s) = 0 →
   ∃ ino rest i,
     free_nids s = ino :: rest ∧ inodes s !! ino = None ∧
     free_nids (snd (f2fs_mkdir env dir d mode s)) = rest ∧
     (∀ p n k,
        entry_of (snd (f2fs_mkdir env dir d mode s)) p n k ↔
        entry_of s p n k ∨ (p = d_parent d ∧ n = d_name d ∧ k = ino)) ∧
     inodes (snd (f2fs_mkdir env dir d mode s)) !! ino = Some i ∧
     Z.land (i_state i) I_NEW = 0 ∧
     (Z.land mode S_IFMT = 0 →
      S_ISDIR (i_mode i) = true ∧
      (Z.land (i_mode (inode_of s dir)) S_ISGID ≠ 0 →
       Z.land (i_mode i) S_ISGID = S_ISGID)) ∧
     n_orphans (snd (f2fs_mkdir env dir d mode s)) = n_orphans s ∧
     orphan_list (snd (f2fs_mkdir env dir d mode s)) = orphan_list s ∧
     cp_rwsem (snd (f2fs_mkdir env dir d mode s)) = cp_rwsem s).
Proof.
  unfold f2fs_mkdir.
  destruct (f2fs_new_inode (ne_nomem env) dir (Z.lor S_IFDIR mode)
              (f2fs_balance_fs s)) as [[e|ino] s1] eqn:E.
  - apply f2fs_new_inode_inl in E as [He Hs]. cbn [fst snd]. split; [|done].
    intros _. exact Hs.
  - apply f2fs_new_inode_inr in E
      as (rest & i & Hfree & Hnone & Hi & Hd & Hf & Hno & Hmo & Hol & Hcp & Hbs
          & Hmode & Hnl & Hst & _).
    unfold f2fs_add_link, __f2fs_add_link.
    destruct (ne_add_link env =? 0) eqn:Ea; cbv beta iota zeta;
      [change (negb (0 =? 0)) with false|rewrite Ea; cbn [negb]];
      cbv beta iota zeta; cbn [fst snd]; unfold f2fs_balance_fs in *; fields.
    + split; [done|]. intros _.
      link_op_success ino rest dir Hi Hd Hst;
        (split; [done|]); (split; [|repeat split; try done; lia]);
        intros Hm; rewrite Hmode;
        (split; [by apply S_ISDIR_init_owner|by apply S_ISGID_init_owner]).
    + link_op_failure Hi Ea.
Qed.

(** ** Creation of a device node *)

(** X9: [f2fs_mknod] refuses a device number that is not valid with
    [EINVAL] before it touches anything, and is all or nothing otherwise:
    an error leaves the state as before, the log apart, and the answer [0]
    comes with the new inode under the first free node id, the one new
    entry for it, and the orphan registry and the ordering lock as
    before. *)
Theorem f2fs_mknod_all_or_nothing (valid : Z → bool) (env : node_env)
    (dir : Z) (d : dentry) (mode rdev : Z) (s : f2fs_sb_info) :
  (valid rdev = false →
   f2fs_mknod valid env dir d mode rdev s = (- EINVAL, s)) ∧
  (fst (f2fs_mknod valid env dir d mode rdev s) ≠ 0 →
   same_but_log s (snd (f2fs_mknod valid env dir d mode rdev s))) ∧
  (fst (f2fs_mknod valid env dir d mode rdev s) = 0 →
   valid rdev = true ∧
   ∃ ino rest i,
     free_nids s = ino :: rest ∧ inodes s !! ino = None ∧
     free_nids (snd (f2fs_mknod valid env dir d mode rdev s)) = rest ∧
     (∀ p n k,
        entry_of (snd (f2fs_mknod valid env dir d mode rdev s)) p n k ↔
        entry_of s p n k ∨ (p = d_parent d ∧ n = d_name d ∧ k = ino)) ∧
     inodes (snd (f2fs_mknod valid env dir d mode rdev s)) !! ino = Some i ∧
     i_mode i = inode_init_owner (i_mode (inode_of s dir)) mode ∧
     Z.land (i_state i) I_NEW = 0 ∧
     n_orphans (snd (f2fs_mknod valid env dir d mode rdev s)) = n_orphans s ∧
     orphan_list (snd (f2fs_mknod valid env dir d mode rdev s))
       = orphan_list s ∧
     cp_rwsem (snd (f2fs_mknod valid env dir d mode rdev s)) = cp_rwsem s).
Proof.
  unfold f2fs_mknod. destruct (valid rdev); cbn [negb]; cbv iota.
  2:{ repeat split; done. }
  split; [done|].
  destruct (f2fs_new_inode (ne_nomem env) dir mode (f2fs_balance_fs s))
    as [[e|ino] s1] eqn:E.
  - apply f2fs_new_inode_inl in E as [He Hs]. cbn [fst snd]. split; [|done].
    intros _. exact Hs.
  - apply f2fs_new_inode_inr in E
      as (rest & i & Hfree & Hnone & Hi & Hd & Hf & Hno & Hmo & Hol & Hcp & Hbs
          & Hmode & Hnl & Hst & _).
    unfold f2fs_add_link, __f2fs_add_link.
    destruct (ne_add_link env =? 0) eqn:Ea; cbv beta iota zeta;
      [change (negb (0 =? 0)) with false|rewrite Ea; cbn [negb]];
      cbv beta iota zeta; cbn [fst snd]; unfold f2fs_balance_fs in *; fields.
    + split; [done|]. intros _. split; [done|].
      link_op_success ino rest dir Hi Hd Hst; repeat split; try done; lia.
    + link_op_failure Hi Ea.
Qed.
(** ** Hard links *)

(** X10: [f2fs_link] answers [EPERM], before it touches anything, when the
    directory is encrypted and the policy of the inode is not consistent
    with it.  When the insertion fails, its error is answered with every
    directory, every link count, the allocator, the orphan registry and the
    ordering lock as before, and with the link-increment flag of the inode
    taken back.  When it answers [0], the entries of all directories are
    those from before and the one that gives the new name to the inode of
    the old dentry; no node id is used up, and the orphan registry and the
    ordering lock are as before. *)
Theorem f2fs_link_all_or_nothing (env : link_env) (old_dentry : dentry)
    (dir : Z) (d : dentry) (s : f2fs_sb_info) :
  (f2fs_encrypted_inode s dir = true → li_context_ok env = false →
   f2fs_link env old_dentry dir d s = (- EPERM, s)) ∧
  (fst (f2fs_link env old_dentry dir d s) ≠ 0 →
   dentries (snd (f2fs_link env old_dentry dir d s)) = dentries s ∧
   (∀ k, i_nlink (inode_of (snd (f2fs_link env old_dentry dir d s)) k)
         = i_nlink (inode_of s k)) ∧
   free_nids (snd (f2fs_link env old_dentry dir d s)) = free_nids s ∧
   n_orphans (snd (f2fs_link env old_dentry dir d s)) = n_orphans s ∧
   orphan_list (snd (f2fs_link env old_dentry dir d s)) = orphan_list s ∧
   cp_rwsem (snd (f2fs_link env old_dentry dir d s)) = cp_rwsem s) ∧
  (f2fs_encrypted_inode s dir = false ∨ li_context_ok env = true →
   fst (f2fs_link env old_dentry dir d s) ≠ 0 →
   is_inode_flag_set (snd (f2fs_link env old_dentry dir d s))
     (d_inode old_dentry) FI_INC_LINK = false) ∧
  (fst (f2fs_link env old_dentry dir d s) = 0 →
   (∀ p n k,
      entry_of (snd (f2fs_link env old_dentry dir d s)) p n k ↔
      entry_of s p n k ∨
      (p = d_parent d ∧ n = d_name d ∧ k = d_inode old_dentry)) ∧
   free_nids (snd (f2fs_link env old_dentry dir d s)) = free_nids s ∧
   n_orphans (snd (f2fs_link env old_dentry dir d s)) = n_orphans s ∧
   orphan_list (snd (f2fs_link env old_dentry dir d s)) = orphan_list s ∧
   cp_rwsem (snd (f2fs_link env old_dentry dir d s)) = cp_rwsem s).
Proof.
  unfold f2fs_link.
  destruct (f2fs_encrypted_inode s dir) eqn:Henc,
           (li_context_ok env) eqn:Hctx; cbn [andb negb]; cbv iota.
  2:{ repeat split; try done. by intros [|]. }
  all: (split; [done|]).
  all: unfold f2fs_add_link, __f2fs_add_link;
    (destruct (li_add_link env =? 0) eqn:Ea; cbv beta iota zeta;
     [change (negb (0 =? 0)) with false|rewrite Ea; cbn [negb]];
     cbv beta iota zeta; cbn [fst snd]).
  all: try (split; [done|]; split; [done|]; intros _;
    destruct (IS_DIRSYNC _ dir);
    unfold d_instantiate, f2fs_unlock_op, f2fs_lock_op, f2fs_sync_fs,
      f2fs_balance_fs, set_inode_flag; fields;
    (split; [apply entry_of_snoc; unfold dir_slots; by fields|]);
    repeat split; try done; lia).
  all: unfold iput, f2fs_unlock_op, f2fs_lock_op, f2fs_balance_fs; fields.
  all: unfold inode_of, is_inode_flag_set, inode_of, clear_inode_flag,
    set_inode_flag; fields.
  all: split; [intros _|];
    [|split; [|intros H; by apply Z.eqb_eq in H; rewrite H in Ea]].
  all: try (intros _ _; rewrite !lookup_alter_eq;
    destruct (inodes s !! d_inode old_dentry) as [i0|]; [|done];
    exact (Z.clearbit_eq (Z.setbit (fi_flags i0) FI_INC_LINK) FI_INC_LINK)).
  all: split; [done|]; split; [|repeat split; try done; lia].
  all: intros k; destruct (decide (d_inode old_dentry = k)) as [<-|];
    [rewrite !lookup_alter_eq; by destruct (inodes s !! _)
    |by rewrite !lookup_alter_ne].
Qed.
(** ** Temporary files and whiteouts *)

Lemma add_orphan_inode_fields ino st :
  inodes (add_orphan_inode ino st) = inodes st ∧
  dentries (add_orphan_inode ino st) = dentries st ∧
  free_nids (add_orphan_inode ino st) = free_nids st ∧
  n_orphans (add_orphan_inode ino st) = n_orphans st ∧
  cp_rwsem (add_orphan_inode ino st) = cp_rwsem st ∧
  ino ∈ orphan_list (add_orphan_inode ino st).
Proof.
  unfold add_orphan_inode. case_bool_decide; fields; repeat split; try done.
  left.
Qed.

(** [__f2fs_tmpfile] on both of its paths. *)
Lemma __f2fs_tmpfile_all_or_nothing env dir od mode w s err wh s' :
  __f2fs_tmpfile env dir od mode w s = (err, wh, s') →
  (err ≠ 0 → wh = 0 ∧ same_but_log s s') ∧
  (err = 0 →
   ∃ ino rest i,
     free_nids s = ino :: rest ∧ inodes s !! ino = None ∧
     free_nids s' = rest ∧ dentries s' = dentries s ∧
     inodes s' !! ino = Some i ∧
     i_mode i = inode_init_owner (i_mode (inode_of s dir)) mode ∧
     (w = true ∨ is_Some od → i_nlink i = 0) ∧
     Z.land (i_state i) I_NEW = 0 ∧
     ino ∈ orphan_list s' ∧ n_orphans s < max_orphans s ∧
     n_orphans s' = n_orphans s + 1 ∧ cp_rwsem s' = cp_rwsem s ∧
     wh = (if w then ino else 0)).
Proof.
  unfold __f2fs_tmpfile.
  set (s0 := if w then s else f2fs_balance_fs s).
  assert (Hs0 : same_but_log s s0 ∧ max_orphans s0 = max_orphans s
                ∧ inode_of s0 dir = inode_of s dir)
    by (subst s0; destruct w; by repeat split).
  destruct Hs0 as ((H1 & H2 & H3 & H4 & H5 & H6) & H7 & H8).
  destruct (f2fs_new_inode (te_nomem env) dir mode s0) as [[e|ino] s1] eqn:E.
  - apply f2fs_new_inode_inl in E as [He Hs]. intros [= <- <- <-].
    split; [|done]. intros _. split; [done|].
    eapply same_but_log_trans; [|exact Hs]. by repeat split.
  - apply f2fs_new_inode_inr in E
      as (rest & i & Hfree & Hnone & Hi & Hd & Hf & Hno & Hmo & Hol & Hcp & Hbs
          & Hmode & Hnl & Hst & _).
    unfold acquire_orphan_inode, f2fs_lock_op. fields.
    rewrite Hmo, Hno, H7, H4.
    destruct (Z.leb_spec (max_orphans s) (n_orphans s)) as [Hfull|Hroom];
      cbv beta iota zeta.
    { change (negb (- ENOSPC =? 0)) with true. cbv iota.
      intros [= <- <- <-]. split; [intros _|done]. split; [done|].
      unfold handle_failed_inode, alloc_nid_failed, f2fs_unlock_op,
        same_but_log; fields.
      rewrite Hi, delete_insert_id by congruence.
      repeat split; try congruence; lia. }
    change (negb (0 =? 0)) with false. cbv iota.
    destruct (te_do_tmpfile env =? 0) eqn:Et; cbn [negb]; cbv iota.
    + match goal with |- context [add_orphan_inode ino ?st] =>
        pose proof (add_orphan_inode_fields ino st)
          as (A1 & A2 & A3 & A4 & A5 & A6);
        generalize dependent (add_orphan_inode ino st) end.
      intros sa A1 A2 A3 A4 A5 A6. fields.
      intros [= <- <- <-]. split; [done|]. intros _. exists ino, rest.
      unfold unlock_new_inode, alloc_nid_done, f2fs_unlock_op, d_tmpfile,
        inode_dec_link_count, drop_nlink.
      destruct w; [|destruct od]; eexists;
        (split; [congruence|]); (split; [congruence|]); fields;
        rewrite ?A1, ?A2, ?A3, ?A4, ?A5, ?Hi, ?alter_insert_eq,
          ?lookup_insert_eq;
        (split; [done|]); (split; [congruence|]); (split; [reflexivity|]);
        cbn [i_mode i_state i_nlink set_i_state set_i_nlink];
        rewrite ?Hst, ?Hnl, ?Hmode, ?H8;
        repeat split; try done; try lia.
      by intros [?|[? ?]].
    + intros [= <- <- <-]. split; [intros _|intros H; by apply Z.eqb_eq in H;
                                     rewrite H in Et].
      split; [done|].
      unfold handle_failed_inode, alloc_nid_failed, release_orphan_inode,
        f2fs_unlock_op, same_but_log; fields.
      rewrite Hi, delete_insert_id by congruence.
      repeat split; try congruence; lia.
Qed.

(** X11: [f2fs_tmpfile] passes on the error of the encryption information
    of an encrypted directory before it touches anything, and is all or
    nothing otherwise.  An error leaves the state as before, the log apart.
    The answer [0] comes with a new inode under the first free node id,
    which has no name in any directory: all directories are as before, its
    link count is zero, it stands in the orphan list on a slot that was
    free, and the ordering lock is as before. *)
Theorem f2fs_tmpfile_all_or_nothing (enc_info : Z) (env : tmpfile_env)
    (dir : Z) (d : dentry) (mode : Z) (s : f2fs_sb_info) :
  (f2fs_encrypted_inode s dir = true → enc_info ≠ 0 →
   f2fs_tmpfile enc_info env dir d mode s = (enc_info, s)) ∧
  (fst (f2fs_tmpfile enc_info env dir d mode s) ≠ 0 →
   same_but_log s (snd (f2fs_tmpfile enc_info env dir d mode s))) ∧
  (fst (f2fs_tmpfile enc_info env dir d mode s) = 0 →
   ∃ ino rest i,
     free_nids s = ino :: rest ∧ inodes s !! ino = None ∧
     free_nids (snd (f2fs_tmpfile enc_info env dir d mode s)) = rest ∧
     dentries (snd (f2fs_tmpfile enc_info env dir d mode s)) = dentries s ∧
     inodes (snd (f2fs_tmpfile enc_info env dir d mode s)) !! ino = Some i ∧
     i_mode i = inode_init_owner (i_mode (inode_of s dir)) mode ∧
     i_nlink i = 0 ∧ Z.land (i_state i) I_NEW = 0 ∧
     ino ∈ orphan_list (snd (f2fs_tmpfile enc_info env dir d mode s)) ∧
     n_orphans s < max_orphans s ∧
     n_orphans (snd (f2fs_tmpfile enc_info env dir d mode s))
       = n_orphans s + 1 ∧
     cp_rwsem (snd (f2fs_tmpfile enc_info env dir d mode s)) = cp_rwsem s).
Proof.
  unfold f2fs_tmpfile.
  destruct (f2fs_encrypted_inode s dir && negb (enc_info =? 0)) eqn:Hgate.
  - apply andb_prop in Hgate as [He Hn]. apply negb_true_iff, Z.eqb_neq in Hn.
    cbn [fst snd]. repeat split; done.
  - split.
    { intros He Hn. rewrite He in Hgate. apply Z.eqb_neq in Hn.
      by rewrite Hn in Hgate. }
    destruct (__f2fs_tmpfile env dir (Some d) mode false s) as [[err wh] s']
      eqn:E.
    apply __f2fs_tmpfile_all_or_nothing in E as [Hfail Hok]. cbn [fst snd].
    split; [intros H; by apply Hfail|].
    intros H. destruct (Hok H)
      as (ino & rest & i & ? & ? & ? & ? & ? & ? & Hnl & ? & ? & ? & ? & ? & _).
    exists ino, rest, i. repeat split; try done. apply Hnl. right. eauto.
Qed.

(** X12: [f2fs_create_whiteout] is all or nothing.  An error leaves the
    state as before, the log apart, and hands out no inode.  The answer [0]
    comes with the whiteout inode under the first free node id: a character
    device with link count zero that stands in the orphan list and has no
    name in any directory; the ordering lock is as before. *)
Theorem f2fs_create_whiteout_all_or_nothing (env : tmpfile_env) (dir : Z)
    (s : f2fs_sb_info) :
  (fst (fst (f2fs_create_whiteout env dir s)) ≠ 0 →
   snd (fst (f2fs_create_whiteout env dir s)) = 0 ∧
   same_but_log s (snd (f2fs_create_whiteout env dir s))) ∧
  (fst (fst (f2fs_create_whiteout env dir s)) = 0 →
   ∃ rest i,
     free_nids s = snd (fst (f2fs_create_whiteout env dir s)) :: rest ∧
     inodes s !! snd (fst (f2fs_create_whiteout env dir s)) = None ∧
     free_nids (snd (f2fs_create_whiteout env dir s)) = rest ∧
     dentries (snd (f2fs_create_whiteout env dir s)) = dentries s ∧
     inodes (snd (f2fs_create_whiteout env dir s))
       !! snd (fst (f2fs_create_whiteout env dir s)) = Some i ∧
     i_mode i = S_IFCHR ∧ i_nlink i = 0 ∧ Z.land (i_state i) I_NEW = 0 ∧
     snd (fst (f2fs_create_whiteout env dir s))
       ∈ orphan_list (snd (f2fs_create_whiteout env dir s)) ∧
     n_orphans (snd (f2fs_create_whiteout env dir s)) = n_orphans s + 1 ∧
     cp_rwsem (snd (f2fs_create_whiteout env dir s)) = cp_rwsem s).
Proof.
  unfold f2fs_create_whiteout.
  destruct (__f2fs_tmpfile env dir None (Z.lor S_IFCHR WHITEOUT_MODE) true s)
    as [[err wh] s'] eqn:E.
  apply __f2fs_tmpfile_all_or_nothing in E as [Hfail Hok]. cbn [fst snd].
  split; [done|].
  intros H. destruct (Hok H)
    as (ino & rest & i & ? & ? & ? & ? & ? & Hm & Hnl & ? & ? & ? & ? & ? & ->).
  exists rest, i. repeat split; try done.
  - rewrite Hm. unfold inode_init_owner.
    change (S_ISDIR (Z.lor S_IFCHR WHITEOUT_MODE)) with false.
    by rewrite andb_false_r.
  - apply Hnl. by left.
Qed.
(** ** What the bootstrap guarantees *)

(** X13: [f2fs_new_inode] fails with [ENOMEM], [ENOSPC] or [EINVAL] and
    then leaves the state as before, the log apart; in particular a node id
    it had taken is back with the allocator.  When it succeeds, the inode
    it answers has the first free node id, which the inode cache did not
    hold, and enters the cache as a new inode with link count one; it is
    marked encrypted exactly when the directory is encrypted and its type
    is regular file, directory or symlink; the directories, the other
    inodes, the orphan registry and the ordering lock are as before. *)
Theorem f2fs_new_inode_spec (nomem : bool) (dir mode : Z) (s : f2fs_sb_info) :
  match f2fs_new_inode nomem dir mode s with
  | (inl e, s') =>
      (e = - ENOMEM ∨ e = - ENOSPC ∨ e = - EINVAL) ∧ same_but_log s s'
  | (inr ino, s') =>
      inodes s !! ino = None ∧
      (∃ rest, free_nids s = ino :: rest ∧ free_nids s' = rest) ∧
      (∀ k, k ≠ ino → inodes s' !! k = inodes s !! k) ∧
      is_Some (inodes s' !! ino) ∧
      i_mode (inode_of s' ino)
        = inode_init_owner (i_mode (inode_of s dir)) mode ∧
      i_nlink (inode_of s' ino) = 1 ∧
      i_state (inode_of s' ino) = I_NEW ∧
      f2fs_encrypted_inode s' ino
        = f2fs_encrypted_inode s dir
          && f2fs_may_encrypt (i_mode (inode_of s' ino)) ∧
      dentries s' = dentries s ∧ n_orphans s' = n_orphans s ∧
      orphan_list s' = orphan_list s ∧ cp_rwsem s' = cp_rwsem s
  end.
Proof.
  destruct (f2fs_new_inode nomem dir mode s) as [[e|ino] s'] eqn:E.
  - split; [|by apply f2fs_new_inode_inl in E as [_ ?]].
    revert E. unfold f2fs_new_inode, alloc_nid.
    steps; intros [= <- _]; auto.
  - apply f2fs_new_inode_inr in E
      as (rest & i & Hfree & Hnone & Hi & Hd & Hf & Hno & Hmo & Hol & Hcp & Hbs
          & Hmode & Hnl & Hst & _ & _ & _ & _ & Hadv & _).
    assert (Hino : inode_of s' ino = i)
      by (unfold inode_of; by rewrite Hi, lookup_insert_eq).
    rewrite Hino. repeat split; try done.
    + eauto.
    + intros k Hk. by rewrite Hi, lookup_insert_ne.
    + rewrite Hi, lookup_insert_eq. eauto.
    + unfold f2fs_encrypted_inode at 1. rewrite Hino, Hadv.
      by destruct (f2fs_encrypted_inode s dir && f2fs_may_encrypt (i_mode i)).
Qed.

(** * Lookup and the parent of a directory *)

Lemma recover_frame f1 f2 dir pino s :
  free_nids (snd (__recover_dot_dentries f1 f2 dir pino s)) = free_nids s ∧
  n_orphans (snd (__recover_dot_dentries f1 f2 dir pino s)) = n_orphans s ∧
  orphan_list (snd (__recover_dot_dentries f1 f2 dir pino s))
    = orphan_list s ∧
  cp_rwsem (snd (__recover_dot_dentries f1 f2 dir pino s)) = cp_rwsem s.
Proof.
  unfold __recover_dot_dentries, f2fs_find_entry, __f2fs_add_link,
    f2fs_lock_op, f2fs_unlock_op, clear_inode_flag.
  steps; cbn [fst snd]; fields; repeat split; try done; lia.
Qed.

Lemma recover_slots_extends f1 f2 dir pino l l' :
  snd (recover_slots f1 f2 dir pino l) = Some l' →
  ∃ extra, l' = l ++ extra ∧
    ∀ e, e ∈ extra → e = Some (DirEntry (cstr ".") dir)
                     ∨ e = Some (DirEntry (cstr "..") pino).
Proof.
  unfold recover_slots. steps; intros [= <-].
  - exists [Some (DirEntry (cstr "..") pino)]. split; [done|].
    intros e ->%list_elem_of_singleton. by right.
  - exists [Some (DirEntry (cstr ".") dir)]. split; [done|].
    intros e ->%list_elem_of_singleton. by left.
  - exists [Some (DirEntry (cstr ".") dir); Some (DirEntry (cstr "..") pino)].
    split; [by rewrite <- app_assoc|].
    intros e [->|[->|[]%elem_of_nil]%elem_of_cons]%elem_of_cons; auto.
  - exists [Some (DirEntry (cstr ".") dir)]. split; [done|].
    intros e ->%list_elem_of_singleton. by left.
Qed.

Lemma recover_entries f1 f2 dir pino s :
  (∀ p n k, entry_of s p n k →
            entry_of (snd (__recover_dot_dentries f1 f2 dir pino s)) p n k) ∧
  (∀ p n k, entry_of (snd (__recover_dot_dentries f1 f2 dir pino s)) p n k →
            entry_of s p n k ∨
            (p = dir ∧ ((n = cstr "." ∧ k = dir) ∨ (n = cstr ".." ∧ k = pino)))).
Proof.
  destruct (recover_effect f1 f2 dir pino s) as (_ & Hd & _).
  assert (Hs : ∀ p, dir_slots (snd (__recover_dot_dentries f1 f2 dir pino s)) p
    = if decide (dir = p)
      then default (dir_slots s dir)
             (snd (recover_slots f1 f2 dir pino (dir_slots s dir)))
      else dir_slots s p).
  { intros p. unfold dir_slots at 1. rewrite Hd.
    destruct (snd (recover_slots _ _ _ _ _)); cbn [apply_slots];
      case_decide; subst; rewrite ?lookup_insert_eq, ?lookup_insert_ne by done;
      done. }
  unfold entry_of. split; intros p n k; rewrite Hs; case_decide; subst; auto;
    destruct (snd (recover_slots f1 f2 p pino (dir_slots s p))) as [l'|] eqn:E;
    cbn [default from_option id]; auto;
    apply recover_slots_extends in E as (extra & -> & Hex);
    rewrite elem_of_app; auto.
  intros [?|Hin]; [by left|right]. split; [done|].
  destruct (Hex _ Hin) as [[= -> ->]|[= -> ->]]; auto.
Qed.
Lemma nlink_recover f1 f2 dir pino s k :
  i_nlink (inode_of (snd (__recover_dot_dentries f1 f2 dir pino s)) k)
  = i_nlink (inode_of s k).
Proof.
  destruct (recover_effect f1 f2 dir pino s) as (_ & _ & Hi).
  unfold inode_of. rewrite Hi. destruct (_ =? 0); [|done].
  rewrite lookup_alter. case_decide; [subst|done].
  by destruct (inodes s !! k).
Qed.

(** X14: what a lookup leaves alone.  [f2fs_lookup] removes no entry from
    any directory and adds none but the dot entries of a directory that
    carries the inline-dots flag; it changes no link count, allocates no
    node id, leaves the orphan registry alone and releases the ordering
    lock as often as it takes it.  This is about the file system; what the
    dcache does to the dentry is not part of it. *)
Theorem f2fs_lookup_frame (env : lookup_env) (dir : Z) (d : dentry)
    (flags : Z) (s : f2fs_sb_info) :
  (∀ p n k, entry_of s p n k →
            entry_of (snd (f2fs_lookup env dir d flags s)) p n k) ∧
  (∀ p n k, entry_of (snd (f2fs_lookup env dir d flags s)) p n k →
            entry_of s p n k ∨
            ((n = cstr "." ∨ n = cstr "..") ∧
             f2fs_has_inline_dots s p = true)) ∧
  (∀ k, i_nlink (inode_of (snd (f2fs_lookup env dir d flags s)) k)
        = i_nlink (inode_of s k)) ∧
  free_nids (snd (f2fs_lookup env dir d flags s)) = free_nids s ∧
  n_orphans (snd (f2fs_lookup env dir d flags s)) = n_orphans s ∧
  orphan_list (snd (f2fs_lookup env dir d flags s)) = orphan_list s ∧
  cp_rwsem (snd (f2fs_lookup env dir d flags s)) = cp_rwsem s.
Proof.
  unfold f2fs_lookup, f2fs_find_entry.
  destruct (_ >? F2FS_NAME_LEN); [cbn [fst snd]; by repeat split; auto|].
  cbv beta iota zeta.
  destruct (find_slot _ _ _) as [slot|]; cbv beta iota zeta;
    [|cbn [fst snd]; repeat split; auto; by destruct (negb _ && _)].
  destruct (negb (le_iget env =? 0));
    [cbn [fst snd]; repeat split; auto; by destruct (negb _ && _)|].
  set (ino := default 0 _).
  destruct (f2fs_has_inline_dots _ ino) eqn:Hdots; cbv beta iota zeta.
  - destruct (recover_entries (le_recover_dot env) (le_recover_dotdot env)
                ino dir (emit (EvFindEntry dir
                   (d_name (if negb (d_op d) && d_parent_op d
                            then d_set_d_op d else d))) s)) as [Hkeep Hnew].
    destruct (recover_frame (le_recover_dot env) (le_recover_dotdot env)
                ino dir (emit (EvFindEntry dir
                   (d_name (if negb (d_op d) && d_parent_op d
                            then d_set_d_op d else d))) s))
      as (F1 & F2 & F3 & F4).
    pose proof (nlink_recover (le_recover_dot env) (le_recover_dotdot env)
                ino dir (emit (EvFindEntry dir
                   (d_name (if negb (d_op d) && d_parent_op d
                            then d_set_d_op d else d))) s)) as Hnl.
    destruct (__recover_dot_dentries _ _ ino dir _) as [err s'].
    cbn [fst snd] in *.
    assert (G : (∀ p n k, entry_of s p n k → entry_of s' p n k) ∧
      (∀ p n k, entry_of s' p n k → entry_of s p n k ∨
         ((n = cstr "." ∨ n = cstr "..") ∧ f2fs_has_inline_dots s p = true)) ∧
      (∀ k, i_nlink (inode_of s' k) = i_nlink (inode_of s k)) ∧
      free_nids s' = free_nids s ∧ n_orphans s' = n_orphans s ∧
      orphan_list s' = orphan_list s ∧ cp_rwsem s' = cp_rwsem s).
    { repeat split; try done.
      intros p n k H. destruct (Hnew p n k H) as [?|(-> & Hn)]; [by left|].
      right. split; [tauto|exact Hdots]. }
    destruct G as (G1 & G2 & G3 & G4 & G5 & G6 & G7).
    destruct (negb (err =? 0)); cbn [fst snd];
      [by repeat split; auto; destruct (negb _ && _)|].
    repeat split; auto; by repeat (destruct (_ && _) || destruct (_ >? 0)).
  - destruct (negb (0 =? 0)) eqn:Hz; [done|]. cbn [fst snd].
    repeat split; auto; by repeat (destruct (_ && _) || destruct (_ >? 0)).
Qed.
Lemma recover_slots_no_fault dir pino l :
  fst (recover_slots 0 0 dir pino l) = 0.
Proof. unfold recover_slots. by steps. Qed.

Lemma land_lor_nocase flags :
  negb (Z.land (Z.lor flags LOOKUP_NOCASE) LOOKUP_NOCASE =? 0) = true.
Proof.
  apply negb_true_iff, Z.eqb_neq. rewrite Z.land_lor_distr_l.
  intros H. by apply Z.lor_eq_0_iff in H as [_ H].
Qed.

(** A lookup that finds a slot answers the inode of that slot, when reading
    the inode does not fail and the recovery of dot entries, should it be
    due, does not either. *)
Lemma f2fs_lookup_found env dir d flags s slot e :
  Z.of_nat (length (d_name d)) ≤ F2FS_NAME_LEN →
  find_slot (d_op d || d_parent_op d || negb (Z.land flags LOOKUP_NOCASE =? 0))
    (d_name d) (dir_slots s dir) = Some slot →
  dir_slots s dir !! slot = Some (Some e) →
  le_iget env = 0 →
  f2fs_has_inline_dots s (de_ino e) = false
  ∨ (le_recover_dot env = 0 ∧ le_recover_dotdot env = 0) →
  fst (fst (f2fs_lookup env dir d flags s)) = inr (de_ino e) ∧
  (d_op d || d_parent_op d = true →
   d_op (snd (fst (f2fs_lookup env dir d flags s))) = true) ∧
  snd (f2fs_lookup env dir d flags s) =
    (if f2fs_has_inline_dots s (de_ino e)
     then snd (__recover_dot_dentries (le_recover_dot env)
                 (le_recover_dotdot env) (de_ino e) dir
                 (emit (EvFindEntry dir (d_name d)) s))
     else emit (EvFindEntry dir (d_name d)) s).
Proof.
  intros Hlen Hfind Hslot Higet Hrec. unfold f2fs_lookup, f2fs_find_entry.
  destruct (Z.gtb_spec (Z.of_nat (length (d_name d))) F2FS_NAME_LEN); [lia|].
  cbv beta iota zeta.
  set (d1 := if negb (d_op d) && d_parent_op d then d_set_d_op d else d).
  assert (Hd1 : d_name d1 = d_name d ∧ d_op d1 = d_op d || d_parent_op d)
    by (subst d1; destruct (d_op d) eqn:E1, (d_parent_op d) eqn:E2;
        cbn; rewrite ?E1; done).
  destruct Hd1 as [Hn1 Ho1]. rewrite Hn1.
  assert (Hflag :
    negb (Z.land (if d_op d1 then Z.lor flags LOOKUP_NOCASE else flags)
            LOOKUP_NOCASE =? 0)
    = d_op d || d_parent_op d || negb (Z.land flags LOOKUP_NOCASE =? 0)).
  { rewrite Ho1. destruct (d_op d || d_parent_op d); [|done].
    by rewrite land_lor_nocase. }
  rewrite Hflag, Hfind. cbv beta iota zeta. rewrite dir_slots_emit, Hslot.
  cbn [mjoin option_join fmap option_fmap option_map default from_option id].
  rewrite Higet. change (negb (0 =? 0)) with false. cbv iota.
  assert (Hres : ∀ (r : Z * f2fs_sb_info), fst r = 0 →
    fst (fst (let '(err, s0) := r in
       if negb (err =? 0) then (inl err, d1, s0)
       else (inr (de_ino e) : Z + Z,
             if S_ISDIR (i_mode (inode_of s0 (de_ino e))) && negb (d_op d1)
             then if le_getxattr env >? 0 then d_set_d_op d1 else d1
             else d1, s0))) = inr (de_ino e) ∧
    (d_op d || d_parent_op d = true →
     d_op (snd (fst (let '(err, s0) := r in
       if negb (err =? 0) then (inl err, d1, s0)
       else (inr (de_ino e) : Z + Z,
             if S_ISDIR (i_mode (inode_of s0 (de_ino e))) && negb (d_op d1)
             then if le_getxattr env >? 0 then d_set_d_op d1 else d1
             else d1, s0)))) = true) ∧
    snd (let '(err, s0) := r in
       if negb (err =? 0) then (inl err, d1, s0)
       else (inr (de_ino e) : Z + Z,
             if S_ISDIR (i_mode (inode_of s0 (de_ino e))) && negb (d_op d1)
             then if le_getxattr env >? 0 then d_set_d_op d1 else d1
             else d1, s0)) = snd r).
  { intros [err s0] H0. cbn [fst] in H0. subst err.
    change (negb (0 =? 0)) with false. cbv iota.
    cbn [fst snd]. split; [done|]. split; [|done]. intros Hop.
    rewrite Hop in Ho1. rewrite Ho1. by rewrite andb_false_r. }
  change (f2fs_has_inline_dots (emit (EvFindEntry dir (d_name d)) s) (de_ino e))
    with (f2fs_has_inline_dots s (de_ino e)).
  destruct (f2fs_has_inline_dots s (de_ino e)) eqn:Hdots.
  - destruct Hrec as [Hno|[E1 E2]]; [done|].
    match goal with |- context [let '(_, _) := ?r in _] =>
      destruct (Hres r) as (R1 & R2 & R3) end.
    { rewrite E1, E2.
      destruct (recover_effect 0 0 (de_ino e) dir
                  (emit (EvFindEntry dir (d_name d)) s)) as (-> & _).
      apply recover_slots_no_fault. }
    by rewrite R3.
  - by destruct (Hres (0, emit (EvFindEntry dir (d_name d)) s) eq_refl)
      as (R1 & R2 & R3).
Qed.
(** What a successful [f2fs_create] does to the slots of the directory and
    to the inode cache. *)
Lemma f2fs_create_effect env dir d mode s :
  fst (f2fs_create env dir d mode s) = 0 →
  ∃ ino rest i,
    free_nids s = ino :: rest ∧ inodes s !! ino = None ∧
    dentries (snd (f2fs_create env dir d mode s))
      = <[d_parent d := dir_slots s (d_parent d)
                        ++ [Some (DirEntry (d_name d) ino)]]> (dentries s) ∧
    inodes (snd (f2fs_create env dir d mode s)) = <[ino := i]> (inodes s) ∧
    Z.testbit (fi_flags i) FI_INLINE_DOTS = false.
Proof.
  unfold f2fs_create.
  destruct (f2fs_new_inode (cr_nomem env) dir mode (f2fs_balance_fs s))
    as [[e|ino] s1] eqn:E.
  - apply f2fs_new_inode_inl in E as [He Hs]. by cbn [fst snd].
  - apply f2fs_new_inode_inr in E
      as (rest & i & Hfree & Hnone & Hi & Hd & Hf & Hno & Hmo & Hol & Hcp & Hbs
          & Hmode & Hnl & Hst & _ & _ & _ & _ & _ & Hfl).
    assert (Hdots : Z.testbit (fi_flags i) FI_INLINE_DOTS = false).
    { rewrite Hfl. cbv zeta. by destruct (_ && _), (_ && _). }
    destruct (create_cold_cases (negb (cr_disable_ext_identify env))
                (cr_raw_super env) ino (d_name d) s1) as [-> | ->];
    unfold f2fs_add_link, __f2fs_add_link;
    (destruct (cr_add_link env =? 0) eqn:Ea; cbv beta iota zeta;
     [change (negb (0 =? 0)) with false|
      rewrite Ea; cbn [negb]]; cbv beta iota zeta; cbn [fst snd]);
    unfold f2fs_balance_fs in *; fields.
    all: try (intros H; by apply Z.eqb_eq in H; rewrite H in Ea).
    all: intros _; exists ino, rest; eexists;
      destruct (IS_DIRSYNC _ dir);
      unfold d_instantiate_new, unlock_new_inode, alloc_nid_done,
        f2fs_unlock_op, f2fs_lock_op, f2fs_sync_fs, file_set_cold; fields;
      rewrite ?Hi, ?alter_insert_eq;
      (split; [done|]); (split; [done|]);
      (split; [unfold dir_slots; fields; by rewrite Hd|]);
      (split; [reflexivity|]); exact Hdots.
Qed.
(** X15: a file that was created is found.  After a successful
    [f2fs_create] of a name that its directory did not hold, a
    case-sensitive lookup of that name in the directory answers the inode
    that was created, which has the node id that was first in the free
    list. *)
Theorem f2fs_create_then_lookup (cenv : create_env) (lenv : lookup_env)
    (dir : Z) (d : dentry) (mode : Z) (d' : dentry) (flags : Z)
    (s : f2fs_sb_info) :
  d_parent d = dir → d_name d' = d_name d →
  d_op d' = false → d_parent_op d' = false →
  Z.land flags LOOKUP_NOCASE = 0 →
  Z.of_nat (length (d_name d)) ≤ F2FS_NAME_LEN →
  ¬ has_entry s dir (d_name d) →
  le_iget lenv = 0 →
  fst (f2fs_create cenv dir d mode s) = 0 →
  ∃ ino rest,
    free_nids s = ino :: rest ∧
    fst (fst (f2fs_lookup lenv dir d' flags
                (snd (f2fs_create cenv dir d mode s)))) = inr ino.
Proof.
  intros Hp Hn Hop Hpop Hfl Hlen Habs Higet Hok.
  destruct (f2fs_create_effect _ _ _ _ _ Hok)
    as (ino & rest & i & Hfree & Hnone & Hd & Hi & Hdots).
  exists ino, rest. split; [done|].
  assert (Hslots : dir_slots (snd (f2fs_create cenv dir d mode s)) dir
                   = dir_slots s dir ++ [Some (DirEntry (d_name d) ino)]).
  { unfold dir_slots at 1. by rewrite Hd, Hp, lookup_insert_eq. }
  eapply (proj1 (f2fs_lookup_found lenv dir d' flags _
                   (length (dir_slots s dir)) (DirEntry (d_name d) ino) _ _ _ _ _)).
  Unshelve.
  - by rewrite Hn.
  - rewrite Hop, Hpop, Hfl, Hn, Hslots. cbn [orb negb]. change (0 =? 0) with true.
    cbn [negb]. rewrite find_slot_snoc, (find_entry_absent _ _ _ Habs).
    cbn [de_match de_name]. by rewrite bool_decide_eq_true_2.
  - rewrite Hslots, lookup_app_r by lia. by rewrite Nat.sub_diag.
  - done.
  - left. unfold f2fs_has_inline_dots, is_inode_flag_set, inode_of.
    cbn [de_ino]. by rewrite Hi, lookup_insert_eq.
Qed.

Lemma f2fs_create_then_lookup_witness :
  ∃ ino rest,
    free_nids ex_sbi = ino :: rest ∧
    fst (fst (f2fs_lookup ex_lookup_env 3 (ex_dentry "song.MP3" 0 3) 0
                (snd (f2fs_create ex_create_env 3 (ex_dentry "song.MP3" 0 3)
                        (Z.lor S_IFREG 0x1A4) ex_sbi)))) = inr ino.
Proof.
  apply (f2fs_create_then_lookup ex_create_env ex_lookup_env 3
           (ex_dentry "song.MP3" 0 3) (Z.lor S_IFREG 0x1A4)
           (ex_dentry "song.MP3" 0 3) 0 ex_sbi); try reflexivity.
  - vm_compute. discriminate.
  - intros H. apply has_entry_find in H. vm_compute in H.
    destruct H as [? H]. discriminate.
Defined.
(** X16: in a directory with case-insensitive lookup a name is found
    whatever the case of its letters.  When the dentry or its parent carries
    the case-insensitive dentry operations and the directory holds an entry
    whose name equals the wanted one up to case, [f2fs_lookup] answers the
    inode of such an entry, and the dentry carries the operations
    afterwards. *)
Theorem f2fs_lookup_nocase (env : lookup_env) (dir : Z) (d : dentry)
    (flags : Z) (s : f2fs_sb_info) (e : f2fs_dir_entry) :
  Z.of_nat (length (d_name d)) ≤ F2FS_NAME_LEN →
  d_op d = true ∨ d_parent_op d = true →
  Some e ∈ dir_slots s dir →
  tolower <$> de_name e = tolower <$> d_name d →
  le_iget env = 0 → le_recover_dot env = 0 → le_recover_dotdot env = 0 →
  ∃ e', Some e' ∈ dir_slots s dir ∧
        tolower <$> de_name e' = tolower <$> d_name d ∧
        fst (fst (f2fs_lookup env dir d flags s)) = inr (de_ino e') ∧
        d_op (snd (fst (f2fs_lookup env dir d flags s))) = true.
Proof.
  intros Hlen Hop Hin Hfold Higet Hr1 Hr2.
  assert (Hnc : d_op d || d_parent_op d = true)
    by (destruct Hop as [-> | ->]; [done|by rewrite orb_true_r]).
  destruct (find_slot_is_Some true (d_name d) _ _ Hin) as [slot Hslot].
  { cbn [de_match]. by apply bool_decide_eq_true_2. }
  destruct (find_slot_Some _ _ _ _ Hslot) as ([e'|] & Hl & Hm); [|done].
  cbn [de_match] in Hm. apply bool_decide_eq_true in Hm.
  exists e'. split; [by eapply list_elem_of_lookup_2|]. split; [done|].
  destruct (f2fs_lookup_found env dir d flags s slot e') as (H1 & H2 & _);
    try done; [by rewrite Hnc|by right|]. split; [done|by apply H2].
Qed.

Lemma f2fs_lookup_nocase_witness :
  ∃ e', Some e' ∈ dir_slots ex_sbi 3 ∧
        tolower <$> de_name e' = tolower <$> cstr "SUB" ∧
        fst (fst (f2fs_lookup ex_lookup_env 3
                    (Dentry (cstr "SUB") 0 3 false true) 0 ex_sbi))
          = inr (de_ino e') ∧
        d_op (snd (fst (f2fs_lookup ex_lookup_env 3
                          (Dentry (cstr "SUB") 0 3 false true) 0 ex_sbi)))
          = true.
Proof.
  apply (f2fs_lookup_nocase ex_lookup_env 3
           (Dentry (cstr "SUB") 0 3 false true) 0 ex_sbi
           (DirEntry (cstr "sub") 6)); try reflexivity.
  - vm_compute. discriminate.
  - by right.
  - apply (list_elem_of_lookup_2 _ 4%nat). reflexivity.
Defined.

Lemma count_name_cons name x l :
  count_name name (x :: l) =
  ((if de_match false name x then 1 else 0) + count_name name l)%nat.
Proof.
  unfold count_name. rewrite filter_cons. case_decide as E.
  - by rewrite E.
  - by destruct (de_match false name x).
Qed.

Lemma count_name_zero name l :
  count_name name l = 0%nat → find_slot false name l = None.
Proof.
  induction l as [|x l IH]; [done|]. rewrite count_name_cons, find_slot_cons.
  destruct (de_match false name x); [lia|]. intros H. by rewrite IH.
Qed.

Lemma count_name_delete name l : ∀ slot,
  find_slot false name l = Some slot →
  S (count_name name (<[slot := None]> l)) = count_name name l.
Proof.
  induction l as [|x l IH]; intros slot; [done|].
  rewrite find_slot_cons. destruct (de_match false name x) eqn:E.
  - intros [= <-]. cbn [insert list_insert]. rewrite !count_name_cons, E.
    done.
  - destruct (find_slot false name l) as [j|] eqn:Ej; [|done].
    intros [= <-]. cbn [insert list_insert]. rewrite !count_name_cons, E.
    cbn. f_equal. by apply IH.
Qed.

(** What a successful [f2fs_unlink] does to the slots of the directory. *)
Lemma f2fs_unlink_effect dir d s :
  fst (f2fs_unlink dir d s) = 0 →
  ∃ slot,
    find_slot false (d_name d) (dir_slots s dir) = Some slot ∧
    dentries (snd (f2fs_unlink dir d s))
      = <[dir := <[slot := None]> (dir_slots s dir)]> (dentries s).
Proof.
  unfold f2fs_unlink, f2fs_find_entry, f2fs_balance_fs.
  change (negb (Z.land 0 LOOKUP_NOCASE =? 0)) with false.
  cbv beta iota zeta. rewrite dir_slots_emit.
  destruct (find_slot false (d_name d) (dir_slots s dir)) as [slot|];
    [|done]. cbv beta iota zeta.
  unfold acquire_orphan_inode, f2fs_lock_op. fields.
  destruct (max_orphans s <=? n_orphans s); cbv beta iota zeta; [done|].
  change (negb (0 =? 0)) with false. cbv iota. intros _. exists slot.
  split; [done|]. unfold f2fs_delete_entry, f2fs_unlock_op.
  by destruct (IS_DIRSYNC _ dir).
Qed.

(** X17: a name that was unlinked is gone.  A successful [f2fs_unlink]
    removes one entry of that name from the directory and nothing else:
    every entry afterwards was there before, and every entry of another
    directory or of another name is still there.  When the name was unique
    in the directory, the directory no longer holds it, and a
    case-sensitive lookup of it (the name being of admissible length) finds
    nothing. *)
Theorem f2fs_unlink_removes_entry (dir : Z) (d : dentry) (s : f2fs_sb_info) :
  fst (f2fs_unlink dir d s) = 0 →
  (∃ k, entry_of s dir (d_name d) k) ∧
  (∀ p n k, entry_of (snd (f2fs_unlink dir d s)) p n k → entry_of s p n k) ∧
  (∀ p n k, entry_of s p n k → p ≠ dir ∨ n ≠ d_name d →
            entry_of (snd (f2fs_unlink dir d s)) p n k) ∧
  (count_name (d_name d) (dir_slots s dir) = 1%nat →
   ¬ has_entry (snd (f2fs_unlink dir d s)) dir (d_name d) ∧
   ∀ env flags,
     Z.of_nat (length (d_name d)) ≤ F2FS_NAME_LEN →
     d_op d = false → d_parent_op d = false →
     Z.land flags LOOKUP_NOCASE = 0 →
     fst (fst (f2fs_lookup env dir d flags (snd (f2fs_unlink dir d s))))
       = inr 0).
Proof.
  intros Hok. destruct (f2fs_unlink_effect _ _ _ Hok) as (slot & Hfind & Hd).
  assert (Hs : ∀ p, dir_slots (snd (f2fs_unlink dir d s)) p
                    = if decide (dir = p) then <[slot := None]> (dir_slots s dir)
                      else dir_slots s p).
  { intros p. unfold dir_slots at 1. rewrite Hd. case_decide; subst;
      by rewrite ?lookup_insert_eq, ?lookup_insert_ne by done. }
  destruct (find_slot_Some _ _ _ _ Hfind) as (e0 & Hl0 & Hm0).
  apply de_match_exact in Hm0 as (de0 & -> & Hn0).
  split; [|split; [|split]].
  - exists (de_ino de0). unfold entry_of. apply (list_elem_of_lookup_2 _ slot).
    rewrite Hl0. by destruct de0; cbn in *; subst.
  - intros p n k. unfold entry_of. rewrite Hs. case_decide; [subst|done].
    intros (j & Hj)%list_elem_of_lookup_1.
    destruct (decide (j = slot)) as [->|Hne].
    + rewrite list_lookup_insert_eq in Hj; [done|by eapply lookup_lt_Some].
    + rewrite list_lookup_insert_ne in Hj by done.
      by eapply list_elem_of_lookup_2.
  - intros p n k. unfold entry_of. rewrite Hs. case_decide; [subst|done].
    intros (j & Hj)%list_elem_of_lookup_1 Hor.
    apply (list_elem_of_lookup_2 _ j). rewrite list_lookup_insert_ne; [done|].
    intros <-. rewrite Hl0 in Hj. injection Hj as ->. cbn in Hor. tauto.
  - intros Hone.
    assert (Hnone : find_slot false (d_name d)
                      (dir_slots (snd (f2fs_unlink dir d s)) dir) = None).
    { apply count_name_zero. rewrite Hs, decide_True by done.
      pose proof (count_name_delete _ _ _ Hfind). lia. }
    split.
    + rewrite has_entry_find, Hnone. by intros [? ?].
    + intros env flags Hlen Hop Hpop Hfl. unfold f2fs_lookup, f2fs_find_entry.
      destruct (Z.gtb_spec (Z.of_nat (length (d_name d))) F2FS_NAME_LEN);
        [lia|].
      cbv beta iota zeta. rewrite Hop, Hpop. cbn [negb andb].
      cbv iota. rewrite Hop, Hfl. change (negb (0 =? 0)) with false.
      by rewrite Hnone.
Qed.
Lemma f2fs_unlink_removes_entry_witness :
  (∃ k, entry_of ex_sbi 3 (cstr "a") k) ∧
  (∀ p n k, entry_of (snd (f2fs_unlink 3 (ex_dentry "a" 4 3) ex_sbi)) p n k →
            entry_of ex_sbi p n k) ∧
  (∀ p n k, entry_of ex_sbi p n k → p ≠ 3 ∨ n ≠ cstr "a" →
            entry_of (snd (f2fs_unlink 3 (ex_dentry "a" 4 3) ex_sbi)) p n k) ∧
  (count_name (cstr "a") (dir_slots ex_sbi 3) = 1%nat →
   ¬ has_entry (snd (f2fs_unlink 3 (ex_dentry "a" 4 3) ex_sbi)) 3 (cstr "a") ∧
   ∀ env flags,
     Z.of_nat (length (cstr "a")) ≤ F2FS_NAME_LEN →
     d_op (ex_dentry "a" 4 3) = false →
     d_parent_op (ex_dentry "a" 4 3) = false →
     Z.land flags LOOKUP_NOCASE = 0 →
     fst (fst (f2fs_lookup env 3 (ex_dentry "a" 4 3) flags
                 (snd (f2fs_unlink 3 (ex_dentry "a" 4 3) ex_sbi))))
       = inr 0).
Proof.
  apply (f2fs_unlink_removes_entry 3 (ex_dentry "a" 4 3) ex_sbi).
  reflexivity.
Defined.

(** ** The parent of a directory *)

(** X18: [f2fs_get_parent] reads and does not write: the state is as
    before, the log apart.  It answers [ENOENT] when the directory has no
    [..] entry; an inode it answers is not [0] and is the one a [..] entry
    of the directory names; and any error it answers is [ENOENT] or the
    error of reading the parent inode. *)
Theorem f2fs_get_parent_spec (iget : Z) (child : dentry) (s : f2fs_sb_info) :
  same_but_log s (snd (f2fs_get_parent iget child s)) ∧
  (¬ has_entry s (d_inode child) (cstr "..") →
   fst (f2fs_get_parent iget child s) = inl (- ENOENT)) ∧
  (∀ p, fst (f2fs_get_parent iget child s) = inr p →
        p ≠ 0 ∧ entry_of s (d_inode child) (cstr "..") p ∧ iget = 0) ∧
  (∀ e, fst (f2fs_get_parent iget child s) = inl e →
        e = - ENOENT ∨ (e = iget ∧ iget ≠ 0)).
Proof.
  unfold f2fs_get_parent, f2fs_inode_by_name, f2fs_find_entry.
  change (negb (Z.land 0 LOOKUP_NOCASE =? 0)) with false.
  cbv beta iota zeta. rewrite dir_slots_emit.
  destruct (find_slot false (cstr "..") (dir_slots s (d_inode child)))
    as [slot|] eqn:Hfind; cbv beta iota zeta.
  - destruct (find_slot_Some _ _ _ _ Hfind) as (e0 & Hl0 & Hm0).
    apply de_match_exact in Hm0 as (de0 & -> & Hn0).
    rewrite Hl0.
    cbn [mjoin option_join fmap option_fmap option_map default from_option id].
    destruct (Z.eqb_spec (de_ino de0) 0) as [Hz|Hz];
      [|destruct (Z.eqb_spec iget 0) as [Hi|Hi]]; cbn [negb fst snd].
    + split; [by repeat split|]. split; [done|]. split; [done|].
      intros e [= <-]. by left.
    + split; [by repeat split|]. split.
      { intros Habs. exfalso. apply Habs. exists de0.
        split; [by eapply list_elem_of_lookup_2|done]. }
      split; [|done]. intros p [= <-]. split; [done|]. split; [|done].
      unfold entry_of. apply (list_elem_of_lookup_2 _ slot). rewrite Hl0.
      by destruct de0; cbn in *; subst.
    + split; [by repeat split|]. split.
      { intros Habs. exfalso. apply Habs. exists de0.
        split; [by eapply list_elem_of_lookup_2|done]. }
      split; [done|]. intros e [= <-]. by right.
  - change (0 =? 0) with true. cbv iota. cbn [fst snd].
    split; [by repeat split|]. split; [done|]. split; [done|].
    intros e [= <-]. by left.
Qed.
(** Recovery without failures on a directory that has no [..] entry leaves
    a [.] entry and, as the only [..] entry, the one for the given parent. *)
Lemma recover_slots_parent dir pino l :
  find_slot false (cstr "..") l = None →
  ∃ l' j,
    snd (recover_slots 0 0 dir pino l) = Some l' ∧
    is_Some (find_slot false (cstr ".") l') ∧
    find_slot false (cstr "..") l' = Some j ∧
    l' !! j = Some (Some (DirEntry (cstr "..") pino)).
Proof.
  intros Hnone. unfold recover_slots. rewrite Hnone.
  destruct (find_slot false (cstr ".") l) as [i|] eqn:Hdot;
    change (0 =? 0) with true; cbv iota.
  - eexists _, _. split; [reflexivity|]. dots_simpl.
    split; [eauto|]. split; [reflexivity|].
    by rewrite lookup_app_r, Nat.sub_diag.
  - cbv zeta. dots_simpl. eexists _, _. split; [reflexivity|]. dots_simpl.
    split; [eauto|]. split; [reflexivity|].
    rewrite lookup_app_r by (rewrite length_app; cbn; lia).
    rewrite length_app. cbn [length].
    by replace (length l + 1 - (length l + 1))%nat with 0%nat by lia.
Qed.

(** X19: a lookup repairs a directory that was stored without dot entries,
    and its parent can be asked for afterwards.  When a case-sensitive
    lookup finds, under a name that is unique in its directory, a directory
    inode that carries the inline-dots flag and has no [..] entry, and no
    insertion fails, then the lookup answers that inode, the flag is clear
    afterwards, the inode has a [.] entry and a [..] entry for the directory
    it was looked up in, and [f2fs_get_parent] answers that directory. *)
Theorem f2fs_lookup_recovers_parent (env : lookup_env) (dir : Z) (d : dentry)
    (flags : Z) (s : f2fs_sb_info) (ino : Z) :
  Z.of_nat (length (d_name d)) ≤ F2FS_NAME_LEN →
  d_op d = false → d_parent_op d = false →
  Z.land flags LOOKUP_NOCASE = 0 →
  entry_of s dir (d_name d) ino →
  (∀ k, entry_of s dir (d_name d) k → k = ino) →
  le_iget env = 0 → le_recover_dot env = 0 → le_recover_dotdot env = 0 →
  f2fs_has_inline_dots s ino = true →
  ¬ has_entry s ino (cstr "..") →
  dir ≠ 0 →
  fst (fst (f2fs_lookup env dir d flags s)) = inr ino ∧
  f2fs_has_inline_dots (snd (f2fs_lookup env dir d flags s)) ino = false ∧
  has_entry (snd (f2fs_lookup env dir d flags s)) ino (cstr ".") ∧
  entry_of (snd (f2fs_lookup env dir d flags s)) ino (cstr "..") dir ∧
  ∀ child, d_inode child = ino →
    fst (f2fs_get_parent 0 child (snd (f2fs_lookup env dir d flags s)))
      = inr dir.
Proof.
  intros Hlen Hop Hpop Hfl Hent Huniq Higet Hr1 Hr2 Hdots Hnodd Hdir.
  assert (Hhas : has_entry s dir (d_name d)) by (eexists; split; [exact Hent|done]).
  destruct (find_entry_present _ _ _ Hhas) as (slot & de & Hfind & Hl & Hn).
  assert (Hde : de_ino de = ino).
  { apply Huniq. unfold entry_of. apply (list_elem_of_lookup_2 _ slot).
    rewrite Hl. by destruct de; cbn in *; subst. }
  destruct (f2fs_lookup_found env dir d flags s slot de) as (R1 & _ & R3);
    try done.
  { rewrite Hop, Hpop, Hfl. exact Hfind. }
  { by right. }
  rewrite Hde in *. rewrite Hdots, Hr1, Hr2 in R3. rewrite R3. clear R3.
  split; [done|].
  destruct (recover_effect 0 0 ino dir (emit (EvFindEntry dir (d_name d)) s))
    as (He & Hd & Hi).
  rewrite recover_slots_no_fault in Hi. change (0 =? 0) with true in Hi.
  cbv iota in Hi. rewrite dir_slots_emit in Hd.
  destruct (recover_slots_parent ino dir (dir_slots s ino))
    as (l' & j & Hl' & Hdot & Hdd & Hj).
  { by apply find_entry_absent. }
  rewrite Hl' in Hd. cbn [apply_slots] in Hd.
  assert (Hslots : dir_slots (snd (__recover_dot_dentries 0 0 ino dir
                      (emit (EvFindEntry dir (d_name d)) s))) ino = l')
    by (unfold dir_slots; by rewrite Hd, lookup_insert_eq).
  split; [by eapply has_inline_dots_cleared|].
  split; [apply has_entry_find; by rewrite Hslots|].
  split.
  { unfold entry_of. rewrite Hslots. by apply (list_elem_of_lookup_2 _ j). }
  intros child Hc.
  unfold f2fs_get_parent, f2fs_inode_by_name, f2fs_find_entry.
  change (negb (Z.land 0 LOOKUP_NOCASE =? 0)) with false.
  cbv beta iota zeta. rewrite Hc, dir_slots_emit, Hslots, Hdd, Hj.
  cbn [mjoin option_join fmap option_fmap option_map default from_option id
       de_ino].
  destruct (Z.eqb_spec dir 0); [done|]. done.
Qed.

Lemma f2fs_lookup_recovers_parent_witness :
  fst (fst (f2fs_lookup ex_lookup_env 3 (ex_dentry "d" 0 3) 0 ex_sbi_dots))
    = inr 8 ∧
  f2fs_has_inline_dots
    (snd (f2fs_lookup ex_lookup_env 3 (ex_dentry "d" 0 3) 0 ex_sbi_dots)) 8
    = false ∧
  has_entry (snd (f2fs_lookup ex_lookup_env 3 (ex_dentry "d" 0 3) 0 ex_sbi_dots))
    8 (cstr ".") ∧
  entry_of (snd (f2fs_lookup ex_lookup_env 3 (ex_dentry "d" 0 3) 0 ex_sbi_dots))
    8 (cstr "..") 3 ∧
  ∀ child, d_inode child = 8 →
    fst (f2fs_get_parent 0 child
           (snd (f2fs_lookup ex_lookup_env 3 (ex_dentry "d" 0 3) 0 ex_sbi_dots)))
      = inr 3.
Proof.
  apply (f2fs_lookup_recovers_parent ex_lookup_env 3 (ex_dentry "d" 0 3) 0
           ex_sbi_dots 8); try reflexivity.
  - vm_compute. discriminate.
  - apply (list_elem_of_lookup_2 _ 2%nat). reflexivity.
  - intros k Hk. unfold entry_of in Hk.
    apply list_elem_of_lookup_1 in Hk as (i & Hi).
    destruct i as [|[|[|i]]]; vm_compute in Hi; congruence.
  - intros H. apply has_entry_find in H. vm_compute in H.
    destruct H as [? H]. discriminate.
  - discriminate.
Defined.

(** * Rename *)

(** The advise byte of an inode that lost the hint of its parent. *)
Lemma f2fs_rename_move_effect env old_dir old_dentry new_dir new_dentry
    flags s :
  Z.land flags RENAME_WHITEOUT = 0 →
  d_inode new_dentry = 0 →
  S_ISDIR (i_mode (inode_of s (d_inode old_dentry))) = false →
  fst (f2fs_rename env old_dir old_dentry new_dir new_dentry flags s) = 0 →
  ∃ slot,
    find_slot false (d_name old_dentry) (dir_slots s old_dir) = Some slot ∧
    dentries (snd (f2fs_rename env old_dir old_dentry new_dir new_dentry
                     flags s))
      = <[old_dir :=
            <[slot := None]>
              (default []
                 (<[d_parent new_dentry :=
                      dir_slots s (d_parent new_dentry)
                      ++ [Some (DirEntry (d_name new_dentry)
                                  (d_inode old_dentry))]]> (dentries s)
                  !! old_dir))]>
          (<[d_parent new_dentry :=
               dir_slots s (d_parent new_dentry)
               ++ [Some (DirEntry (d_name new_dentry) (d_inode old_dentry))]]>
             (dentries s)) ∧
    inodes (snd (f2fs_rename env old_dir old_dentry new_dir new_dentry
                   flags s))
      = alter (λ i, set_i_advise (Z.lor (i_advise i) FADVISE_LOST_PINO_BIT) i)
          (d_inode old_dentry) (inodes s) ∧
    free_nids (snd (f2fs_rename env old_dir old_dentry new_dir new_dentry
                      flags s)) = free_nids s ∧
    n_orphans (snd (f2fs_rename env old_dir old_dentry new_dir new_dentry
                      flags s)) = n_orphans s ∧
    orphan_list (snd (f2fs_rename env old_dir old_dentry new_dir new_dentry
                        flags s)) = orphan_list s ∧
    cp_rwsem (snd (f2fs_rename env old_dir old_dentry new_dir new_dentry
                     flags s)) = cp_rwsem s.
Proof.
  intros Hfl Hni Hdir.
  destruct (f2fs_rename env old_dir old_dentry new_dir new_dentry flags s)
    as [err s'] eqn:E.
  cbn [fst snd]. intros ->. revert E. unfold f2fs_rename. cbv zeta.
  destruct (negb (old_dir =? new_dir) && f2fs_encrypted_inode s new_dir
            && negb (re_context_ok env)); [done|].
  unfold f2fs_find_entry at 1.
  change (negb (Z.land 0 LOOKUP_NOCASE =? 0)) with false.
  change (dir_slots (f2fs_balance_fs s) old_dir) with (dir_slots s old_dir).
  destruct (find_slot false (d_name old_dentry) (dir_slots s old_dir))
    as [old_entry|] eqn:Eold; [|done].
  change (inode_of (emit _ (f2fs_balance_fs s)) (d_inode old_dentry))
    with (inode_of s (d_inode old_dentry)).
  rewrite Hdir, Hfl, Hni. cbn [andb]. cbv iota. change (0 =? 0) with true.
  cbv iota. change (negb true) with false. cbv iota.
  unfold f2fs_rename_target. change (negb (0 =? 0)) with false. cbv iota.
  unfold f2fs_add_link, __f2fs_add_link, rename_out_whiteout.
  destruct (re_add_link env =? 0) eqn:Ea; cbv beta iota zeta.
  2:{ rewrite Ea. cbn [negb]. intros [= H _]. by rewrite H in Ea. }
  change (negb (0 =? 0)) with false. cbv iota.
  change (bool_decide (is_Some (@None nat))) with false. cbv iota.
  unfold f2fs_rename_finish. cbv zeta. change (0 =? 0) with true.
  cbn [negb andb]. cbv iota.
  intros [= <-]. exists old_entry. split; [done|].
  destruct (IS_DIRSYNC _ old_dir || IS_DIRSYNC _ new_dir);
    unfold f2fs_sync_fs, f2fs_unlock_op, f2fs_delete_entry, file_lost_pino,
      f2fs_lock_op, f2fs_balance_fs, dir_slots; fields;
    repeat split; try done; lia.
Qed.
Lemma entry_of_delete sA s' dir slot de0 :
  dentries s' = <[dir := <[slot := None]> (dir_slots sA dir)]> (dentries sA) →
  dir_slots sA dir !! slot = Some (Some de0) →
  (∀ p n k, entry_of s' p n k → entry_of sA p n k) ∧
  (∀ p n k, entry_of sA p n k → p ≠ dir ∨ n ≠ de_name de0 →
            entry_of s' p n k).
Proof.
  intros Hd Hl0.
  assert (Hs : ∀ p, dir_slots s' p
                    = if decide (dir = p) then <[slot := None]> (dir_slots sA dir)
                      else dir_slots sA p).
  { intros p. unfold dir_slots at 1. rewrite Hd. case_decide; subst;
      by rewrite ?lookup_insert_eq, ?lookup_insert_ne by done. }
  split.
  - intros p n k. unfold entry_of. rewrite Hs. case_decide; [subst|done].
    intros (j & Hj)%list_elem_of_lookup_1.
    destruct (decide (j = slot)) as [->|Hne].
    + rewrite list_lookup_insert_eq in Hj; [done|by eapply lookup_lt_Some].
    + rewrite list_lookup_insert_ne in Hj by done.
      by eapply list_elem_of_lookup_2.
  - intros p n k. unfold entry_of. rewrite Hs. case_decide; [subst|done].
    intros (j & Hj)%list_elem_of_lookup_1 Hor.
    apply (list_elem_of_lookup_2 _ j). rewrite list_lookup_insert_ne; [done|].
    intros <-. rewrite Hl0 in Hj. injection Hj as ->. cbn in Hor. tauto.
Qed.

Lemma nlink_lost_pino (m : gmap Z inode) (k ino : Z) :
  i_nlink (default zero_inode
     (alter (λ i, set_i_advise (Z.lor (i_advise i) FADVISE_LOST_PINO_BIT) i)
        ino m !! k))
  = i_nlink (default zero_inode (m !! k)).
Proof.
  rewrite lookup_alter. case_decide; [subst|done]. by destruct (m !! k).
Qed.

(** X20: a plain rename of a file to a name that is free moves the entry.
    When [f2fs_rename] without whiteout, of an inode that is not a
    directory, to a dentry without inode answers [0], the source name had
    an entry; the directory of the new dentry holds the new name for the
    moved inode; no other entry appears; every entry of another directory
    or name than the source is still there; and when the source name was
    unique in its directory and differs from the new one, it is gone.  No
    link count changes, no node id is used, and the orphan registry and the
    ordering lock are as before. *)
Theorem f2fs_rename_moves_entry (env : rename_env) (old_dir : Z)
    (old_dentry : dentry) (new_dir : Z) (new_dentry : dentry) (flags : Z)
    (s : f2fs_sb_info) :
  Z.land flags RENAME_WHITEOUT = 0 →
  d_inode new_dentry = 0 →
  S_ISDIR (i_mode (inode_of s (d_inode old_dentry))) = false →
  fst (f2fs_rename env old_dir old_dentry new_dir new_dentry flags s) = 0 →
  (∃ k, entry_of s old_dir (d_name old_dentry) k) ∧
  entry_of (snd (f2fs_rename env old_dir old_dentry new_dir new_dentry flags s))
    (d_parent new_dentry) (d_name new_dentry) (d_inode old_dentry) ∧
  (∀ p n k,
     entry_of (snd (f2fs_rename env old_dir old_dentry new_dir new_dentry
                      flags s)) p n k →
     entry_of s p n k ∨
     (p = d_parent new_dentry ∧ n = d_name new_dentry
      ∧ k = d_inode old_dentry)) ∧
  (∀ p n k,
     entry_of s p n k → p ≠ old_dir ∨ n ≠ d_name old_dentry →
     entry_of (snd (f2fs_rename env old_dir old_dentry new_dir new_dentry
                      flags s)) p n k) ∧
  (count_name (d_name old_dentry) (dir_slots s old_dir) = 1%nat →
   old_dir ≠ d_parent new_dentry ∨ d_name old_dentry ≠ d_name new_dentry →
   ¬ has_entry (snd (f2fs_rename env old_dir old_dentry new_dir new_dentry
                       flags s)) old_dir (d_name old_dentry)) ∧
  (∀ k, i_nlink (inode_of (snd (f2fs_rename env old_dir old_dentry new_dir
                                  new_dentry flags s)) k)
        = i_nlink (inode_of s k)) ∧
  free_nids (snd (f2fs_rename env old_dir old_dentry new_dir new_dentry
                    flags s)) = free_nids s ∧
  n_orphans (snd (f2fs_rename env old_dir old_dentry new_dir new_dentry
                    flags s)) = n_orphans s ∧
  orphan_list (snd (f2fs_rename env old_dir old_dentry new_dir new_dentry
                      flags s)) = orphan_list s ∧
  cp_rwsem (snd (f2fs_rename env old_dir old_dentry new_dir new_dentry
                   flags s)) = cp_rwsem s.
Proof.
  intros Hfl Hni Hdir Hok.
  destruct (f2fs_rename_move_effect _ _ _ _ _ _ _ Hfl Hni Hdir Hok)
    as (slot & Hfind & Hd & Hi & Hf & Hno & Hol & Hcp).
  set (s' := snd (f2fs_rename env old_dir old_dentry new_dir new_dentry flags s))
    in *. clearbody s'.
  set (np := d_parent new_dentry) in *. clearbody np.
  set (sA := set_dentries
               (<[np := dir_slots s np
                        ++ [Some (DirEntry (d_name new_dentry)
                                    (d_inode old_dentry))]]> (dentries s)) s).
  assert (HA : ∀ p n k, entry_of sA p n k ↔
             entry_of s p n k ∨
             (p = np ∧ n = d_name new_dentry ∧ k = d_inode old_dentry))
    by (by apply entry_of_snoc).
  destruct (find_slot_Some _ _ _ _ Hfind) as (e0 & Hl0 & Hm0).
  apply de_match_exact in Hm0 as (de0 & -> & Hn0).
  assert (HlA : dir_slots sA old_dir !! slot = Some (Some de0)).
  { unfold sA. rewrite dir_slots_set_dentries. case_decide; [subst np|done].
    by rewrite lookup_app_l by (by eapply lookup_lt_Some). }
  assert (Hd' : dentries s'
                = <[old_dir := <[slot := None]> (dir_slots sA old_dir)]>
                    (dentries sA)) by exact Hd.
  clear Hd. rename Hd' into Hd.
  destruct (entry_of_delete sA s' old_dir slot de0 Hd HlA) as [Hsub Hkeep].
  rewrite Hn0 in Hkeep.
  split; [|split; [|split; [|split; [|split; [|split]]]]]; try done.
  - exists (de_ino de0). unfold entry_of. apply (list_elem_of_lookup_2 _ slot).
    rewrite Hl0. by destruct de0; cbn in *; subst.
  - (* the new entry survives the removal of the old one *)
    unfold entry_of, dir_slots at 1. rewrite Hd.
    assert (HnA : dir_slots sA np
                  = dir_slots s np ++ [Some (DirEntry (d_name new_dentry)
                                               (d_inode old_dentry))])
      by (unfold sA; by rewrite dir_slots_set_dentries_eq).
    destruct (decide (old_dir = np)) as [Heq|Hne].
    + rewrite Heq, lookup_insert_eq. cbn [default from_option id].
      apply (list_elem_of_lookup_2 _ (length (dir_slots s np))).
      rewrite list_lookup_insert_ne.
      * rewrite HnA, lookup_app_r by lia. by rewrite Nat.sub_diag.
      * intros Hsl. apply lookup_lt_Some in Hl0. rewrite Heq in Hl0. lia.
    + rewrite lookup_insert_ne by done.
      change (default [] (dentries sA !! np)) with (dir_slots sA np).
      rewrite HnA.
      apply elem_of_app. right. by apply list_elem_of_singleton.
  - intros p n k H. by apply HA, Hsub.
  - intros p n k H Hor. apply Hkeep; [|done]. apply HA. by left.
  - intros Hone Hdiff.
    assert (Hnone : find_slot false (d_name old_dentry) (dir_slots s' old_dir)
                    = None).
    { apply count_name_zero.
      assert (Hs' : dir_slots s' old_dir = <[slot := None]> (dir_slots sA old_dir))
        by (unfold dir_slots at 1; by rewrite Hd, lookup_insert_eq).
      assert (HfA : find_slot false (d_name old_dentry) (dir_slots sA old_dir)
                    = Some slot).
      { unfold sA. rewrite dir_slots_set_dentries. case_decide; [|done].
        subst np. by rewrite find_slot_snoc, Hfind. }
      pose proof (count_name_delete _ _ _ HfA) as Hc. rewrite Hs'.
      assert (HcA : count_name (d_name old_dentry) (dir_slots sA old_dir) = 1%nat).
      { unfold sA. rewrite dir_slots_set_dentries. case_decide; [|done].
        subst np. rewrite count_name_snoc, Hone.
        cbn [de_match de_name]. rewrite bool_decide_eq_false_2; [done|].
        intros Heq. destruct Hdiff; [done|]. congruence. }
      lia. }
    rewrite has_entry_find, Hnone. by intros [? ?].
  - intros k. unfold inode_of. rewrite Hi. apply nlink_lost_pino.
Qed.
Lemma f2fs_rename_moves_entry_witness :
  (∃ k, entry_of ex_sbi 3 (cstr "a") k) ∧
  entry_of (snd (f2fs_rename ex_rename_env 3 (ex_dentry "a" 4 3) 6
                   (ex_dentry "c" 0 6) 0 ex_sbi)) 6 (cstr "c") 4 ∧
  (∀ p n k,
     entry_of (snd (f2fs_rename ex_rename_env 3 (ex_dentry "a" 4 3) 6
                      (ex_dentry "c" 0 6) 0 ex_sbi)) p n k →
     entry_of ex_sbi p n k ∨ (p = 6 ∧ n = cstr "c" ∧ k = 4)) ∧
  (∀ p n k,
     entry_of ex_sbi p n k → p ≠ 3 ∨ n ≠ cstr "a" →
     entry_of (snd (f2fs_rename ex_rename_env 3 (ex_dentry "a" 4 3) 6
                      (ex_dentry "c" 0 6) 0 ex_sbi)) p n k) ∧
  (count_name (cstr "a") (dir_slots ex_sbi 3) = 1%nat →
   3 ≠ 6 ∨ cstr "a" ≠ cstr "c" →
   ¬ has_entry (snd (f2fs_rename ex_rename_env 3 (ex_dentry "a" 4 3) 6
                       (ex_dentry "c" 0 6) 0 ex_sbi)) 3 (cstr "a")) ∧
  (∀ k, i_nlink (inode_of (snd (f2fs_rename ex_rename_env 3 (ex_dentry "a" 4 3)
                                  6 (ex_dentry "c" 0 6) 0 ex_sbi)) k)
        = i_nlink (inode_of ex_sbi k)) ∧
  free_nids (snd (f2fs_rename ex_rename_env 3 (ex_dentry "a" 4 3) 6
                    (ex_dentry "c" 0 6) 0 ex_sbi)) = free_nids ex_sbi ∧
  n_orphans (snd (f2fs_rename ex_rename_env 3 (ex_dentry "a" 4 3) 6
                    (ex_dentry "c" 0 6) 0 ex_sbi)) = n_orphans ex_sbi ∧
  orphan_list (snd (f2fs_rename ex_rename_env 3 (ex_dentry "a" 4 3) 6
                      (ex_dentry "c" 0 6) 0 ex_sbi)) = orphan_list ex_sbi ∧
  cp_rwsem (snd (f2fs_rename ex_rename_env 3 (ex_dentry "a" 4 3) 6
                   (ex_dentry "c" 0 6) 0 ex_sbi)) = cp_rwsem ex_sbi.
Proof.
  apply (f2fs_rename_moves_entry ex_rename_env 3 (ex_dentry "a" 4 3) 6
           (ex_dentry "c" 0 6) 0 ex_sbi); reflexivity.
Defined.

(** The entries of a directory keep their names when one of them is
    repointed. *)
Lemma find_slot_repoint nocase name ino j (l : list (option f2fs_dir_entry)) :
  find_slot nocase name
    (alter (λ e, (λ x, DirEntry (de_name x) ino) <$> e) j l)
  = find_slot nocase name l.
Proof.
  revert j. induction l as [|x l IH]; intros j; [done|].
  destruct j as [|j]; cbn [alter list_alter]; rewrite !find_slot_cons.
  - by destruct x.
  - change (list_alter ?f j l) with (alter f j l). by rewrite IH.
Qed.

(** What a successful [f2fs_rename] of a directory into another directory
    does, when no whiteout is asked for and the new name is free. *)
Lemma f2fs_rename_reparent_effect env old_dir old_dentry new_dir new_dentry
    flags s :
  Z.land flags RENAME_WHITEOUT = 0 →
  d_inode new_dentry = 0 →
  S_ISDIR (i_mode (inode_of s (d_inode old_dentry))) = true →
  old_dir ≠ new_dir →
  fst (f2fs_rename env old_dir old_dentry new_dir new_dentry flags s) = 0 →
  ∃ slot dotdot,
    find_slot false (d_name old_dentry) (dir_slots s old_dir) = Some slot ∧
    find_slot false (cstr "..") (dir_slots s (d_inode old_dentry))
      = Some dotdot ∧
    let dA :=
      <[d_parent new_dentry :=
          dir_slots s (d_parent new_dentry)
          ++ [Some (DirEntry (d_name new_dentry) (d_inode old_dentry))]]>
        (dentries s) in
    let dB := <[old_dir := <[slot := None]> (default [] (dA !! old_dir))]> dA in
    dentries (snd (f2fs_rename env old_dir old_dentry new_dir new_dentry
                     flags s))
      = <[d_inode old_dentry :=
            alter (λ e, (λ x, DirEntry (de_name x) new_dir) <$> e) dotdot
              (default [] (dB !! d_inode old_dentry))]> dB ∧
    inodes (snd (f2fs_rename env old_dir old_dentry new_dir new_dentry
                   flags s))
      = alter (λ i, set_i_nlink (u32 (i_nlink i - 1)) i) old_dir
          (alter
             (λ i, set_i_advise (Z.lor (i_advise i) FADVISE_LOST_PINO_BIT) i)
             (d_inode old_dentry)
             (alter (λ i, set_i_nlink (u32 (i_nlink i + 1)) i) new_dir
                (inodes s))) ∧
    free_nids (snd (f2fs_rename env old_dir old_dentry new_dir new_dentry
                      flags s)) = free_nids s ∧
    n_orphans (snd (f2fs_rename env old_dir old_dentry new_dir new_dentry
                      flags s)) = n_orphans s ∧
    orphan_list (snd (f2fs_rename env old_dir old_dentry new_dir new_dentry
                        flags s)) = orphan_list s ∧
    cp_rwsem (snd (f2fs_rename env old_dir old_dentry new_dir new_dentry
                     flags s)) = cp_rwsem s.
Proof.
  intros Hfl Hni Hdir Hne.
  destruct (f2fs_rename env old_dir old_dentry new_dir new_dentry flags s)
    as [err s'] eqn:E.
  cbn [fst snd]. intros ->. revert E. unfold f2fs_rename. cbv zeta.
  destruct (negb (old_dir =? new_dir) && f2fs_encrypted_inode s new_dir
            && negb (re_context_ok env)); [done|].
  unfold f2fs_find_entry at 1.
  change (negb (Z.land 0 LOOKUP_NOCASE =? 0)) with false.
  change (dir_slots (f2fs_balance_fs s) old_dir) with (dir_slots s old_dir).
  destruct (find_slot false (d_name old_dentry) (dir_slots s old_dir))
    as [old_entry|] eqn:Eold; [|done].
  change (inode_of (emit _ (f2fs_balance_fs s)) (d_inode old_dentry))
    with (inode_of s (d_inode old_dentry)).
  rewrite Hdir, Hfl, Hni. cbn [andb]. cbv iota.
  unfold f2fs_parent_dir, f2fs_find_entry.
  change (negb (Z.land 0 LOOKUP_NOCASE =? 0)) with false.
  rewrite dir_slots_emit.
  change (dir_slots (f2fs_balance_fs s) (d_inode old_dentry))
    with (dir_slots s (d_inode old_dentry)).
  destruct (find_slot false (cstr "..") (dir_slots s (d_inode old_dentry)))
    as [dotdot|] eqn:Edd; [|done].
  change (bool_decide (is_Some (Some dotdot))) with true. cbn [negb]. cbv iota.
  change (0 =? 0) with true. cbv iota. change (negb true) with false. cbv iota.
  unfold f2fs_rename_target. change (negb (0 =? 0)) with false. cbv iota.
  unfold f2fs_add_link, __f2fs_add_link, rename_out_whiteout.
  destruct (re_add_link env =? 0) eqn:Ea; cbv beta iota zeta.
  2:{ rewrite Ea. cbn [negb]. intros [= H _]. by rewrite H in Ea. }
  change (negb (0 =? 0)) with false. cbv iota.
  change (bool_decide (is_Some (Some dotdot))) with true. cbv iota.
  unfold f2fs_rename_finish. cbv zeta. change (0 =? 0) with true.
  cbn [negb andb]. cbv iota.
  destruct (Z.eqb_spec old_dir new_dir); [done|]. cbn [negb andb]. cbv iota.
  intros [= <-]. exists old_entry, dotdot. split; [done|]. split; [done|].
  cbv zeta.
  destruct (IS_DIRSYNC _ old_dir || IS_DIRSYNC _ new_dir);
    unfold f2fs_sync_fs, f2fs_unlock_op, drop_nlink, f2fs_set_link,
      f2fs_delete_entry, file_lost_pino, inc_nlink,
      f2fs_lock_op, f2fs_balance_fs, dir_slots; fields;
    repeat split; try done; lia.
Qed.
(** X21: a directory that is renamed into another directory gets its new
    parent.  When [f2fs_rename] without whiteout moves a directory to a free
    name of another directory and answers [0], the [..] entry of the moved
    directory names the new parent, so that [f2fs_get_parent] answers it;
    the link count of the old parent is one less and that of the new parent
    one more, no other link count changes; and the new parent holds the new
    name for the moved directory. *)
Theorem f2fs_rename_reparents_directory (env : rename_env) (old_dir : Z)
    (old_dentry : dentry) (new_dir : Z) (new_dentry : dentry) (flags : Z)
    (s : f2fs_sb_info) :
  Z.land flags RENAME_WHITEOUT = 0 →
  d_inode new_dentry = 0 →
  S_ISDIR (i_mode (inode_of s (d_inode old_dentry))) = true →
  old_dir ≠ new_dir → new_dir ≠ 0 →
  d_inode old_dentry ≠ old_dir →
  d_inode old_dentry ≠ d_parent new_dentry →
  is_Some (inodes s !! old_dir) → is_Some (inodes s !! new_dir) →
  fst (f2fs_rename env old_dir old_dentry new_dir new_dentry flags s) = 0 →
  entry_of (snd (f2fs_rename env old_dir old_dentry new_dir new_dentry flags s))
    (d_inode old_dentry) (cstr "..") new_dir ∧
  (∀ child, d_inode child = d_inode old_dentry →
     fst (f2fs_get_parent 0 child
            (snd (f2fs_rename env old_dir old_dentry new_dir new_dentry
                    flags s))) = inr new_dir) ∧
  i_nlink (inode_of (snd (f2fs_rename env old_dir old_dentry new_dir
                            new_dentry flags s)) old_dir)
    = u32 (i_nlink (inode_of s old_dir) - 1) ∧
  i_nlink (inode_of (snd (f2fs_rename env old_dir old_dentry new_dir
                            new_dentry flags s)) new_dir)
    = u32 (i_nlink (inode_of s new_dir) + 1) ∧
  (∀ k, k ≠ old_dir → k ≠ new_dir →
        i_nlink (inode_of (snd (f2fs_rename env old_dir old_dentry new_dir
                                  new_dentry flags s)) k)
        = i_nlink (inode_of s k)) ∧
  entry_of (snd (f2fs_rename env old_dir old_dentry new_dir new_dentry flags s))
    (d_parent new_dentry) (d_name new_dentry) (d_inode old_dentry).
Proof.
  intros Hfl Hni Hdir Hne Hnz Hod Hnp [io Hio] [inw Hinw] Hok.
  destruct (f2fs_rename_reparent_effect _ _ _ _ _ _ _ Hfl Hni Hdir Hne Hok)
    as (slot & dotdot & Hfind & Hdd & Hd & Hi & _).
  set (s' := snd (f2fs_rename env old_dir old_dentry new_dir new_dentry flags s))
    in *. clearbody s'. cbv zeta in Hd.
  set (oi := d_inode old_dentry) in *. clearbody oi.
  set (np := d_parent new_dentry) in *. clearbody np.
  set (new := Some (DirEntry (d_name new_dentry) oi)) in *.
  assert (Hslots : dir_slots s' oi
    = alter (λ e, (λ x, DirEntry (de_name x) new_dir) <$> e) dotdot
        (dir_slots s oi)).
  { unfold dir_slots at 1. rewrite Hd, lookup_insert_eq.
    cbn [default from_option id]. by rewrite !lookup_insert_ne by done. }
  destruct (find_slot_Some _ _ _ _ Hdd) as (e0 & Hl0 & Hm0).
  apply de_match_exact in Hm0 as (de0 & -> & Hn0).
  assert (Hent : dir_slots s' oi !! dotdot
                 = Some (Some (DirEntry (cstr "..") new_dir))).
  { by rewrite Hslots, list_lookup_alter_eq, Hl0; cbn; rewrite Hn0. }
  split; [by apply (list_elem_of_lookup_2 _ dotdot)|].
  split.
  { intros child Hc.
    unfold f2fs_get_parent, f2fs_inode_by_name, f2fs_find_entry.
    change (negb (Z.land 0 LOOKUP_NOCASE =? 0)) with false.
    cbv beta iota zeta. rewrite Hc, dir_slots_emit.
    rewrite Hslots at 1. rewrite find_slot_repoint, Hdd, Hent.
    cbn [mjoin option_join fmap option_fmap option_map default from_option id
         de_ino].
    by destruct (Z.eqb_spec new_dir 0). }
  unfold inode_of. rewrite Hi.
  split; [|split; [|split]].
  - rewrite lookup_alter_eq, (lookup_alter_ne _ _ oi old_dir) by done.
    rewrite (lookup_alter_ne _ _ new_dir old_dir) by (by apply not_eq_sym).
    by rewrite Hio.
  - rewrite (lookup_alter_ne _ _ old_dir new_dir) by done.
    destruct (decide (oi = new_dir)) as [->|Hon].
    + by rewrite !lookup_alter_eq, Hinw.
    + rewrite (lookup_alter_ne _ _ oi new_dir) by done.
      by rewrite lookup_alter_eq, Hinw.
  - intros k Hk1 Hk2.
    rewrite (lookup_alter_ne _ _ old_dir k) by (by apply not_eq_sym).
    destruct (decide (oi = k)) as [->|Hok'].
    + rewrite lookup_alter_eq.
      rewrite (lookup_alter_ne _ _ new_dir k) by (by apply not_eq_sym).
      by destruct (inodes s !! k).
    + rewrite (lookup_alter_ne _ _ oi k) by done.
      by rewrite (lookup_alter_ne _ _ new_dir k) by (by apply not_eq_sym).
  - unfold entry_of, dir_slots. rewrite Hd.
    rewrite lookup_insert_ne by done.
    destruct (decide (old_dir = np)) as [<-|Hon].
    + rewrite lookup_insert_eq. cbn [default from_option id].
      rewrite lookup_insert_eq. cbn [default from_option id].
      apply (list_elem_of_lookup_2 _ (length (dir_slots s old_dir))).
      rewrite list_lookup_insert_ne.
      * rewrite lookup_app_r by lia. by rewrite Nat.sub_diag.
      * intros Hsl. destruct (find_slot_Some _ _ _ _ Hfind) as (? & Hls & _).
        apply lookup_lt_Some in Hls. lia.
    + rewrite lookup_insert_ne by done. rewrite lookup_insert_eq.
      cbn [default from_option id]. apply elem_of_app. right.
      by apply list_elem_of_singleton.
Qed.
Lemma f2fs_rename_reparents_directory_witness :
  entry_of (snd (f2fs_rename ex_rename_env 30 (ex_dentry "d" 31 30) 20
                   (ex_dentry "e" 0 20) 0 (ex_sbi_cross 3 1)))
    31 (cstr "..") 20 ∧
  (∀ child, d_inode child = 31 →
     fst (f2fs_get_parent 0 child
            (snd (f2fs_rename ex_rename_env 30 (ex_dentry "d" 31 30) 20
                    (ex_dentry "e" 0 20) 0 (ex_sbi_cross 3 1)))) = inr 20) ∧
  i_nlink (inode_of (snd (f2fs_rename ex_rename_env 30 (ex_dentry "d" 31 30) 20
                            (ex_dentry "e" 0 20) 0 (ex_sbi_cross 3 1))) 30)
    = u32 (i_nlink (inode_of (ex_sbi_cross 3 1) 30) - 1) ∧
  i_nlink (inode_of (snd (f2fs_rename ex_rename_env 30 (ex_dentry "d" 31 30) 20
                            (ex_dentry "e" 0 20) 0 (ex_sbi_cross 3 1))) 20)
    = u32 (i_nlink (inode_of (ex_sbi_cross 3 1) 20) + 1) ∧
  (∀ k, k ≠ 30 → k ≠ 20 →
        i_nlink (inode_of (snd (f2fs_rename ex_rename_env 30
                                  (ex_dentry "d" 31 30) 20 (ex_dentry "e" 0 20)
                                  0 (ex_sbi_cross 3 1))) k)
        = i_nlink (inode_of (ex_sbi_cross 3 1) k)) ∧
  entry_of (snd (f2fs_rename ex_rename_env 30 (ex_dentry "d" 31 30) 20
                   (ex_dentry "e" 0 20) 0 (ex_sbi_cross 3 1)))
    20 (cstr "e") 31.
Proof.
  apply (f2fs_rename_reparents_directory ex_rename_env 30 (ex_dentry "d" 31 30)
           20 (ex_dentry "e" 0 20) 0 (ex_sbi_cross 3 1));
    try reflexivity; try discriminate; by vm_compute; eauto.
Defined.

(** X22: a successful rename onto an existing target, the retargeting of
    the name record apart, replaces the target.  Without whiteout, when
    [update_dent_inode] does not fail and the VFS has seen to it that source
    and target are different names, that the name of the target is unique in
    its directory, that both are directories or neither is, and that nothing
    moves into itself, the answer [0] comes with the target name naming the
    moved inode and nothing else, with the link count of the replaced inode
    dropped by one (by two for a directory), and with the orphan slot kept
    for the replaced inode exactly when its link count reached zero. *)
Theorem f2fs_rename_onto_target (env : rename_env) (old_dir : Z)
    (old_dentry : dentry) (new_dir : Z) (new_dentry : dentry) (flags : Z)
    (s : f2fs_sb_info) (ni : inode) :
  Z.land flags RENAME_WHITEOUT = 0 →
  re_update_dent env = 0 →
  d_inode new_dentry ≠ 0 →
  inodes s !! d_inode new_dentry = Some ni →
  d_inode new_dentry ≠ old_dir →
  d_inode old_dentry ≠ new_dir →
  (old_dir ≠ new_dir ∨ d_name old_dentry ≠ d_name new_dentry) →
  (∀ i j a b,
     dir_slots s new_dir !! i = Some (Some a) →
     dir_slots s new_dir !! j = Some (Some b) →
     de_name a = d_name new_dentry → de_name b = d_name new_dentry → i = j) →
  S_ISDIR (i_mode (inode_of s (d_inode old_dentry))) = S_ISDIR (i_mode ni) →
  fst (f2fs_rename env old_dir old_dentry new_dir new_dentry flags s) = 0 →
  entry_of (snd (f2fs_rename env old_dir old_dentry new_dir new_dentry flags s))
    new_dir (d_name new_dentry) (d_inode old_dentry) ∧
  (∀ k, entry_of (snd (f2fs_rename env old_dir old_dentry new_dir new_dentry
                         flags s)) new_dir (d_name new_dentry) k →
        k = d_inode old_dentry) ∧
  i_nlink (inode_of (snd (f2fs_rename env old_dir old_dentry new_dir
                            new_dentry flags s)) (d_inode new_dentry)) =
    (if S_ISDIR (i_mode ni) then u32 (u32 (i_nlink ni - 1) - 1)
     else u32 (i_nlink ni - 1)) ∧
  (i_nlink (inode_of (snd (f2fs_rename env old_dir old_dentry new_dir
                             new_dentry flags s)) (d_inode new_dentry)) = 0 →
     d_inode new_dentry
       ∈ orphan_list (snd (f2fs_rename env old_dir old_dentry new_dir
                             new_dentry flags s)) ∧
     n_orphans (snd (f2fs_rename env old_dir old_dentry new_dir new_dentry
                       flags s)) = n_orphans s + 1) ∧
  (i_nlink (inode_of (snd (f2fs_rename env old_dir old_dentry new_dir
                             new_dentry flags s)) (d_inode new_dentry)) ≠ 0 →
     orphan_list (snd (f2fs_rename env old_dir old_dentry new_dir new_dentry
                         flags s)) = orphan_list s ∧
     n_orphans (snd (f2fs_rename env old_dir old_dentry new_dir new_dentry
                       flags s)) = n_orphans s).
Proof.
  intros Hfl Hupd Hni Hc Hnod Hond Hdiff Huniq Htype Hok.
  destruct (f2fs_rename_replaces_target env old_dir old_dentry new_dir
              new_dentry flags s ni Hfl Hupd Hni Hc Hnod Hond Hdiff Huniq
              Htype Hok) as ((j & Hj & Hu) & Hnl & Hz & Hnz).
  split; [by apply (list_elem_of_lookup_2 _ j)|]. split; [|done].
  intros k (i & Hi)%list_elem_of_lookup_1.
  pose proof (Hu i _ Hi eq_refl) as ->. rewrite Hj in Hi. by injection Hi.
Qed.

Lemma f2fs_rename_onto_target_witness :
  entry_of (snd (f2fs_rename ex_rename_env 3 (ex_dentry "a" 4 3) 3
                   (ex_dentry "b" 5 3) 0 ex_sbi)) 3 (cstr "b") 4 ∧
  (∀ k, entry_of (snd (f2fs_rename ex_rename_env 3 (ex_dentry "a" 4 3) 3
                         (ex_dentry "b" 5 3) 0 ex_sbi)) 3 (cstr "b") k →
        k = 4) ∧
  i_nlink (inode_of (snd (f2fs_rename ex_rename_env 3 (ex_dentry "a" 4 3) 3
                            (ex_dentry "b" 5 3) 0 ex_sbi)) 5) =
    (if S_ISDIR (i_mode (ex_reg 1)) then u32 (u32 (i_nlink (ex_reg 1) - 1) - 1)
     else u32 (i_nlink (ex_reg 1) - 1)) ∧
  (i_nlink (inode_of (snd (f2fs_rename ex_rename_env 3 (ex_dentry "a" 4 3) 3
                             (ex_dentry "b" 5 3) 0 ex_sbi)) 5) = 0 →
     5 ∈ orphan_list (snd (f2fs_rename ex_rename_env 3 (ex_dentry "a" 4 3) 3
                             (ex_dentry "b" 5 3) 0 ex_sbi)) ∧
     n_orphans (snd (f2fs_rename ex_rename_env 3 (ex_dentry "a" 4 3) 3
                       (ex_dentry "b" 5 3) 0 ex_sbi)) = n_orphans ex_sbi + 1) ∧
  (i_nlink (inode_of (snd (f2fs_rename ex_rename_env 3 (ex_dentry "a" 4 3) 3
                             (ex_dentry "b" 5 3) 0 ex_sbi)) 5) ≠ 0 →
     orphan_list (snd (f2fs_rename ex_rename_env 3 (ex_dentry "a" 4 3) 3
                         (ex_dentry "b" 5 3) 0 ex_sbi)) = orphan_list ex_sbi ∧
     n_orphans (snd (f2fs_rename ex_rename_env 3 (ex_dentry "a" 4 3) 3
                       (ex_dentry "b" 5 3) 0 ex_sbi)) = n_orphans ex_sbi).
Proof.
  apply (f2fs_rename_onto_target ex_rename_env 3 (ex_dentry "a" 4 3) 3
           (ex_dentry "b" 5 3) 0 ex_sbi (ex_reg 1));
    try reflexivity; try discriminate.
  - right. vm_compute. discriminate.
  - intros i j a b Hi Hj Ha Hb.
    destruct i as [|[|[|[|[|i]]]]]; vm_compute in Hi; try discriminate;
      injection Hi as <-; vm_compute in Ha; try discriminate;
    destruct j as [|[|[|[|[|j]]]]]; vm_compute in Hj; try discriminate;
      injection Hj as <-; vm_compute in Hb; try discriminate; reflexivity.
Defined.
Lemma f2fs_rename_flags env old_dir old_dentry new_dir new_dentry f1 f2 s :
  Z.land f1 RENAME_WHITEOUT = Z.land f2 RENAME_WHITEOUT →
  f2fs_rename env old_dir old_dentry new_dir new_dentry f1 s
  = f2fs_rename env old_dir old_dentry new_dir new_dentry f2 s.
Proof. intros H. unfold f2fs_rename. by rewrite H. Qed.

(** X23: the flags of [f2fs_rename2].  A flag outside of
    [RENAME_NOREPLACE], [RENAME_EXCHANGE] and [RENAME_WHITEOUT] is refused
    with [EINVAL] before anything is touched; [RENAME_NOREPLACE] makes no
    difference to what the operation does; and with [RENAME_EXCHANGE] set
    the entries are exchanged, [RENAME_WHITEOUT] being ignored. *)
Theorem f2fs_rename2_flags (link_max : Z) (renv : rename_env)
    (cenv : cross_env) (old_dir : Z) (old_dentry : dentry) (new_dir : Z)
    (new_dentry : dentry) (flags : Z) (s : f2fs_sb_info) :
  (Z.land flags
     (Z.lnot (Z.lor RENAME_NOREPLACE (Z.lor RENAME_EXCHANGE RENAME_WHITEOUT)))
   ≠ 0 →
   f2fs_rename2 link_max renv cenv old_dir old_dentry new_dir new_dentry
     flags s = (- EINVAL, s)) ∧
  f2fs_rename2 link_max renv cenv old_dir old_dentry new_dir new_dentry
    (Z.lor flags RENAME_NOREPLACE) s
  = f2fs_rename2 link_max renv cenv old_dir old_dentry new_dir new_dentry
      flags s ∧
  (Z.land flags RENAME_EXCHANGE ≠ 0 →
   f2fs_rename2 link_max renv cenv old_dir old_dentry new_dir new_dentry
     (Z.lor flags RENAME_WHITEOUT) s
   = f2fs_rename2 link_max renv cenv old_dir old_dentry new_dir new_dentry
       flags s ∧
   (Z.land flags
      (Z.lnot (Z.lor RENAME_NOREPLACE (Z.lor RENAME_EXCHANGE RENAME_WHITEOUT)))
    = 0 →
    f2fs_rename2 link_max renv cenv old_dir old_dentry new_dir new_dentry
      flags s
    = f2fs_cross_rename link_max cenv old_dir old_dentry new_dir new_dentry s)).
Proof.
  unfold f2fs_rename2.
  set (mask := Z.lnot (Z.lor RENAME_NOREPLACE
                         (Z.lor RENAME_EXCHANGE RENAME_WHITEOUT))).
  split; [|split].
  - intros H. by destruct (Z.eqb_spec (Z.land flags mask) 0).
  - rewrite !Z.land_lor_distr_l.
    change (Z.land RENAME_NOREPLACE mask) with 0.
    change (Z.land RENAME_NOREPLACE RENAME_EXCHANGE) with 0.
    rewrite !Z.lor_0_r.
    destruct (negb (Z.land flags mask =? 0)); [done|].
    destruct (negb (Z.land flags RENAME_EXCHANGE =? 0)); [done|].
    apply f2fs_rename_flags. rewrite Z.land_lor_distr_l.
    change (Z.land RENAME_NOREPLACE RENAME_WHITEOUT) with 0.
    by rewrite Z.lor_0_r.
  - intros Hx. split.
    + rewrite !Z.land_lor_distr_l.
      change (Z.land RENAME_WHITEOUT mask) with 0.
      change (Z.land RENAME_WHITEOUT RENAME_EXCHANGE) with 0.
      rewrite !Z.lor_0_r.
      destruct (negb (Z.land flags mask =? 0)); [done|].
      by destruct (Z.eqb_spec (Z.land flags RENAME_EXCHANGE) 0).
    + intros ->. change (negb (0 =? 0)) with false. cbv iota.
      by destruct (Z.eqb_spec (Z.land flags RENAME_EXCHANGE) 0).
Qed.

(** * Cross rename *)

Lemma links_kept_refl s : links_kept s s.
Proof. by repeat split. Qed.

Lemma links_kept_trans s1 s2 s3 :
  links_kept s1 s2 → links_kept s2 s3 → links_kept s1 s3.
Proof.
  intros (A1 & A2 & A3 & A4 & A5) (B1 & B2 & B3 & B4 & B5).
  repeat split; try congruence. all: intros k; by rewrite B2.
Qed.

Lemma links_kept_emit e s : links_kept s (emit e s).
Proof. by repeat split. Qed.

Lemma links_kept_cp v s : links_kept s (set_cp_rwsem v s).
Proof. by repeat split. Qed.

Lemma links_kept_upd f ino s :
  (∀ i, i_nlink (f i) = i_nlink i) → links_kept s (upd_inode f ino s).
Proof.
  intros Hf. repeat split; try done. intros k. by apply nlink_upd_inode.
Qed.

Lemma links_kept_update_dent fault ino to name s :
  links_kept s (snd (update_dent_inode fault ino to name s)) ∧
  cp_rwsem (snd (update_dent_inode fault ino to name s)) = cp_rwsem s.
Proof.
  unfold update_dent_inode. destruct (file_enc_name s to); [by repeat split|].
  destruct (fault =? 0); [|by repeat split]. cbn [snd].
  split; [by apply links_kept_upd|done].
Qed.

Lemma links_kept_enc_name (b : bool) ino s :
  links_kept s (if b then file_set_enc_name ino s else s) ∧
  cp_rwsem (if b then file_set_enc_name ino s else s) = cp_rwsem s.
Proof.
  destruct b; [|by repeat split]. split; [by apply links_kept_upd|done].
Qed.

Lemma links_kept_find dir name flags s :
  links_kept s (snd (f2fs_find_entry dir name flags s)) ∧
  cp_rwsem (snd (f2fs_find_entry dir name flags s)) = cp_rwsem s.
Proof. by repeat split. Qed.

Lemma f2fs_cross_rename_failure_frame link_max env old_dir old_dentry new_dir
    new_dentry s err s' :
  f2fs_cross_rename link_max env old_dir old_dentry new_dir new_dentry s
    = (err, s') →
  err ≠ 0 →
  links_kept s s' ∧ cp_rwsem s' = cp_rwsem s.
Proof.
  unfold f2fs_cross_rename. cbv zeta.
  destruct (_ && _ && _).
  { intros [= <- <-] _. by repeat split. }
  destruct (f2fs_find_entry old_dir _ 0 (f2fs_balance_fs s)) as [oe s1] eqn:E1.
  assert (H1 : links_kept s s1 ∧ cp_rwsem s1 = cp_rwsem s).
  { unfold f2fs_find_entry in E1. injection E1 as _ <-. by repeat split. }
  clear E1. destruct oe as [oe|]; [|by intros [= <- <-] _].
  destruct (f2fs_find_entry new_dir _ 0 s1) as [ne s2] eqn:E2.
  assert (H2 : links_kept s s2 ∧ cp_rwsem s2 = cp_rwsem s).
  { unfold f2fs_find_entry in E2. injection E2 as _ <-.
    destruct H1 as [H1 C1]. split; [|done].
    eapply links_kept_trans; [exact H1|apply links_kept_emit]. }
  clear E2 H1. clear s1. destruct ne as [ne|]; [|by intros [= <- <-] _].
  set (oid := negb (old_dir =? new_dir)
              && S_ISDIR (i_mode (inode_of s2 (d_inode old_dentry)))).
  destruct (if oid then f2fs_parent_dir (d_inode old_dentry) s2 else (None, s2))
    as [ode s3] eqn:E3.
  assert (H3 : links_kept s s3 ∧ cp_rwsem s3 = cp_rwsem s).
  { destruct oid; unfold f2fs_parent_dir, f2fs_find_entry in E3;
      injection E3 as _ <-; [|done].
    destruct H2 as [H2 C2]. split; [|done].
    eapply links_kept_trans; [exact H2|apply links_kept_emit]. }
  clear E3 H2. clearbody oid. clear s2.
  destruct (oid && negb (bool_decide (is_Some ode)));
    [by intros [= <- <-] _|].
  set (nid := negb (old_dir =? new_dir)
              && S_ISDIR (i_mode (inode_of s3 (d_inode new_dentry)))).
  destruct (if nid then f2fs_parent_dir (d_inode new_dentry) s3 else (None, s3))
    as [nde s4] eqn:E4.
  assert (H4 : links_kept s s4 ∧ cp_rwsem s4 = cp_rwsem s).
  { destruct nid; unfold f2fs_parent_dir, f2fs_find_entry in E4;
      injection E4 as _ <-; [|done].
    destruct H3 as [H3 C3]. split; [|done].
    eapply links_kept_trans; [exact H3|apply links_kept_emit]. }
  clear E4 H3. clearbody nid. clear s3.
  destruct (nid && negb (bool_decide (is_Some nde)));
    [by intros [= <- <-] _|].
  destruct (_ && (_ || _)); [by intros [= <- <-] _|].
  destruct H4 as [H4 C4].
  destruct (update_dent_inode (ce_update_dent_old env) _ _ _ (f2fs_lock_op s4))
    as [e1 s5] eqn:E5.
  pose proof (links_kept_update_dent (ce_update_dent_old env)
                (d_inode old_dentry) (d_inode new_dentry) (d_name new_dentry)
                (f2fs_lock_op s4)) as [H5 C5].
  rewrite E5 in H5, C5. cbn [snd] in H5, C5.
  assert (H5' : links_kept s s5 ∧ cp_rwsem s5 = cp_rwsem s + 1).
  { split.
    - eapply links_kept_trans; [exact H4|].
      eapply links_kept_trans; [|exact H5].
      eapply links_kept_trans; [apply links_kept_cp|apply links_kept_emit].
    - rewrite C5. cbn. lia. }
  clear E5 H5 C5 H4 C4. destruct H5' as [H5 C5].
  destruct (negb (e1 =? 0)).
  { intros [= <- <-] _. split.
    - eapply links_kept_trans; [exact H5|].
      eapply links_kept_trans; [apply links_kept_cp|apply links_kept_emit].
    - cbn. lia. }
  match goal with |- context [if ?b then file_set_enc_name ?i s5 else s5] =>
    pose proof (links_kept_enc_name b i s5) as [H6 C6];
    generalize dependent (if b then file_set_enc_name i s5 else s5) end.
  intros s6 H6 C6.
  destruct (update_dent_inode (ce_update_dent_new env) _ _ _ s6)
    as [e2 s7] eqn:E7.
  pose proof (links_kept_update_dent (ce_update_dent_new env)
                (d_inode new_dentry) (d_inode old_dentry) (d_name old_dentry)
                s6) as [H7 C7].
  rewrite E7 in H7, C7. cbn [snd] in H7, C7. clear E7.
  destruct (negb (e2 =? 0)); [|by intros [= <- _]].
  destruct (update_dent_inode (ce_update_dent_undo env) _ _ _ s7)
    as [e3 s8] eqn:E8.
  pose proof (links_kept_update_dent (ce_update_dent_undo env)
                (d_inode old_dentry) (d_inode old_dentry) (d_name old_dentry)
                s7) as [H8 C8].
  rewrite E8 in H8, C8. cbn [snd] in H8, C8. clear E8.
  intros [= <- <-] _. split.
  - eapply links_kept_trans; [exact H5|].
    eapply links_kept_trans; [exact H6|].
    eapply links_kept_trans; [exact H7|].
    eapply links_kept_trans; [exact H8|].
    eapply links_kept_trans; [apply links_kept_cp|apply links_kept_emit].
  - cbn. lia.
Qed.

(** X24: an exchange that fails has exchanged nothing.  When
    [f2fs_cross_rename] answers an error, every directory, every link
    count, the allocator and the orphan registry are as before, and the
    ordering lock is released as often as it was taken. *)
Theorem f2fs_cross_rename_failure_keeps (link_max : Z) (env : cross_env)
    (old_dir : Z) (old_dentry : dentry) (new_dir : Z) (new_dentry : dentry)
    (s : f2fs_sb_info) :
  fst (f2fs_cross_rename link_max env old_dir old_dentry new_dir new_dentry s)
    ≠ 0 →
  links_kept s
    (snd (f2fs_cross_rename link_max env old_dir old_dentry new_dir
            new_dentry s)) ∧
  cp_rwsem (snd (f2fs_cross_rename link_max env old_dir old_dentry new_dir
                   new_dentry s)) = cp_rwsem s.
Proof.
  destruct (f2fs_cross_rename link_max env old_dir old_dentry new_dir
              new_dentry s) as [err s'] eqn:E.
  cbn [fst snd]. intros H. by eapply f2fs_cross_rename_failure_frame.
Qed.

Lemma f2fs_cross_rename_failure_keeps_witness :
  links_kept (ex_sbi_cross 3 1)
    (snd (f2fs_cross_rename 32000 (CrossEnv true true 0 (- ENOMEM) 0) 20
            (ex_dentry "f" 21 20) 30 (ex_dentry "d" 31 30) (ex_sbi_cross 3 1)))
  ∧
  cp_rwsem (snd (f2fs_cross_rename 32000 (CrossEnv true true 0 (- ENOMEM) 0) 20
                   (ex_dentry "f" 21 20) 30 (ex_dentry "d" 31 30)
                   (ex_sbi_cross 3 1))) = cp_rwsem (ex_sbi_cross 3 1).
Proof.
  apply (f2fs_cross_rename_failure_keeps 32000 (CrossEnv true true 0 (- ENOMEM) 0)
           20 (ex_dentry "f" 21 20) 30 (ex_dentry "d" 31 30) (ex_sbi_cross 3 1)).
  vm_compute. discriminate.
Defined.

(** What a successful exchange does to the directories: it repoints the
    [..] entries of the directories that change their parent and then the
    two entries. *)
Lemma f2fs_cross_rename_effect link_max env old_dir old_dentry new_dir
    new_dentry s s' :
  f2fs_cross_rename link_max env old_dir old_dentry new_dir new_dentry s
    = (0, s') →
  ∃ oe ne ode nde,
    find_slot false (d_name old_dentry) (dir_slots s old_dir) = Some oe ∧
    find_slot false (d_name new_dentry) (dir_slots s new_dir) = Some ne ∧
    ode = (if negb (old_dir =? new_dir)
              && S_ISDIR (i_mode (inode_of s (d_inode old_dentry)))
           then find_slot false (cstr "..") (dir_slots s (d_inode old_dentry))
           else None) ∧
    nde = (if negb (old_dir =? new_dir)
              && S_ISDIR (i_mode (inode_of s (d_inode new_dentry)))
           then find_slot false (cstr "..") (dir_slots s (d_inode new_dentry))
           else None) ∧
    (negb (old_dir =? new_dir)
       && S_ISDIR (i_mode (inode_of s (d_inode old_dentry))) = true →
     is_Some ode) ∧
    (negb (old_dir =? new_dir)
       && S_ISDIR (i_mode (inode_of s (d_inode new_dentry))) = true →
     is_Some nde) ∧
    dentries s' =
      dentries
        (f2fs_set_link new_dir ne (d_inode old_dentry)
           (f2fs_set_link old_dir oe (d_inode new_dentry)
              (match nde with
               | Some dd => f2fs_set_link (d_inode new_dentry) dd old_dir
               | None => λ st, st
               end
                 (match ode with
                  | Some dd => f2fs_set_link (d_inode old_dentry) dd new_dir
                  | None => λ st, st
                  end s)))) ∧
    free_nids s' = free_nids s ∧ n_orphans s' = n_orphans s ∧
    orphan_list s' = orphan_list s ∧ cp_rwsem s' = cp_rwsem s.
Proof.
  unfold f2fs_cross_rename. cbv zeta.
  destruct (_ && _ && _); [done|].
  unfold f2fs_find_entry at 1.
  change (negb (Z.land 0 LOOKUP_NOCASE =? 0)) with false.
  change (dir_slots (f2fs_balance_fs s) old_dir) with (dir_slots s old_dir).
  destruct (find_slot false (d_name old_dentry) (dir_slots s old_dir))
    as [oe|] eqn:Eo; [|done].
  unfold f2fs_find_entry at 1.
  change (negb (Z.land 0 LOOKUP_NOCASE =? 0)) with false.
  rewrite dir_slots_emit.
  change (dir_slots (f2fs_balance_fs s) new_dir) with (dir_slots s new_dir).
  destruct (find_slot false (d_name new_dentry) (dir_slots s new_dir))
    as [ne|] eqn:En; [|done].
  match goal with |- context [if ?c then f2fs_parent_dir ?i ?st else (None, ?st)] =>
    set (oid := c); set (s2 := st);
    assert (H2 : same_but_log s s2) by done;
    assert (Hoid : oid = negb (old_dir =? new_dir)
                         && S_ISDIR (i_mode (inode_of s (d_inode old_dentry))))
      by done;
    clearbody oid; clearbody s2 end.
  destruct (if oid then f2fs_parent_dir (d_inode old_dentry) s2 else (None, s2))
    as [ode s3] eqn:E3.
  assert (H3 : same_but_log s s3 ∧
               ode = if oid
                     then find_slot false (cstr "..")
                            (dir_slots s (d_inode old_dentry))
                     else None).
  { destruct oid; unfold f2fs_parent_dir, f2fs_find_entry in E3;
      injection E3 as <- <-; [|done]. split.
    - eapply same_but_log_trans; [exact H2|done].
    - change (negb (Z.land 0 LOOKUP_NOCASE =? 0)) with false.
      by rewrite (same_but_log_dir_slots _ _ _ H2). }
  destruct H3 as [H3 Hode]. rewrite Hoid in Hode.
  clear E3 H2 s2. destruct (oid && _) eqn:Eoid; [done|].
  assert (Hso : negb (old_dir =? new_dir)
                  && S_ISDIR (i_mode (inode_of s (d_inode old_dentry))) = true →
                is_Some ode).
  { rewrite <- Hoid. intros Ht. rewrite Ht in Eoid. cbn in Eoid.
    apply negb_false_iff, bool_decide_eq_true in Eoid. exact Eoid. }
  clear Eoid Hoid oid.
  match goal with |- context [if ?c then f2fs_parent_dir ?i ?st else (None, ?st)] =>
    set (nid := c);
    assert (Hnid : nid = negb (old_dir =? new_dir)
                         && S_ISDIR (i_mode (inode_of s3 (d_inode new_dentry))))
      by done;
    clearbody nid end.
  assert (Hi3 : inode_of s3 (d_inode new_dentry)
                = inode_of s (d_inode new_dentry))
    by (unfold inode_of; by destruct H3 as (-> & _)).
  rewrite Hi3 in Hnid. clear Hi3.
  destruct (if nid then f2fs_parent_dir (d_inode new_dentry) s3 else (None, s3))
    as [nde s4] eqn:E4.
  assert (H4 : same_but_log s s4 ∧
               nde = if nid
                     then find_slot false (cstr "..")
                            (dir_slots s (d_inode new_dentry))
                     else None).
  { destruct nid; unfold f2fs_parent_dir, f2fs_find_entry in E4;
      injection E4 as <- <-; [|done]. split.
    - eapply same_but_log_trans; [exact H3|done].
    - change (negb (Z.land 0 LOOKUP_NOCASE =? 0)) with false.
      by rewrite (same_but_log_dir_slots _ _ _ H3). }
  destruct H4 as [H4 Hnde]. rewrite Hnid in Hnde.
  clear E4 H3 s3. destruct (nid && _) eqn:Enid; [done|].
  assert (Hsn : negb (old_dir =? new_dir)
                  && S_ISDIR (i_mode (inode_of s (d_inode new_dentry))) = true →
                is_Some nde).
  { rewrite <- Hnid. intros Ht. rewrite Ht in Enid. cbn in Enid.
    apply negb_false_iff, bool_decide_eq_true in Enid. exact Enid. }
  clear Enid Hnid nid.
  destruct (_ && (_ || _)); [done|].
  destruct (update_dent_inode (ce_update_dent_old env) _ _ _ (f2fs_lock_op s4))
    as [e1 s5] eqn:E5.
  pose proof (links_kept_update_dent (ce_update_dent_old env)
                (d_inode old_dentry) (d_inode new_dentry) (d_name new_dentry)
                (f2fs_lock_op s4)) as [H5 C5].
  rewrite E5 in H5, C5. cbn [snd] in H5, C5. clear E5.
  destruct (negb (e1 =? 0)) eqn:Ee1.
  { intros [= -> _]. done. }
  match goal with |- context [if ?b then file_set_enc_name ?i s5 else s5] =>
    pose proof (links_kept_enc_name b i s5) as [H6 C6];
    generalize dependent (if b then file_set_enc_name i s5 else s5) end.
  intros s6 H6 C6.
  destruct (update_dent_inode (ce_update_dent_new env) _ _ _ s6)
    as [e2 s7] eqn:E7.
  pose proof (links_kept_update_dent (ce_update_dent_new env)
                (d_inode new_dentry) (d_inode old_dentry) (d_name old_dentry)
                s6) as [H7 C7].
  rewrite E7 in H7, C7. cbn [snd] in H7, C7. clear E7.
  destruct (negb (e2 =? 0)) eqn:Ee2.
  { destruct (update_dent_inode (ce_update_dent_undo env) _ _ _ s7).
    intros [= -> _]. done. }
  match goal with |- context [if ?b then file_set_enc_name ?i s7 else s7] =>
    pose proof (links_kept_enc_name b i s7) as [H8 C8];
    generalize dependent (if b then file_set_enc_name i s7 else s7) end.
  intros s8 H8 C8.
  assert (H : dentries s8 = dentries s ∧ free_nids s8 = free_nids s ∧
              n_orphans s8 = n_orphans s ∧ orphan_list s8 = orphan_list s ∧
              cp_rwsem s8 = cp_rwsem s + 1).
  { destruct H4 as (_ & A1 & A2 & A3 & A4 & A5).
    destruct H5 as (B1 & _ & B2 & B3 & B4).
    destruct H6 as (D1 & _ & D2 & D3 & D4).
    destruct H7 as (F1 & _ & F2 & F3 & F4).
    destruct H8 as (G1 & _ & G2 & G3 & G4).
    cbn in B1, B2, B3, B4, C5.
    repeat split; try congruence. all: lia. }
  clear H4 H5 C5 H6 C6 H7 C7 H8 C8 s4 s5 s6 s7 Ee1 Ee2 e1 e2.
  destruct H as (Hd & Hf & Hn & Ho & Hc).
  intros [= <-]. exists oe, ne, ode, nde. split; [done|]. split; [done|].
  split; [done|]. split; [done|]. split; [done|]. split; [done|].
  clear Hode Hnde Hso Hsn.
  destruct ode as [dd1|], nde as [dd2|];
    repeat match goal with
    | |- context [bool_decide (is_Some (Some ?x))] =>
        change (bool_decide (is_Some (Some x))) with true
    | |- context [bool_decide (is_Some (@None nat))] =>
        change (bool_decide (is_Some (@None nat))) with false
    end;
    cbn [negb orb andb eqb]; cbv iota;
    repeat match goal with
    | |- context [?a =? 0] =>
        let v := eval vm_compute in (a =? 0) in change (a =? 0) with v
    | |- context [?a <? 0] =>
        let v := eval vm_compute in (a <? 0) in change (a <? 0) with v
    end; cbv iota;
    destruct (IS_DIRSYNC _ old_dir || IS_DIRSYNC _ new_dir);
    unfold f2fs_sync_fs, f2fs_unlock_op, inc_nlink, drop_nlink, file_lost_pino,
      f2fs_set_link, dir_slots; fields; rewrite ?Hd;
    repeat split; try done; lia.
Qed.

Lemma dir_slots_set_link d j ino st p :
  dir_slots (f2fs_set_link d j ino st) p =
  if decide (d = p)
  then alter (λ e, (λ x, DirEntry (de_name x) ino) <$> e) j (dir_slots st d)
  else dir_slots st p.
Proof. unfold f2fs_set_link. by rewrite dir_slots_emit, dir_slots_set_dentries. Qed.

Lemma dir_names_set_link d j ino st p :
  dir_names (f2fs_set_link d j ino st) p = dir_names st p.
Proof.
  unfold dir_names. rewrite dir_slots_set_link. case_decide; [subst|done].
  apply list_eq. intros i. rewrite !list_lookup_fmap.
  destruct (decide (i = j)) as [->|].
  - rewrite list_lookup_alter_eq. by destruct (dir_slots st p !! j) as [[?|]|].
  - by rewrite list_lookup_alter_ne.
Qed.

Lemma dir_names_opt_set_link d (o : option nat) ino st p :
  dir_names (match o with
             | Some dd => f2fs_set_link d dd ino
             | None => λ st, st
             end st) p = dir_names st p.
Proof. destruct o; [apply dir_names_set_link|done]. Qed.

Lemma dir_names_found st dir name slot :
  find_slot false name (dir_slots st dir) = Some slot →
  dir_names st dir !! slot = Some (Some name).
Proof.
  intros H. destruct (find_slot_Some _ _ _ _ H) as (e & Hl & Hm).
  apply de_match_exact in Hm as (de & -> & <-).
  unfold dir_names. by rewrite list_lookup_fmap, Hl.
Qed.

Lemma dir_names_slot st dir slot name :
  dir_names st dir !! slot = Some (Some name) →
  ∃ e, dir_slots st dir !! slot = Some (Some e) ∧ de_name e = name.
Proof.
  unfold dir_names. rewrite list_lookup_fmap.
  destruct (dir_slots st dir !! slot) as [[e|]|]; intros [= <-]. eauto.
Qed.

(** X25: an exchange that succeeds exchanges the two entries and nothing
    else.  When [f2fs_cross_rename] answers [0], both names had an entry;
    afterwards the old name names the inode of the new dentry and the new
    name names the inode of the old dentry (the two being different names);
    every slot of every directory carries the name it carried before; no
    node id is used, and the orphan registry and the ordering lock are as
    before. *)
Theorem f2fs_cross_rename_exchanges (link_max : Z) (env : cross_env)
    (old_dir : Z) (old_dentry : dentry) (new_dir : Z) (new_dentry : dentry)
    (s : f2fs_sb_info) :
  fst (f2fs_cross_rename link_max env old_dir old_dentry new_dir new_dentry s)
    = 0 →
  (∃ k, entry_of s old_dir (d_name old_dentry) k) ∧
  (∃ k, entry_of s new_dir (d_name new_dentry) k) ∧
  (old_dir ≠ new_dir ∨ d_name old_dentry ≠ d_name new_dentry →
   entry_of (snd (f2fs_cross_rename link_max env old_dir old_dentry new_dir
                    new_dentry s))
     old_dir (d_name old_dentry) (d_inode new_dentry)) ∧
  entry_of (snd (f2fs_cross_rename link_max env old_dir old_dentry new_dir
                   new_dentry s))
    new_dir (d_name new_dentry) (d_inode old_dentry) ∧
  (∀ p, dir_names (snd (f2fs_cross_rename link_max env old_dir old_dentry
                          new_dir new_dentry s)) p = dir_names s p) ∧
  free_nids (snd (f2fs_cross_rename link_max env old_dir old_dentry new_dir
                    new_dentry s)) = free_nids s ∧
  n_orphans (snd (f2fs_cross_rename link_max env old_dir old_dentry new_dir
                    new_dentry s)) = n_orphans s ∧
  orphan_list (snd (f2fs_cross_rename link_max env old_dir old_dentry new_dir
                      new_dentry s)) = orphan_list s ∧
  cp_rwsem (snd (f2fs_cross_rename link_max env old_dir old_dentry new_dir
                   new_dentry s)) = cp_rwsem s.
Proof.
  destruct (f2fs_cross_rename link_max env old_dir old_dentry new_dir
              new_dentry s) as [err s'] eqn:E.
  cbn [fst snd]. intros ->.
  apply f2fs_cross_rename_effect in E
    as (oe & ne & ode & nde & Eo & En & _ & _ & _ & _ & Hd & Hf & Hn & Ho & Hc).
  set (s2 := match nde with
             | Some dd => f2fs_set_link (d_inode new_dentry) dd old_dir
             | None => λ st, st
             end
               (match ode with
                | Some dd => f2fs_set_link (d_inode old_dentry) dd new_dir
                | None => λ st, st
                end s)) in *.
  assert (N2 : ∀ p, dir_names s2 p = dir_names s p)
    by (intros p; unfold s2; by rewrite !dir_names_opt_set_link).
  clearbody s2.
  set (s3 := f2fs_set_link old_dir oe (d_inode new_dentry) s2) in *.
  set (s4 := f2fs_set_link new_dir ne (d_inode old_dentry) s3) in *.
  assert (Hs : ∀ p, dir_slots s' p = dir_slots s4 p)
    by (intros p; unfold dir_slots; by rewrite Hd).
  assert (N3 : ∀ p, dir_names s3 p = dir_names s p)
    by (intros p; unfold s3; by rewrite dir_names_set_link).
  pose proof (dir_names_found _ _ _ _ Eo) as No.
  pose proof (dir_names_found _ _ _ _ En) as Nn.
  split; [|split; [|split; [|split; [|split]]]]; try done.
  - destruct (find_slot_Some _ _ _ _ Eo) as (e & Hl & Hm).
    apply de_match_exact in Hm as (de & -> & <-). exists (de_ino de).
    apply (list_elem_of_lookup_2 _ oe). rewrite Hl. by destruct de.
  - destruct (find_slot_Some _ _ _ _ En) as (e & Hl & Hm).
    apply de_match_exact in Hm as (de & -> & <-). exists (de_ino de).
    apply (list_elem_of_lookup_2 _ ne). rewrite Hl. by destruct de.
  - intros Hdiff. unfold entry_of. rewrite Hs.
    apply (list_elem_of_lookup_2 _ oe).
    rewrite <- N2 in No. apply dir_names_slot in No as (e & Hl & Hname).
    assert (H3 : dir_slots s3 old_dir !! oe
                 = Some (Some (DirEntry (d_name old_dentry) (d_inode new_dentry)))).
    { unfold s3. rewrite dir_slots_set_link, decide_True by done.
      rewrite list_lookup_alter_eq, Hl. cbn. by rewrite Hname. }
    unfold s4. rewrite dir_slots_set_link. case_decide as Hnd; [|done].
    subst new_dir. rewrite list_lookup_alter_ne; [done|].
    intros <-.
    destruct Hdiff as [?|Hdiff]; [done|]. apply Hdiff.
    pose proof (dir_names_found _ _ _ _ Eo) as A.
    rewrite A in Nn. by injection Nn.
  - unfold entry_of. rewrite Hs. apply (list_elem_of_lookup_2 _ ne).
    rewrite <- N3 in Nn. apply dir_names_slot in Nn as (e & Hl & Hname).
    unfold s4. rewrite dir_slots_set_link, decide_True by done.
    rewrite list_lookup_alter_eq, Hl. cbn. by rewrite Hname.
  - intros p. unfold dir_names at 1. rewrite Hs.
    fold (dir_names s4 p). unfold s4. by rewrite dir_names_set_link.
Qed.

Lemma f2fs_cross_rename_exchanges_witness :
  (∃ k, entry_of (ex_sbi_cross 3 1) 20 (cstr "f") k) ∧
  (∃ k, entry_of (ex_sbi_cross 3 1) 30 (cstr "d") k) ∧
  (20 ≠ 30 ∨ cstr "f" ≠ cstr "d" →
   entry_of (snd (f2fs_cross_rename 32000 ex_cross_env 20 (ex_dentry "f" 21 20)
                    30 (ex_dentry "d" 31 30) (ex_sbi_cross 3 1)))
     20 (cstr "f") 31) ∧
  entry_of (snd (f2fs_cross_rename 32000 ex_cross_env 20 (ex_dentry "f" 21 20)
                   30 (ex_dentry "d" 31 30) (ex_sbi_cross 3 1)))
    30 (cstr "d") 21 ∧
  (∀ p, dir_names (snd (f2fs_cross_rename 32000 ex_cross_env 20
                          (ex_dentry "f" 21 20) 30 (ex_dentry "d" 31 30)
                          (ex_sbi_cross 3 1))) p
        = dir_names (ex_sbi_cross 3 1) p) ∧
  free_nids (snd (f2fs_cross_rename 32000 ex_cross_env 20 (ex_dentry "f" 21 20)
                    30 (ex_dentry "d" 31 30) (ex_sbi_cross 3 1)))
    = free_nids (ex_sbi_cross 3 1) ∧
  n_orphans (snd (f2fs_cross_rename 32000 ex_cross_env 20 (ex_dentry "f" 21 20)
                    30 (ex_dentry "d" 31 30) (ex_sbi_cross 3 1)))
    = n_orphans (ex_sbi_cross 3 1) ∧
  orphan_list (snd (f2fs_cross_rename 32000 ex_cross_env 20
                      (ex_dentry "f" 21 20) 30 (ex_dentry "d" 31 30)
                      (ex_sbi_cross 3 1)))
    = orphan_list (ex_sbi_cross 3 1) ∧
  cp_rwsem (snd (f2fs_cross_rename 32000 ex_cross_env 20 (ex_dentry "f" 21 20)
                   30 (ex_dentry "d" 31 30) (ex_sbi_cross 3 1)))
    = cp_rwsem (ex_sbi_cross 3 1).
Proof.
  apply (f2fs_cross_rename_exchanges 32000 ex_cross_env 20 (ex_dentry "f" 21 20)
           30 (ex_dentry "d" 31 30) (ex_sbi_cross 3 1)).
  vm_compute. reflexivity.
Defined.

(** [f2fs_get_parent] answers what the [..] entry holds. *)
Lemma f2fs_get_parent_of_slot (s : f2fs_sb_info) (ino parent : Z) (dd : nat) :
  find_slot false (cstr "..") (dir_slots s ino) = Some dd →
  dir_slots s ino !! dd = Some (Some (DirEntry (cstr "..") parent)) →
  parent ≠ 0 →
  ∀ child, d_inode child = ino →
    fst (f2fs_get_parent 0 child s) = inr parent.
Proof.
  intros Hf Hl Hnz child Hc.
  unfold f2fs_get_parent, f2fs_inode_by_name, f2fs_find_entry.
  change (negb (Z.land 0 LOOKUP_NOCASE =? 0)) with false.
  cbv beta iota zeta. rewrite Hc, dir_slots_emit, Hf, Hl.
  cbn [mjoin option_join fmap option_fmap option_map default from_option id
       de_ino].
  by destruct (Z.eqb_spec parent 0).
Qed.

(** X26: directories that are exchanged across directories get their new
    parents.  When [f2fs_cross_rename] exchanges two different inodes of
    two different directories and answers [0], then the [..] entry of each
    of the two that is a directory names the directory it has moved to, and
    [f2fs_get_parent] answers that directory. *)
Theorem f2fs_cross_rename_reparents (link_max : Z) (env : cross_env)
    (old_dir : Z) (old_dentry : dentry) (new_dir : Z) (new_dentry : dentry)
    (s : f2fs_sb_info) :
  old_dir ≠ new_dir → old_dir ≠ 0 → new_dir ≠ 0 →
  d_inode old_dentry ≠ d_inode new_dentry →
  d_inode old_dentry ≠ old_dir → d_inode old_dentry ≠ new_dir →
  d_inode new_dentry ≠ old_dir → d_inode new_dentry ≠ new_dir →
  fst (f2fs_cross_rename link_max env old_dir old_dentry new_dir new_dentry s)
    = 0 →
  (S_ISDIR (i_mode (inode_of s (d_inode old_dentry))) = true →
   entry_of (snd (f2fs_cross_rename link_max env old_dir old_dentry new_dir
                    new_dentry s))
     (d_inode old_dentry) (cstr "..") new_dir ∧
   ∀ child, d_inode child = d_inode old_dentry →
     fst (f2fs_get_parent 0 child
            (snd (f2fs_cross_rename link_max env old_dir old_dentry new_dir
                    new_dentry s))) = inr new_dir) ∧
  (S_ISDIR (i_mode (inode_of s (d_inode new_dentry))) = true →
   entry_of (snd (f2fs_cross_rename link_max env old_dir old_dentry new_dir
                    new_dentry s))
     (d_inode new_dentry) (cstr "..") old_dir ∧
   ∀ child, d_inode child = d_inode new_dentry →
     fst (f2fs_get_parent 0 child
            (snd (f2fs_cross_rename link_max env old_dir old_dentry new_dir
                    new_dentry s))) = inr old_dir).
Proof.
  intros Hne Hoz Hnz Hon Hoo Hon' Hno Hnn.
  destruct (f2fs_cross_rename link_max env old_dir old_dentry new_dir
              new_dentry s) as [err s'] eqn:E.
  cbn [fst snd]. intros ->.
  apply f2fs_cross_rename_effect in E
    as (oe & ne & ode & nde & _ & _ & Hode & Hnde & Hso & Hsn & Hd & _).
  set (oi := d_inode old_dentry) in *. set (ni := d_inode new_dentry) in *.
  clearbody oi ni.
  assert (Hb : negb (old_dir =? new_dir) = true)
    by (by destruct (Z.eqb_spec old_dir new_dir)).
  rewrite Hb in Hode, Hnde, Hso, Hsn. cbn [andb] in Hode, Hnde, Hso, Hsn.
  assert (Hs : ∀ p, dir_slots s' p =
    dir_slots
      (f2fs_set_link new_dir ne oi
         (f2fs_set_link old_dir oe ni
            (match nde with
             | Some dd => f2fs_set_link ni dd old_dir
             | None => λ st, st
             end
               (match ode with
                | Some dd => f2fs_set_link oi dd new_dir
                | None => λ st, st
                end s)))) p)
    by (intros p; unfold dir_slots; by rewrite Hd).
  split; intros Hdir.
  - rewrite Hdir in Hode. destruct (Hso Hdir) as [dd ->]. symmetry in Hode.
    destruct (find_slot_Some _ _ _ _ Hode) as (e0 & Hl0 & Hm0).
    apply de_match_exact in Hm0 as (de0 & -> & Hn0).
    assert (Hsl : dir_slots s' oi
                  = alter (λ e, (λ x, DirEntry (de_name x) new_dir) <$> e) dd
                      (dir_slots s oi)).
    { rewrite Hs.
      rewrite dir_slots_set_link, (decide_False (P := new_dir = oi))
        by (by apply not_eq_sym).
      rewrite dir_slots_set_link, (decide_False (P := old_dir = oi))
        by (by apply not_eq_sym).
      destruct nde as [dd2|]; cbv beta iota.
      - rewrite dir_slots_set_link.
        rewrite (decide_False (P := ni = oi)) by (by apply not_eq_sym).
        by rewrite dir_slots_set_link, decide_True.
      - by rewrite dir_slots_set_link, decide_True. }
    assert (Hent : dir_slots s' oi !! dd
                   = Some (Some (DirEntry (cstr "..") new_dir)))
      by (by rewrite Hsl, list_lookup_alter_eq, Hl0; cbn; rewrite Hn0).
    split; [by apply (list_elem_of_lookup_2 _ dd)|].
    apply (f2fs_get_parent_of_slot _ _ _ dd); [|done|done].
    by rewrite Hsl, find_slot_repoint.
  - rewrite Hdir in Hnde. destruct (Hsn Hdir) as [dd ->]. symmetry in Hnde.
    destruct (find_slot_Some _ _ _ _ Hnde) as (e0 & Hl0 & Hm0).
    apply de_match_exact in Hm0 as (de0 & -> & Hn0).
    assert (Hsl : dir_slots s' ni
                  = alter (λ e, (λ x, DirEntry (de_name x) old_dir) <$> e) dd
                      (dir_slots s ni)).
    { rewrite Hs.
      rewrite dir_slots_set_link, (decide_False (P := new_dir = ni))
        by (by apply not_eq_sym).
      rewrite dir_slots_set_link, (decide_False (P := old_dir = ni))
        by (by apply not_eq_sym).
      cbv beta iota. rewrite dir_slots_set_link, decide_True by done.
      destruct ode as [dd1|]; cbv beta iota; [|done].
      by rewrite dir_slots_set_link, decide_False. }
    assert (Hent : dir_slots s' ni !! dd
                   = Some (Some (DirEntry (cstr "..") old_dir)))
      by (by rewrite Hsl, list_lookup_alter_eq, Hl0; cbn; rewrite Hn0).
    split; [by apply (list_elem_of_lookup_2 _ dd)|].
    apply (f2fs_get_parent_of_slot _ _ _ dd); [|done|done].
    by rewrite Hsl, find_slot_repoint.
Qed.

Lemma f2fs_cross_rename_reparents_witness :
  (S_ISDIR (i_mode (inode_of (ex_sbi_cross 3 1) 21)) = true →
   entry_of (snd (f2fs_cross_rename 32000 ex_cross_env 20 (ex_dentry "f" 21 20)
                    30 (ex_dentry "d" 31 30) (ex_sbi_cross 3 1)))
     21 (cstr "..") 30 ∧
   ∀ child, d_inode child = 21 →
     fst (f2fs_get_parent 0 child
            (snd (f2fs_cross_rename 32000 ex_cross_env 20 (ex_dentry "f" 21 20)
                    30 (ex_dentry "d" 31 30) (ex_sbi_cross 3 1)))) = inr 30) ∧
  (S_ISDIR (i_mode (inode_of (ex_sbi_cross 3 1) 31)) = true →
   entry_of (snd (f2fs_cross_rename 32000 ex_cross_env 20 (ex_dentry "f" 21 20)
                    30 (ex_dentry "d" 31 30) (ex_sbi_cross 3 1)))
     31 (cstr "..") 20 ∧
   ∀ child, d_inode child = 31 →
     fst (f2fs_get_parent 0 child
            (snd (f2fs_cross_rename 32000 ex_cross_env 20 (ex_dentry "f" 21 20)
                    30 (ex_dentry "d" 31 30) (ex_sbi_cross 3 1)))) = inr 20).
Proof.
  apply (f2fs_cross_rename_reparents 32000 ex_cross_env 20 (ex_dentry "f" 21 20)
           30 (ex_dentry "d" 31 30) (ex_sbi_cross 3 1));
    try (cbn; lia).
  vm_compute. reflexivity.
Defined.

(** * Symbolic links, once more *)

Lemma c_string_cons (c : Z) (l : list Z) :
  c_string (c :: l) = if c =? 0 then [] else c :: c_string l.
Proof. unfold c_string. cbn [strlen]. by destruct (c =? 0). Qed.

Lemma c_string_insert_nul (l : list Z) : ∀ n : nat,
  (n < length l)%nat → c_string (<[n := 0]> l) = c_string (take n l).
Proof.
  induction l as [|c l IH]; intros n Hn; [cbn in Hn; lia|].
  destruct n as [|n]; [done|]. cbn [insert list_insert take].
  change (list_insert n 0 l) with (<[n := 0]> l).
  rewrite !c_string_cons. cbn [length] in Hn. by rewrite IH by lia.
Qed.

Lemma c_string_app_zeros (l : list Z) (m : nat) :
  c_string (l ++ replicate m 0) = c_string l.
Proof.
  induction l as [|c l IH]; [by destruct m|].
  cbn [app]. by rewrite !c_string_cons, IH.
Qed.

Lemma c_string_nil_iff (l : list Z) : char_at l 0 = 0 ↔ c_string l = [].
Proof.
  destruct l as [|c l]; [done|]. rewrite c_string_cons.
  change (char_at (c :: l) 0) with c.
  by destruct (Z.eqb_spec c 0).
Qed.

(** X27: [f2fs_follow_link] passes on the error of
    [page_follow_link_light]; otherwise the link it answers is the C string
    that the first [min(i_size, PAGE_SIZE - 1)] bytes of the data of the
    inode hold, and when that string is empty the answer is [-ENOENT]
    instead. *)
Theorem f2fs_follow_link_spec (fault : Z) (ino : Z) (s : f2fs_sb_info) :
  (fault ≠ 0 → f2fs_follow_link fault ino s = FollowErr fault) ∧
  (fault = 0 →
   (c_string (take (Z.to_nat (Z.min (i_size (inode_of s ino)) (PAGE_SIZE - 1)))
                   (i_data (inode_of s ino))) = [] →
    f2fs_follow_link fault ino s = FollowErr (- ENOENT)) ∧
   (c_string (take (Z.to_nat (Z.min (i_size (inode_of s ino)) (PAGE_SIZE - 1)))
                   (i_data (inode_of s ino))) ≠ [] →
    f2fs_follow_link fault ino s =
    FollowLink
      (c_string (take (Z.to_nat (Z.min (i_size (inode_of s ino))
                                   (PAGE_SIZE - 1)))
                      (i_data (inode_of s ino)))))).
Proof.
  unfold f2fs_follow_link. split.
  { intros H. by destruct (Z.eqb_spec fault 0). }
  intros ->. change (negb (0 =? 0)) with false. cbv iota zeta.
  fold (c_string (page_getlink s ino)).
  set (n := Z.to_nat (Z.min (i_size (inode_of s ino)) (PAGE_SIZE - 1))).
  assert (Hn : (n < Z.to_nat PAGE_SIZE)%nat) by (unfold n, PAGE_SIZE; lia).
  assert (Hc : c_string (page_getlink s ino)
               = c_string (take n (i_data (inode_of s ino)))).
  { unfold page_getlink, read_mapping_page. fold n.
    rewrite c_string_insert_nul.
    - rewrite take_take, Nat.min_l by lia.
      rewrite take_app, take_replicate. apply c_string_app_zeros.
    - rewrite length_take, length_app, length_replicate. lia. }
  destruct (Z.eqb_spec (char_at (page_getlink s ino) 0) 0) as [H0|H0];
    rewrite c_string_nil_iff, Hc in H0.
  - split; [done|]. intros H. by destruct H.
  - split; [intros H; by destruct H0|]. intros _. by rewrite Hc.
Qed.

Lemma named_new_inode_finish (s s3 : f2fs_sb_info) (d : dentry) (dir ino : Z)
    (rest : list Z) (i3 : inode) :
  free_nids s = ino :: rest → inodes s !! ino = None →
  inodes s3 = <[ino := i3]> (inodes s) →
  dentries s3 = <[d_parent d := dir_slots s (d_parent d)
                                 ++ [Some (DirEntry (d_name d) ino)]]>
                  (dentries s) →
  free_nids s3 = rest → n_orphans s3 = n_orphans s →
  orphan_list s3 = orphan_list s → cp_rwsem s3 = cp_rwsem s →
  named_new_inode s
    (if IS_DIRSYNC (d_instantiate_new d ino s3) dir
     then f2fs_sync_fs (d_instantiate_new d ino s3)
     else d_instantiate_new d ino s3) d ino ∧
  i_mode (inode_of (if IS_DIRSYNC (d_instantiate_new d ino s3) dir
                    then f2fs_sync_fs (d_instantiate_new d ino s3)
                    else d_instantiate_new d ino s3) ino) = i_mode i3 ∧
  i_data (inode_of (if IS_DIRSYNC (d_instantiate_new d ino s3) dir
                    then f2fs_sync_fs (d_instantiate_new d ino s3)
                    else d_instantiate_new d ino s3) ino) = i_data i3.
Proof.
  intros Hfree Hnone Hi Hd Hf Hno Hol Hcp.
  set (s4 := d_instantiate_new d ino s3).
  assert (H4 : inodes s4
               = <[ino := set_i_state (Z.ldiff (i_state i3) I_NEW) i3]> (inodes s)
               ∧ dentries s4 = dentries s3 ∧ free_nids s4 = free_nids s3
               ∧ n_orphans s4 = n_orphans s3 ∧ orphan_list s4 = orphan_list s3
               ∧ cp_rwsem s4 = cp_rwsem s3).
  { unfold s4, d_instantiate_new, unlock_new_inode. fields.
    by rewrite Hi, alter_insert_eq. }
  clearbody s4. destruct H4 as (Hi4 & Hd4 & Hf4 & Hno4 & Hol4 & Hcp4).
  assert (H5 : ∀ b : bool,
    inodes (if b then f2fs_sync_fs s4 else s4) = inodes s4 ∧
    dentries (if b then f2fs_sync_fs s4 else s4) = dentries s4 ∧
    free_nids (if b then f2fs_sync_fs s4 else s4) = free_nids s4 ∧
    n_orphans (if b then f2fs_sync_fs s4 else s4) = n_orphans s4 ∧
    orphan_list (if b then f2fs_sync_fs s4 else s4) = orphan_list s4 ∧
    cp_rwsem (if b then f2fs_sync_fs s4 else s4) = cp_rwsem s4)
    by (by intros []).
  destruct (H5 (IS_DIRSYNC s4 dir)) as (Hi5 & Hd5 & Hf5 & Hno5 & Hol5 & Hcp5).
  set (s5 := if IS_DIRSYNC s4 dir then f2fs_sync_fs s4 else s4) in *.
  clearbody s5. clear H5.
  unfold named_new_inode, inode_of. rewrite Hi5, Hi4, lookup_insert_eq.
  split; [|done].
  split; [exists rest; split; [done|congruence]|].
  split; [done|]. split; [done|].
  split; [intros k Hk; by rewrite lookup_insert_ne|].
  split; [apply entry_of_snoc; congruence|].
  repeat split; congruence.
Qed.

Lemma S_ISLNK_init_owner dm :
  S_ISLNK (inode_init_owner dm (Z.lor S_IFLNK S_IRWXUGO)) = true.
Proof. unfold inode_init_owner. by destruct (negb _). Qed.

(** X28: what [f2fs_symlink] leaves behind.  When it answers [0], the
    first free node id has become a symlink inode that the dentry names, and
    its data are the target as given, in a plain directory, or the length
    of the ciphertext on 16 bits, low byte first, and the ciphertext, in an
    encrypted directory.  When it answers an error, either the state is as
    before, the log apart, or the name was linked already: then the dentry
    names the new inode, which holds no data. *)
Theorem f2fs_symlink_outcomes (env : symlink_env) (dir : Z) (d : dentry)
    (symname : list Z) (s : f2fs_sb_info) :
  (fst (f2fs_symlink env dir d symname s) = 0 →
   ∃ ino,
     named_new_inode s (snd (f2fs_symlink env dir d symname s)) d ino ∧
     S_ISLNK (i_mode (inode_of (snd (f2fs_symlink env dir d symname s)) ino))
       = true ∧
     i_data (inode_of (snd (f2fs_symlink env dir d symname s)) ino) =
       if f2fs_encrypted_inode s dir
       then cpu_to_le16
              (Z.of_nat (length (snd (se_usr_to_disk env symname))))
              ++ snd (se_usr_to_disk env symname)
       else symname) ∧
  (fst (f2fs_symlink env dir d symname s) ≠ 0 →
   same_but_log s (snd (f2fs_symlink env dir d symname s)) ∨
   ∃ ino,
     se_add_link env = 0 ∧
     named_new_inode s (snd (f2fs_symlink env dir d symname s)) d ino ∧
     S_ISLNK (i_mode (inode_of (snd (f2fs_symlink env dir d symname s)) ino))
       = true ∧
     i_data (inode_of (snd (f2fs_symlink env dir d symname s)) ino) = []).
Proof.
  unfold f2fs_symlink. cbv zeta.
  destruct (Z.of_nat (length symname) >? s_blocksize s) eqn:Elen.
  { cbn [fst snd]. split; [done|]. intros _. left. by repeat split. }
  destruct (f2fs_new_inode (se_nomem env) dir (Z.lor S_IFLNK S_IRWXUGO)
              (f2fs_balance_fs s)) as [[e|ino] s1] eqn:E.
  { apply f2fs_new_inode_inl in E as [He Hs]. cbn [fst snd].
    split; [done|]. intros _. left. exact Hs. }
  apply f2fs_new_inode_inr in E
    as (rest & i & Hfree & Hnone & Hi & Hd & Hf & Hno & Hmo & Hol & Hcp & Hbs
        & Hmode & Hnl & Hst & Hsz & Hds & Hnm & Hdata & Hadv & _).
  unfold f2fs_balance_fs in *. fields.
  assert (Henc : f2fs_encrypted_inode s1 dir = f2fs_encrypted_inode s dir).
  { unfold f2fs_encrypted_inode, inode_of. rewrite Hi.
    destruct (decide (ino = dir)) as [<-|]; [|by rewrite lookup_insert_ne].
    rewrite lookup_insert_eq. cbn [default from_option id]. rewrite Hadv.
    unfold f2fs_encrypted_inode, inode_of. fields. rewrite Hnone.
    cbn [default from_option id]. unfold zero_inode. cbn [i_advise].
    change (negb (Z.land 0 FADVISE_ENCRYPT_BIT =? 0)) with false.
    cbn [andb]. done. }
  unfold f2fs_add_link, __f2fs_add_link.
  destruct (se_add_link env =? 0) eqn:Ea; cbv beta iota zeta.
  2:{ rewrite Ea. cbn [negb fst snd]. apply Z.eqb_neq in Ea.
      split; [done|]. intros _. left.
      unfold handle_failed_inode, alloc_nid_failed, f2fs_unlock_op,
        f2fs_lock_op, same_but_log. fields.
      rewrite Hi, delete_insert_id by done.
      repeat split; try done; try congruence; lia. }
  apply Z.eqb_eq in Ea. change (negb (0 =? 0)) with false. cbv iota.
  match goal with |- context [alloc_nid_done ino ?st] =>
    set (s2 := alloc_nid_done ino st) end.
  assert (H2 : inodes s2 = <[ino := i]> (inodes s) ∧
    dentries s2 = <[d_parent d := dir_slots s (d_parent d)
                                   ++ [Some (DirEntry (d_name d) ino)]]>
                    (dentries s) ∧
    free_nids s2 = rest ∧ n_orphans s2 = n_orphans s ∧
    orphan_list s2 = orphan_list s ∧ cp_rwsem s2 = cp_rwsem s ∧
    s_blocksize s2 = s_blocksize s ∧
    f2fs_encrypted_inode s2 dir = f2fs_encrypted_inode s dir).
  { unfold s2, alloc_nid_done, f2fs_unlock_op, f2fs_lock_op.
    unfold f2fs_encrypted_inode, inode_of, dir_slots in *. fields.
    rewrite Hd. repeat split; try done; lia. }
  clearbody s2.
  destruct H2 as (Hi2 & Hd2 & Hf2 & Hno2 & Hol2 & Hcp2 & Hbs2 & Henc2).
  rewrite Henc2.
  set (data := if f2fs_encrypted_inode s dir
               then cpu_to_le16
                      (Z.of_nat (length (snd (se_usr_to_disk env symname))))
                      ++ snd (se_usr_to_disk env symname)
               else symname).
  match goal with |- context [let '(err, st) := ?c in _] =>
    destruct c as [err s3] eqn:E3 end.
  assert (H3 : (err = 0 ∧ s3 = upd_inode (set_i_data data) ino s2)
               ∨ (err ≠ 0 ∧ s3 = s2)).
  { revert E3. unfold data, page_symlink.
    destruct (f2fs_encrypted_inode s dir).
    - destruct (Z.eqb_spec (se_get_encryption_info env) 0) as [_|?];
        cbn [negb]; [|intros [<- <-]%pair_equal_spec; by right].
      destruct (Z.eqb_spec (se_alloc_buffer env) 0) as [_|?];
        cbn [negb]; [|intros [<- <-]%pair_equal_spec; by right].
      destruct (se_usr_to_disk env symname) as [res disk_link].
      cbn [snd].
      destruct (Z.ltb_spec res 0); [intros [<- <-]%pair_equal_spec; right; split; [lia|done]|].
      destruct (encrypted_symlink_data_len _ + 1 >? _); [intros [<- <-]%pair_equal_spec; by right|].
      destruct (se_kzalloc_fail env); [intros [<- <-]%pair_equal_spec; by right|].
      destruct (Z.eqb_spec (se_page_symlink env) 0) as [_|?];
        [|intros [<- <-]%pair_equal_spec; by right].
      intros [<- <-]%pair_equal_spec. left. split; [done|]. do 3 f_equal.
      unfold encrypted_symlink_data_len, sizeof_f2fs_encrypted_symlink_data,
        cpu_to_le16.
      replace (Z.to_nat (Z.of_nat (length disk_link) + 3 - 1 + 1 - 1))
        with (S (S (length disk_link))) by lia.
      cbn [app take]. by rewrite take_app_length.
    - destruct (Z.eqb_spec (se_page_symlink env) 0) as [_|?];
        [|intros [<- <-]%pair_equal_spec; by right].
      intros [<- <-]%pair_equal_spec. left. split; [done|]. do 3 f_equal.
      replace (Z.to_nat (Z.of_nat (length symname) + 1 - 1))
        with (length symname) by lia.
      by rewrite take_app_length. }
  clear E3. cbn [fst snd].
  destruct H3 as [[-> ->]|[Herr ->]].
  - split; [intros _|done]. exists ino.
    destruct (named_new_inode_finish s (upd_inode (set_i_data data) ino s2) d
                dir ino rest (set_i_data data i) Hfree Hnone)
      as (Hn & Hm & Hdt); fields;
      try (rewrite ?Hi2, ?alter_insert_eq; congruence).
    split; [exact Hn|]. split; [|exact Hdt].
    rewrite Hm. cbn [set_i_data i_mode]. rewrite Hmode.
    apply S_ISLNK_init_owner.
  - split; [done|]. intros _. right. exists ino. split; [done|].
    destruct (named_new_inode_finish s s2 d dir ino rest i Hfree Hnone)
      as (Hn & Hm & Hdt); try congruence.
    split; [exact Hn|]. split; [|by rewrite Hdt].
    rewrite Hm, Hmode. apply S_ISLNK_init_owner.
Qed.

(** * Rename with a whiteout *)

Lemma i_mode_alter (m : gmap Z inode) (f : inode → inode) (ino k : Z) :
  (∀ i, i_mode (f i) = i_mode i) →
  i_mode (default zero_inode (alter f ino m !! k))
  = i_mode (default zero_inode (m !! k)).
Proof.
  intros Hf. rewrite lookup_alter. case_decide; [subst|done].
  destruct (m !! k); [apply Hf|done].
Qed.

(** What a successful [f2fs_rename] with [RENAME_WHITEOUT] of an inode that
    is not a directory to a free name does to the directories. *)
Lemma f2fs_rename_whiteout_effect env old_dir old_dentry new_dir new_dentry
    flags s :
  Z.land flags RENAME_WHITEOUT ≠ 0 →
  d_inode new_dentry = 0 →
  S_ISDIR (i_mode (inode_of s (d_inode old_dentry))) = false →
  0 ∉ free_nids s →
  fst (f2fs_rename env old_dir old_dentry new_dir new_dentry flags s) = 0 →
  ∃ slot w rest,
    find_slot false (d_name old_dentry) (dir_slots s old_dir) = Some slot ∧
    free_nids s = w :: rest ∧ inodes s !! w = None ∧
    i_mode (inode_of (snd (f2fs_rename env old_dir old_dentry new_dir
                             new_dentry flags s)) w) = S_IFCHR ∧
    (let dA :=
       <[d_parent new_dentry :=
           dir_slots s (d_parent new_dentry)
           ++ [Some (DirEntry (d_name new_dentry) (d_inode old_dentry))]]>
         (dentries s) in
     let dB :=
       <[old_dir := <[slot := None]> (default [] (dA !! old_dir))]> dA in
     dentries (snd (f2fs_rename env old_dir old_dentry new_dir new_dentry
                      flags s))
     = <[d_parent old_dentry :=
           default [] (dB !! d_parent old_dentry)
           ++ [Some (DirEntry (d_name old_dentry) w)]]> dB) ∧
    cp_rwsem (snd (f2fs_rename env old_dir old_dentry new_dir new_dentry
                     flags s)) = cp_rwsem s.
Proof.
  intros Hfl Hni Hdir Hz.
  destruct (f2fs_rename env old_dir old_dentry new_dir new_dentry flags s)
    as [err s'] eqn:E.
  cbn [fst snd]. intros ->. revert E. unfold f2fs_rename. cbv zeta.
  destruct (negb (old_dir =? new_dir) && f2fs_encrypted_inode s new_dir
            && negb (re_context_ok env)); [done|].
  unfold f2fs_find_entry at 1.
  change (negb (Z.land 0 LOOKUP_NOCASE =? 0)) with false.
  change (dir_slots (f2fs_balance_fs s) old_dir) with (dir_slots s old_dir).
  destruct (find_slot false (d_name old_dentry) (dir_slots s old_dir))
    as [old_entry|] eqn:Eold; [|done].
  change (inode_of (emit _ (f2fs_balance_fs s)) (d_inode old_dentry))
    with (inode_of s (d_inode old_dentry)).
  rewrite Hdir, Hni. cbn [andb]. cbv iota.
  destruct (Z.eqb_spec (Z.land flags RENAME_WHITEOUT) 0) as [|_]; [done|].
  unfold f2fs_create_whiteout.
  match goal with |- context [__f2fs_tmpfile ?e ?d ?o ?m ?w ?st] =>
    set (s0 := st);
    destruct (__f2fs_tmpfile e d o m w s0) as [[err wh] s1] eqn:Et end.
  apply __f2fs_tmpfile_all_or_nothing in Et as [_ Hok].
  cbv beta iota zeta.
  destruct (Z.eqb_spec err 0) as [->|Hne]; cbn [negb]; cbv iota;
    [|intros H; apply (f_equal fst) in H; by destruct Hne].
  destruct (Hok eq_refl)
    as (w & rest & i & Hfree & Hnone & Hf1 & Hd1 & Hi1 & Hm & _ & _ & _ & _ & _
        & Hcp1 & ->).
  clear Hok. unfold s0, f2fs_balance_fs in Hfree, Hnone, Hd1, Hcp1, Hm.
  fields. clear s0.
  assert (Hw : w ≠ 0).
  { intros ->. apply Hz. rewrite Hfree. apply elem_of_cons. by left. }
  assert (Hmode : i_mode (inode_of s1 w) = S_IFCHR).
  { unfold inode_of. rewrite Hi1. cbn [default from_option id]. rewrite Hm.
    unfold inode_init_owner. by destruct (negb _). }
  unfold f2fs_rename_target. change (negb (0 =? 0)) with false. cbv iota.
  unfold f2fs_add_link at 1. unfold __f2fs_add_link at 1.
  destruct (re_add_link env =? 0) eqn:Ea; cbv beta iota zeta.
  2:{ rewrite Ea. cbn [negb]. unfold rename_out_whiteout.
      intros [= H _]. by rewrite H in Ea. }
  change (negb (0 =? 0)) with false. cbv iota.
  change (bool_decide (is_Some (@None nat))) with false. cbv iota.
  unfold f2fs_rename_finish. cbv zeta. change (0 =? 0) with true.
  cbn [negb andb]. cbv iota.
  destruct (Z.eqb_spec w 0) as [|_]; [done|].
  unfold f2fs_add_link, __f2fs_add_link.
  destruct (re_add_whiteout env =? 0) eqn:Ew; cbv beta iota zeta.
  2:{ rewrite Ew. cbn [negb]. unfold rename_put_out_dir, rename_out_whiteout.
      intros [= H _]. by rewrite H in Ew. }
  change (negb (0 =? 0)) with false. cbv iota.
  intros [= <-]. exists old_entry, w, rest.
  split; [done|]. split; [done|]. split; [done|].
  destruct (IS_DIRSYNC _ old_dir || IS_DIRSYNC _ new_dir);
    unfold f2fs_sync_fs, f2fs_unlock_op, f2fs_delete_entry, file_lost_pino,
      f2fs_lock_op, iput, set_inode_flag, dir_slots, inode_of in *; fields;
    rewrite ?Hd1;
    (split; [rewrite !i_mode_alter by done; exact Hmode|]);
    (split; [reflexivity|lia]).
Qed.

(** X29: a rename with [RENAME_WHITEOUT] leaves a whiteout behind.  When
    [f2fs_rename] with that flag moves an inode that is not a directory to
    a dentry without inode and answers [0], no free node id being [0], then
    the first free node id has become a character device that the old
    dentry names, the new dentry names the moved inode, no other entry has
    appeared, and the ordering lock is as before. *)
Theorem f2fs_rename_whiteout_leaves_whiteout (env : rename_env) (old_dir : Z)
    (old_dentry : dentry) (new_dir : Z) (new_dentry : dentry) (flags : Z)
    (s : f2fs_sb_info) :
  Z.land flags RENAME_WHITEOUT ≠ 0 →
  d_inode new_dentry = 0 →
  S_ISDIR (i_mode (inode_of s (d_inode old_dentry))) = false →
  0 ∉ free_nids s →
  fst (f2fs_rename env old_dir old_dentry new_dir new_dentry flags s) = 0 →
  ∃ w rest,
    free_nids s = w :: rest ∧ inodes s !! w = None ∧
    i_mode (inode_of (snd (f2fs_rename env old_dir old_dentry new_dir
                             new_dentry flags s)) w) = S_IFCHR ∧
    entry_of (snd (f2fs_rename env old_dir old_dentry new_dir new_dentry
                     flags s))
      (d_parent old_dentry) (d_name old_dentry) w ∧
    entry_of (snd (f2fs_rename env old_dir old_dentry new_dir new_dentry
                     flags s))
      (d_parent new_dentry) (d_name new_dentry) (d_inode old_dentry) ∧
    (∀ p n k,
       entry_of (snd (f2fs_rename env old_dir old_dentry new_dir new_dentry
                        flags s)) p n k →
       entry_of s p n k ∨
       (p = d_parent new_dentry ∧ n = d_name new_dentry
        ∧ k = d_inode old_dentry) ∨
       (p = d_parent old_dentry ∧ n = d_name old_dentry ∧ k = w)) ∧
    cp_rwsem (snd (f2fs_rename env old_dir old_dentry new_dir new_dentry
                     flags s)) = cp_rwsem s.
Proof.
  intros Hfl Hni Hdir Hz Hok.
  destruct (f2fs_rename_whiteout_effect _ _ _ _ _ _ _ Hfl Hni Hdir Hz Hok)
    as (slot & w & rest & Hfind & Hfree & Hnone & Hm & Hd & Hcp).
  set (s' := snd (f2fs_rename env old_dir old_dentry new_dir new_dentry flags s))
    in *. clearbody s'. cbv zeta in Hd.
  exists w, rest. split; [done|]. split; [done|]. split; [done|].
  set (np := d_parent new_dentry) in *. clearbody np.
  set (op := d_parent old_dentry) in *. clearbody op.
  set (sA := set_dentries
               (<[np := dir_slots s np
                        ++ [Some (DirEntry (d_name new_dentry)
                                    (d_inode old_dentry))]]> (dentries s)) s).
  assert (HA : ∀ p n k, entry_of sA p n k ↔
             entry_of s p n k ∨
             (p = np ∧ n = d_name new_dentry ∧ k = d_inode old_dentry))
    by (by apply entry_of_snoc).
  set (sB := set_dentries
               (<[old_dir := <[slot := None]> (dir_slots sA old_dir)]>
                  (dentries sA)) sA).
  assert (HB : ∀ p n k, entry_of s' p n k ↔
             entry_of sB p n k ∨
             (p = op ∧ n = d_name old_dentry ∧ k = w))
    by (apply entry_of_snoc; exact Hd).
  destruct (find_slot_Some _ _ _ _ Hfind) as (e0 & Hl0 & Hm0).
  apply de_match_exact in Hm0 as (de0 & -> & Hn0).
  assert (HlA : dir_slots sA old_dir !! slot = Some (Some de0)).
  { unfold sA. rewrite dir_slots_set_dentries. case_decide; [subst np|done].
    by rewrite lookup_app_l by (by eapply lookup_lt_Some). }
  destruct (entry_of_delete sA sB old_dir slot de0 eq_refl HlA) as [Hsub _].
  split; [apply HB; by right|].
  split; [|split; [|done]].
  - apply HB. left. unfold entry_of, dir_slots at 1, sB. fields.
    assert (HnA : dir_slots sA np
                  = dir_slots s np ++ [Some (DirEntry (d_name new_dentry)
                                               (d_inode old_dentry))])
      by (unfold sA; by rewrite dir_slots_set_dentries_eq).
    destruct (decide (old_dir = np)) as [Heq|Hne].
    + rewrite Heq, lookup_insert_eq. cbn [default from_option id].
      apply (list_elem_of_lookup_2 _ (length (dir_slots s np))).
      rewrite list_lookup_insert_ne.
      * rewrite HnA, lookup_app_r by lia. by rewrite Nat.sub_diag.
      * intros Hsl. apply lookup_lt_Some in Hl0. rewrite Heq in Hl0. lia.
    + rewrite lookup_insert_ne by done.
      change (default [] (dentries sA !! np)) with (dir_slots sA np).
      rewrite HnA.
      apply elem_of_app. right. by apply list_elem_of_singleton.
  - intros p n k [H|H]%HB; [|by right; right].
    apply Hsub, HA in H as [H|H]; [by left|by right; left].
Qed.

Lemma f2fs_rename_whiteout_leaves_whiteout_witness :
  ∃ w rest,
    free_nids ex_sbi = w :: rest ∧ inodes ex_sbi !! w = None ∧
    i_mode (inode_of (snd (f2fs_rename ex_rename_env 3 (ex_dentry "a" 4 3) 6
                             (ex_dentry "c" 0 6) RENAME_WHITEOUT ex_sbi)) w)
      = S_IFCHR ∧
    entry_of (snd (f2fs_rename ex_rename_env 3 (ex_dentry "a" 4 3) 6
                     (ex_dentry "c" 0 6) RENAME_WHITEOUT ex_sbi))
      3 (cstr "a") w ∧
    entry_of (snd (f2fs_rename ex_rename_env 3 (ex_dentry "a" 4 3) 6
                     (ex_dentry "c" 0 6) RENAME_WHITEOUT ex_sbi))
      6 (cstr "c") 4 ∧
    (∀ p n k,
       entry_of (snd (f2fs_rename ex_rename_env 3 (ex_dentry "a" 4 3) 6
                        (ex_dentry "c" 0 6) RENAME_WHITEOUT ex_sbi)) p n k →
       entry_of ex_sbi p n k ∨ (p = 6 ∧ n = cstr "c" ∧ k = 4) ∨
       (p = 3 ∧ n = cstr "a" ∧ k = w)) ∧
    cp_rwsem (snd (f2fs_rename ex_rename_env 3 (ex_dentry "a" 4 3) 6
                     (ex_dentry "c" 0 6) RENAME_WHITEOUT ex_sbi))
      = cp_rwsem ex_sbi.
Proof.
  apply (f2fs_rename_whiteout_leaves_whiteout ex_rename_env 3
           (ex_dentry "a" 4 3) 6 (ex_dentry "c" 0 6) RENAME_WHITEOUT ex_sbi).
  - vm_compute. discriminate.
  - reflexivity.
  - vm_compute. reflexivity.
  - vm_compute. intros H.
    by repeat (apply elem_of_cons in H as [H|H]; [done|]);
      apply elem_of_nil in H.
  - vm_compute. reflexivity.
Defined.

(** * The ordering lock *)

Lemma f2fs_rename_target_lock env old_inode new_inode ode whiteout new_dir
    new_dentry s :
  match f2fs_rename_target env old_inode new_inode ode whiteout new_dir
          new_dentry s with
  | inl (_, s') => cp_rwsem s' = cp_rwsem s
  | inr s' => cp_rwsem s' = cp_rwsem s + 1
  end.
Proof.
  unfold f2fs_rename_target, rename_put_out_dir, rename_out_whiteout,
    f2fs_find_entry, acquire_orphan_inode, update_dent_inode,
    release_orphan_inode, add_orphan_inode, f2fs_add_link, __f2fs_add_link,
    f2fs_lock_op, f2fs_unlock_op, iput, f2fs_set_link, drop_nlink, inc_nlink.
  steps; fields; try done; try lia.
Qed.

Lemma f2fs_rename_finish_lock env old_dir old_dentry new_dir new_inode
    old_entry ode whiteout s :
  cp_rwsem (snd (f2fs_rename_finish env old_dir old_dentry new_dir new_inode
                   old_entry ode whiteout s)) = cp_rwsem s - 1.
Proof.
  unfold f2fs_rename_finish, rename_put_out_dir, rename_out_whiteout,
    f2fs_add_link, __f2fs_add_link, file_lost_pino, file_set_enc_name,
    f2fs_delete_entry, set_inode_flag, f2fs_set_link, drop_nlink,
    f2fs_sync_fs, f2fs_unlock_op, iput.
  steps; cbn [fst snd]; fields; try done; try lia.
Qed.

Lemma f2fs_create_whiteout_lock env dir s :
  cp_rwsem (snd (f2fs_create_whiteout env dir s)) = cp_rwsem s.
Proof.
  unfold f2fs_create_whiteout.
  destruct (__f2fs_tmpfile env dir None (Z.lor S_IFCHR WHITEOUT_MODE) true s)
    as [[err wh] s'] eqn:E.
  apply __f2fs_tmpfile_all_or_nothing in E as [Hfail Hok]. cbn [snd].
  destruct (decide (err = 0)) as [H|H].
  - by destruct (Hok H) as (? & ? & ? & _ & _ & _ & _ & _ & _ & _ & _ & _ & _
                             & _ & ? & _).
  - by destruct (Hfail H) as (_ & _ & _ & _ & _ & _ & ?).
Qed.

Lemma f2fs_rename_lock env old_dir old_dentry new_dir new_dentry flags s :
  cp_rwsem (snd (f2fs_rename env old_dir old_dentry new_dir new_dentry flags s))
  = cp_rwsem s.
Proof.
  unfold f2fs_rename. cbv zeta.
  destruct (_ && _ && _); [done|].
  unfold f2fs_find_entry at 1.
  destruct (find_slot _ _ _) as [old_entry|]; [|done].
  match goal with |- context [if ?c then f2fs_parent_dir ?i ?st else (None, ?st)] =>
    set (isd := c); set (s1 := st);
    assert (H1 : cp_rwsem s1 = cp_rwsem s) by done;
    clearbody isd; clearbody s1 end.
  destruct (if isd then f2fs_parent_dir (d_inode old_dentry) s1 else (None, s1))
    as [ode s2] eqn:E2.
  assert (H2 : cp_rwsem s2 = cp_rwsem s).
  { destruct isd; unfold f2fs_parent_dir, f2fs_find_entry in E2;
      injection E2 as _ <-; done. }
  clear E2 H1 s1. destruct (isd && _); [done|]. clear isd.
  match goal with |- context [if ?c then (0, 0, s2) else ?w] =>
    destruct (if c then (0, 0, s2) else w) as [[err wh] s3] eqn:E3 end.
  assert (H3 : cp_rwsem s3 = cp_rwsem s).
  { destruct (_ =? 0) in E3; [by injection E3 as _ _ <-|].
    pose proof (f2fs_create_whiteout_lock (re_whiteout env) old_dir s2) as H.
    rewrite E3 in H. cbn [snd] in H. congruence. }
  clear E3 H2 s2. destruct (negb (err =? 0)); [done|].
  pose proof (f2fs_rename_target_lock env (d_inode old_dentry)
                (d_inode new_dentry) ode wh new_dir new_dentry s3) as Ht.
  destruct (f2fs_rename_target _ _ _ _ _ _ _ s3) as [[e s4]|s4].
  - cbn [snd]. congruence.
  - rewrite f2fs_rename_finish_lock. lia.
Qed.

Lemma f2fs_unlink_lock dir d s :
  cp_rwsem (snd (f2fs_unlink dir d s)) = cp_rwsem s.
Proof.
  unfold f2fs_unlink, f2fs_find_entry, acquire_orphan_inode, f2fs_delete_entry,
    f2fs_lock_op, f2fs_unlock_op, f2fs_sync_fs, f2fs_balance_fs.
  steps; cbn [fst snd]; fields; try done; lia.
Qed.

(** X30: the operations that remove or move entries release the ordering
    lock as often as they take it: on every path through [f2fs_unlink],
    [f2fs_rmdir], [f2fs_rename], [f2fs_cross_rename] and [f2fs_rename2],
    the failing ones included, the lock count at the end is the one from
    the beginning. *)
Theorem f2fs_rename2_lock_balance (link_max : Z) (renv : rename_env)
    (cenv : cross_env) (old_dir : Z) (old_dentry : dentry) (new_dir : Z)
    (new_dentry : dentry) (flags : Z) (s : f2fs_sb_info) :
  cp_rwsem (snd (f2fs_unlink old_dir old_dentry s)) = cp_rwsem s ∧
  cp_rwsem (snd (f2fs_rmdir old_dir old_dentry s)) = cp_rwsem s ∧
  cp_rwsem (snd (f2fs_rename renv old_dir old_dentry new_dir new_dentry
                   flags s)) = cp_rwsem s ∧
  cp_rwsem (snd (f2fs_cross_rename link_max cenv old_dir old_dentry new_dir
                   new_dentry s)) = cp_rwsem s ∧
  cp_rwsem (snd (f2fs_rename2 link_max renv cenv old_dir old_dentry new_dir
                   new_dentry flags s)) = cp_rwsem s.
Proof.
  assert (Hc : cp_rwsem (snd (f2fs_cross_rename link_max cenv old_dir
                                old_dentry new_dir new_dentry s))
               = cp_rwsem s).
  { destruct (f2fs_cross_rename link_max cenv old_dir old_dentry new_dir
                new_dentry s) as [err s'] eqn:E. cbn [snd].
    destruct (decide (err = 0)) as [->|H].
    - by apply f2fs_cross_rename_effect in E
        as (? & ? & ? & ? & _ & _ & _ & _ & _ & _ & _ & _ & _ & _ & ?).
    - by destruct (f2fs_cross_rename_failure_frame _ _ _ _ _ _ _ _ _ E H). }
  split; [apply f2fs_unlink_lock|].
  split; [unfold f2fs_rmdir; destruct (f2fs_empty_dir _ _);
          [apply f2fs_unlink_lock|done]|].
  split; [apply f2fs_rename_lock|]. split; [exact Hc|].
  unfold f2fs_rename2. destruct (negb _); [done|].
  destruct (negb _); [exact Hc|apply f2fs_rename_lock].
Qed.

(** * Failure of a rename *)









